(** * arqam: the budget analyzer (src/lib/budgetAnalyzer.ts), embedded in Rocq

    The analyzer is a TypeScript class [BudgetAnalyzer] holding an array of
    spreadsheet rows and answering a free-text question with a narrative, an
    optional data payload and an optional chart tag.

    Beside the analyzer the development embeds what its callers compute:
    the chat handler of the page ([handleSendMessage]), the yearly series,
    the cards and the preview table of the visualization component, and
    the test on the file name of the upload component.

    Modelling conventions.
    - A JavaScript number is an IEEE 754 binary64 value: the kernel's [float],
      whose operations are specified by [SpecFloat] through [FloatAxioms].
      [nan = nan] holds for Leibniz equality; the language's [===], [<], [>]
      are [PrimFloat.eqb], [PrimFloat.ltb].
    - A JavaScript string is a [string] of bytes, its UTF-8 encoding; where
      the language compares strings it compares their UTF-16 code units,
      which [code_units] recovers from the bytes.
    - A row is a plain object: the list of its own properties in
      [Object.keys] order, with distinct keys; cell values are the
      primitives a sheet decoder yields.
    - The objects the methods accumulate into ([{}] passed to [reduce]) are
      property lists too; a key that names a member of [Object.prototype]
      reads as present on them, as it does in the language.
    - Integer quantities that the source keeps in numbers (array lengths,
      counters, indices) are kept in [nat]; they are below 2^32, where double
      arithmetic on them is exact.  They are converted to [float] where the
      source divides or multiplies them into a fraction.
    - What the language leaves to the host is a parameter ([Host]); what a
      call reads from the outside world, the calendar year and the random
      draw, is an argument of the call ([Moment]).
    - No method assigns to [this.data] or to a property of a row.  The one
      update in place, [discrepancies.sort(...)], acts on an array the
      method has just built, and the result refers to that same array.
    - [BudgetAnalyzer] gives each method as a function of the record set;
      [Stateful] gives the methods again as they run in a state, with the
      arrays and the properties a call can leave on [Object.prototype] and
      its members made explicit, and the two are proved to agree. *)

From Stdlib Require Import ZArith NArith List String Ascii Bool Lia.
From Stdlib Require Import Floats.
Set Warnings "-inexact-float".
From Stdlib Require Import Permutation Sorted.
From Stdlib Require DecimalString.
From Stdlib Require Import FunctionalExtensionality.
Import ListNotations.

Local Open Scope list_scope.
Local Open Scope string_scope.

(** ** The JavaScript runtime the analyzer relies on *)

Module JS.

(** *** Numbers *)

Definition number := float.

Definition gt (x y : number) : bool := PrimFloat.ltb y x.
Definition lt (x y : number) : bool := PrimFloat.ltb x y.

Definition round_Z (z : Z) : number :=
  SF2Prim (binary_normalize prec emax z 0 false).

(** [ToNumber] of an array length or a counter. *)
Definition of_nat (n : nat) : number := round_Z (Z.of_nat n).

Definition is_nan (x : number) : bool := negb (PrimFloat.eqb x x).

(** *** Strings *)

Definition lower_ascii (c : ascii) : ascii :=
  let n := nat_of_ascii c in
  if (65 <=? n)%nat && (n <=? 90)%nat then ascii_of_nat (n + 32) else c.

(** [String.prototype.toLowerCase], on the ASCII letters.  The only code
    points outside ASCII whose lower-case form contains an ASCII letter are
    U+212A (to k) and U+0130 (to i followed by U+0307); no keyword of the
    classifier can be completed by either. *)
Fixpoint toLowerCase (s : string) : string :=
  match s with
  | EmptyString => EmptyString
  | String c r => String (lower_ascii c) (toLowerCase r)
  end.

(** [String.prototype.includes]. *)
Fixpoint includes (s needle : string) : bool :=
  if String.prefix needle s then true
  else match s with
       | EmptyString => false
       | String _ r => includes r needle
       end.

(** [Array.prototype.join] on strings. *)
Definition join (sep : string) (l : list string) : string :=
  String.concat sep l.

Definition string_of_N (n : N) : string :=
  DecimalString.NilZero.string_of_uint (N.to_uint n).

Definition string_of_nat (n : nat) : string := string_of_N (N.of_nat n).

(** *** [parseFloat] *)

Definition is_digit (c : ascii) : bool :=
  let n := nat_of_ascii c in (48 <=? n)%nat && (n <=? 57)%nat.

Definition digit_val (c : ascii) : Z := Z.of_nat (nat_of_ascii c) - 48.

Fixpoint span_digits (s : string) : list ascii * string :=
  match s with
  | String c r =>
      if is_digit c then let '(ds, rest) := span_digits r in (c :: ds, rest)
      else ([], s)
  | EmptyString => ([], s)
  end.

Definition digits_val (acc : Z) (ds : list ascii) : Z :=
  fold_left (fun a c => 10 * a + digit_val c)%Z ds acc.

(** White space and line terminators ([TrimString] at the start), as UTF-8. *)
Definition ws_sequences : list string :=
  [ String (ascii_of_nat 9) ""; String (ascii_of_nat 10) "";
    String (ascii_of_nat 11) ""; String (ascii_of_nat 12) "";
    String (ascii_of_nat 13) ""; " ";
    String (ascii_of_nat 194) (String (ascii_of_nat 160) "");
    String (ascii_of_nat 225) (String (ascii_of_nat 154) (String (ascii_of_nat 128) ""));
    String (ascii_of_nat 226) (String (ascii_of_nat 128) (String (ascii_of_nat 128) ""));
    String (ascii_of_nat 226) (String (ascii_of_nat 128) (String (ascii_of_nat 129) ""));
    String (ascii_of_nat 226) (String (ascii_of_nat 128) (String (ascii_of_nat 130) ""));
    String (ascii_of_nat 226) (String (ascii_of_nat 128) (String (ascii_of_nat 131) ""));
    String (ascii_of_nat 226) (String (ascii_of_nat 128) (String (ascii_of_nat 132) ""));
    String (ascii_of_nat 226) (String (ascii_of_nat 128) (String (ascii_of_nat 133) ""));
    String (ascii_of_nat 226) (String (ascii_of_nat 128) (String (ascii_of_nat 134) ""));
    String (ascii_of_nat 226) (String (ascii_of_nat 128) (String (ascii_of_nat 135) ""));
    String (ascii_of_nat 226) (String (ascii_of_nat 128) (String (ascii_of_nat 136) ""));
    String (ascii_of_nat 226) (String (ascii_of_nat 128) (String (ascii_of_nat 137) ""));
    String (ascii_of_nat 226) (String (ascii_of_nat 128) (String (ascii_of_nat 138) ""));
    String (ascii_of_nat 226) (String (ascii_of_nat 128) (String (ascii_of_nat 168) ""));
    String (ascii_of_nat 226) (String (ascii_of_nat 128) (String (ascii_of_nat 169) ""));
    String (ascii_of_nat 226) (String (ascii_of_nat 128) (String (ascii_of_nat 175) ""));
    String (ascii_of_nat 226) (String (ascii_of_nat 129) (String (ascii_of_nat 159) ""));
    String (ascii_of_nat 227) (String (ascii_of_nat 128) (String (ascii_of_nat 128) ""));
    String (ascii_of_nat 239) (String (ascii_of_nat 187) (String (ascii_of_nat 191) "")) ].

Definition strip_ws (s : string) : option string :=
  match find (fun w => String.prefix w s) ws_sequences with
  | Some w => Some (substring (String.length w) (String.length s - String.length w) s)
  | None => None
  end.

Fixpoint trim_start (fuel : nat) (s : string) : string :=
  match fuel with
  | O => s
  | S k => match strip_ws s with
           | Some r => trim_start k r
           | None => s
           end
  end.

(** The double nearest to [m * 10^e10] (ties to even), for [m > 0]. *)
Definition decimal_to_number (neg : bool) (m e10 : Z) : number :=
  match m with
  | Zpos _ =>
      if (0 <=? e10)%Z then
        SF2Prim (binary_normalize prec emax
                   (if neg then - (m * 10 ^ e10) else m * 10 ^ e10)%Z 0 false)
      else
        let '(q, e, l) := SFdiv_core_binary prec emax m 0 (10 ^ (- e10))%Z 0 in
        SF2Prim (binary_round_aux prec emax neg q e l)
  | _ => if neg then (-0)%float else 0%float
  end.

(** The exponent part: [e] or [E], an optional sign, at least one digit;
    it is not consumed otherwise. *)
Definition parse_exponent (s : string) : Z :=
  match s with
  | String c r =>
      if (Ascii.eqb c "e" || Ascii.eqb c "E")%bool then
        let '(sg, r') :=
          match r with
          | String "+" r1 => (false, r1)
          | String "-" r1 => (true, r1)
          | _ => (false, r)
          end in
        match fst (span_digits r') with
        | [] => 0%Z
        | ds => if sg then (- digits_val 0 ds)%Z else digits_val 0 ds
        end
      else 0%Z
  | EmptyString => 0%Z
  end.

(** [parseFloat] on a string: the longest prefix of the trimmed string that
    is a [StrDecimalLiteral], or [NaN] when there is none. *)
Definition parseFloat_string (s : string) : number :=
  let t := trim_start (String.length s) s in
  let '(neg, u) :=
    match t with
    | String "+" r => (false, r)
    | String "-" r => (true, r)
    | _ => (false, t)
    end in
  if String.prefix "Infinity" u then
    (if neg then neg_infinity else infinity)
  else
    let '(ip, r1) := span_digits u in
    let '(fp, r2) :=
      match r1 with
      | String "." r => span_digits r
      | _ => ([], r1)
      end in
    match ip, fp with
    | [], [] => nan
    | _, _ =>
        let m := digits_val (digits_val 0 ip) fp in
        decimal_to_number neg m (parse_exponent r2 - Z.of_nat (List.length fp))
    end.

(** *** Printing numbers *)

(** The parts of the host that the language leaves to the implementation
    or that this development does not spell out: the locale's number
    format, [Number::toString] outside the safe integers, and the source
    text of a built-in function. *)
Record Host := {
  toLocaleString : number -> string;
  numberToString : number -> string;
  functionToString : string -> string
}.

(** What a call observes of the outside world: the calendar year of
    [new Date()] and the draw of [Math.random()]. *)
Record Moment := {
  fullYear : N;
  random : number
}.

Definition two53 : Z := 9007199254740992.

(** [Number::toString]: spelled out for NaN, the infinities, the zeros and
    the integers of magnitude at most 2^53. *)
Definition number_to_string (h : Host) (x : number) : string :=
  match Prim2SF x with
  | S754_nan => "NaN"
  | S754_infinity s => if s then "-Infinity" else "Infinity"
  | S754_zero _ => "0"
  | S754_finite s m e =>
      if ((0 <=? e) && (Zpos m * 2 ^ e <=? two53))%Z then
        (if s then "-" else "") ++ string_of_N (Z.to_N (Zpos m * 2 ^ e))
      else if ((e <? 0) && (Zpos m mod 2 ^ (- e) =? 0))%Z then
        (if s then "-" else "") ++ string_of_N (Z.to_N (Zpos m / 2 ^ (- e)))
      else numberToString h x
  end.

(** The digits of [n] with a point before the last one, as [toFixed(1)]
    lays them out. *)
Definition fixed1_digits (n : N) : string :=
  let m := string_of_N n in
  let m := if (String.length m <=? 1)%nat then "0" ++ m else m in
  let k := String.length m in
  substring 0 (k - 1) m ++ "." ++ substring (k - 1) 1 m.

(** The integer nearest to [scale * m * 2^e], the larger one on a tie. *)
Definition round_scaled (scale : Z) (m : positive) (e : Z) : Z :=
  if (0 <=? e)%Z then (scale * Zpos m * 2 ^ e)%Z
  else ((2 * scale * Zpos m + 2 ^ (- e)) / 2 ^ (1 - e))%Z.

(** [Number.prototype.toFixed] with one fraction digit: the integer [n] for
    which [n / 10] is nearest to [|x|], the larger one on a tie; from 10^21
    on, the number prints as [ToString] prints it. *)
Definition toFixed1 (h : Host) (x : number) : string :=
  match Prim2SF x with
  | S754_nan => "NaN"
  | S754_infinity s => if s then "-Infinity" else "Infinity"
  | S754_zero _ => "0.0"
  | S754_finite s m e =>
      if (if 0 <=? e then 10 ^ 21 <=? Zpos m * 2 ^ e
          else 10 ^ 21 * 2 ^ (- e) <=? Zpos m)%Z
      then (if s then "-" else "") ++ number_to_string h (abs x)
      else (if s then "-" else "") ++ fixed1_digits (Z.to_N (round_scaled 10 m e))
  end.

(** *** Values and objects *)

(** The cell values of a decoded sheet. *)
Inductive value :=
| Undefined
| Null
| Bool (b : bool)
| Num (x : number)
| Str (s : string).

(** [ToBoolean]. *)
Definition truthy (v : value) : bool :=
  match v with
  | Undefined | Null => false
  | Bool b => b
  | Num x => negb (PrimFloat.eqb x 0 || is_nan x)
  | Str s => negb (String.eqb s "")
  end.

(** [a || b]. *)
Definition or_else (a b : value) : value := if truthy a then a else b.

(** [ToString]. *)
Definition to_string (h : Host) (v : value) : string :=
  match v with
  | Undefined => "undefined"
  | Null => "null"
  | Bool b => if b then "true" else "false"
  | Num x => number_to_string h x
  | Str s => s
  end.

(** [v + 1]: a string operand makes [+] a concatenation. *)
Definition plus_one (v : value) : value :=
  match v with
  | Str s => Str (s ++ "1")
  | Num x => Num (x + 1)%float
  | Bool b => Num ((if b then 1 else 0) + 1)%float
  | Null => Num (0 + 1)%float
  | Undefined => Num nan
  end.

(** [parseFloat(v)]: the argument is converted to a string first; a
    number prints to a literal that parses back to itself, except that
    negative zero prints as [0]. *)
Definition parseFloat (v : value) : number :=
  match v with
  | Num x => if PrimFloat.eqb x 0 then 0%float else x
  | Str s => parseFloat_string s
  | _ => nan
  end.

(** An object's own enumerable string-keyed properties, in the order
    [Object.keys] lists them. *)
Definition object (A : Type) := list (string * A).

Definition own {A} (o : object A) (k : string) : option A :=
  match find (fun kv => String.eqb (fst kv) k) o with
  | Some kv => Some (snd kv)
  | None => None
  end.

Definition keys {A} (o : object A) : list string := map fst o.
Definition values {A} (o : object A) : list A := map snd o.

(** [item.k] on a row. *)
Definition get (o : object value) (k : string) : value :=
  match own o k with
  | Some v => v
  | None => Undefined
  end.

(** The properties every plain object inherits from [Object.prototype]. *)
Definition prototype_names : list string :=
  [ "constructor"; "__defineGetter__"; "__defineSetter__"; "hasOwnProperty";
    "__lookupGetter__"; "__lookupSetter__"; "isPrototypeOf";
    "propertyIsEnumerable"; "toString"; "valueOf"; "__proto__";
    "toLocaleString" ].

Definition inherited (k : string) : bool :=
  existsb (String.eqb k) prototype_names.

(** A canonical array index: the decimal form of an integer below
    2^32 - 1.  Such keys are listed first, in increasing order. *)
Definition all_digits (s : string) : bool :=
  forallb is_digit (list_ascii_of_string s).

Definition index_of_key (k : string) : option Z :=
  match k with
  | EmptyString => None
  | String c r =>
      if all_digits k && (negb (Ascii.eqb c "0") || String.eqb r "") then
        let n := digits_val 0 (list_ascii_of_string k) in
        if (n <? 4294967295)%Z then Some n else None
      else None
  end.

(** Where a property that is not yet present lands in the key order. *)
Fixpoint add_new {A} (o : object A) (k : string) (v : A) : object A :=
  match o with
  | [] => [(k, v)]
  | (k', v') :: r =>
      match index_of_key k, index_of_key k' with
      | Some n, Some n' =>
          if (n <? n')%Z then (k, v) :: o else (k', v') :: add_new r k v
      | Some _, None => (k, v) :: o
      | None, _ => (k', v') :: add_new r k v
      end
  end.

Fixpoint replace {A} (o : object A) (k : string) (v : A) : object A :=
  match o with
  | [] => []
  | (k', v') :: r =>
      if String.eqb k' k then (k', v) :: r else (k', v') :: replace r k v
  end.

(** [o[k] = v] on own properties. *)
Definition set {A} (o : object A) (k : string) (v : A) : object A :=
  match own o k with
  | Some _ => replace o k v
  | None => add_new o k v
  end.

(** *** The order of strings

    A string of this development is the UTF-8 encoding of the JavaScript
    string.  The language compares strings, in [<] and in the default
    order of [Array.prototype.sort], by their UTF-16 code units, so a
    string is decoded into its code units before it is compared.  The two
    orders differ: a code point from U+10000 on is a pair of surrogates,
    which stands before the code units from U+E000 on. *)

(** A continuation byte, [10xxxxxx]. *)
Definition is_continuation (c : ascii) : bool :=
  ((128 <=? N_of_ascii c) && (N_of_ascii c <? 192))%N.

(** The six payload bits of a continuation byte. *)
Definition low6 (c : ascii) : N := (N_of_ascii c mod 64)%N.

(** The UTF-16 form of a code point: itself below U+10000, a high and a
    low surrogate from there on. *)
Definition units_of_code_point (cp : N) : list N :=
  if (cp <? 65536)%N then [cp]
  else [(55296 + (cp - 65536) / 1024)%N; (56320 + (cp - 65536) mod 1024)%N].

(** The UTF-16 code units of a string.  A byte that begins no sequence of
    the right length (which well-formed UTF-8 does not contain) counts as
    a unit of its own. *)
Fixpoint code_units (s : string) : list N :=
  match s with
  | EmptyString => []
  | String b0 r0 =>
      let n0 := N_of_ascii b0 in
      if (n0 <? 192)%N then n0 :: code_units r0
      else if (n0 <? 224)%N then
        match r0 with
        | String b1 r1 =>
            if is_continuation b1 then
              units_of_code_point ((n0 mod 32) * 64 + low6 b1)%N ++ code_units r1
            else n0 :: code_units r0
        | _ => n0 :: code_units r0
        end
      else if (n0 <? 240)%N then
        match r0 with
        | String b1 (String b2 r2) =>
            if is_continuation b1 && is_continuation b2 then
              units_of_code_point ((n0 mod 16) * 4096 + low6 b1 * 64 + low6 b2)%N
              ++ code_units r2
            else n0 :: code_units r0
        | _ => n0 :: code_units r0
        end
      else
        match r0 with
        | String b1 (String b2 (String b3 r3)) =>
            if is_continuation b1 && is_continuation b2 && is_continuation b3 then
              units_of_code_point
                ((n0 mod 8) * 262144 + low6 b1 * 4096 + low6 b2 * 64 + low6 b3)%N
              ++ code_units r3
            else n0 :: code_units r0
        | _ => n0 :: code_units r0
        end
  end.

(** The order of sequences of code units: at the first place where they
    differ the smaller unit decides; a proper prefix comes first. *)
Fixpoint units_ltb (a b : list N) : bool :=
  match a, b with
  | _, [] => false
  | [], _ :: _ => true
  | x :: a', y :: b' => (x <? y)%N || ((x =? y)%N && units_ltb a' b')
  end.

(** [a < b] on strings. *)
Definition string_ltb (a b : string) : bool :=
  units_ltb (code_units a) (code_units b).


(** *** Sorting *)

(** [Array.prototype.sort(comparefn)]: the sort is stable and orders by the
    sign of the comparator, a NaN result counting as zero.  For a
    comparator that is a consistent ordering the result is determined
    ([sort_determined] below); it is computed here by insertion from the
    right. *)
Fixpoint sort_insert {A} (cmp : A -> A -> number) (x : A) (l : list A) : list A :=
  match l with
  | [] => [x]
  | y :: r => if gt (cmp x y) 0%float then y :: sort_insert cmp x r else x :: l
  end.

Definition sort {A} (cmp : A -> A -> number) (l : list A) : list A :=
  fold_right (sort_insert cmp) [] l.

(** [Array.prototype.sort()] on strings: stable, ascending in the order
    of the UTF-16 code units. *)
Fixpoint sort_insert_string (x : string) (l : list string) : list string :=
  match l with
  | [] => [x]
  | y :: r => if string_ltb y x then y :: sort_insert_string x r else x :: l
  end.

Definition sort_strings (l : list string) : list string :=
  fold_right sort_insert_string [] l.

End JS.

(** ** Binary64 *)

Module Binary64.
Local Open Scope Z_scope.

(** The least exponent of a double, -1074. *)
Definition emin64 : Z := SpecFloat.emin prec emax.

(** Not NaN and not negative. *)
Definition SFnonneg (x : spec_float) : bool :=
  match x with
  | S754_nan => false
  | S754_zero _ => true
  | S754_infinity s | S754_finite s _ _ => negb s
  end.

(** A double that is neither NaN nor negative. *)
Definition nonneg (x : float) : Prop := SFnonneg (Prim2SF x) = true.

(** Non-negative doubles are ordered like the triples (class, exponent,
    mantissa). *)
Definition rank1 (x : spec_float) : Z :=
  match x with
  | S754_zero _ => 0 | S754_finite _ _ _ => 1 | S754_infinity _ => 2 | S754_nan => 3
  end.
Definition rank2 (x : spec_float) : Z :=
  match x with S754_finite _ _ e => e | _ => 0 end.
Definition rank3 (x : spec_float) : Z :=
  match x with S754_finite _ m _ => Zpos m | _ => 0 end.

Definition rank_lt (x y : spec_float) : Prop :=
  rank1 x < rank1 y
  \/ (rank1 x = rank1 y
      /\ (rank2 x < rank2 y \/ (rank2 x = rank2 y /\ rank3 x < rank3 y))).

Definition rank_eq (x y : spec_float) : Prop :=
  rank1 x = rank1 y /\ rank2 x = rank2 y /\ rank3 x = rank3 y.

Local Close Scope Z_scope.

(** The comparator [(a, b) => key(b) - key(a)]. *)
Definition by_key {A} (key : A -> float) (a b : A) : float := (key b - key a)%float.

(** [a] may stand before [b] when the larger key comes first. *)
Definition descending {A} (key : A -> float) (a b : A) : Prop :=
  (key b <=? key a)%float = true.

Definition keyed_nonneg {A} (key : A -> float) (a : A) : Prop := nonneg (key a).

End Binary64.

(** ** The analyzer *)

Module BudgetAnalyzer.
Import JS.

Definition nl : string := String (ascii_of_nat 10) "".

Inductive ChartType := line | bar | table.

Definition row := object value.

(** One element of the series the trend analysis returns. *)
Record TrendPoint := {
  tp_year : string;
  tp_variance : number;
  tp_budget : number;
  tp_actual : number
}.

(** [{ ...item, variance, discrepancy }]: the row with the two computed
    properties laid over it. *)
Record DiscrepancyRow := {
  d_item : row;
  d_variance : number;
  d_discrepancy : number
}.

(** [{ ...item, variance, score }]. *)
Record PerformanceRow := {
  p_item : row;
  p_variance : number;
  p_score : string
}.

(** [{ count, totalBudget, totalActual }], one per ledger key. *)
Record LedgerSums := {
  gl_count : nat;
  gl_totalBudget : number;
  gl_totalActual : number
}.

(** [{ gl, ...data, variance }]. *)
Record LedgerEntry := {
  ge_gl : string;
  ge_sums : LedgerSums;
  ge_variance : number
}.

(** [{ budget, actual }], one per year. *)
Record YearSums := {
  ys_budget : number;
  ys_actual : number
}.

(** The shapes the [data] property takes. *)
Inductive Payload :=
| TrendData (series : list TrendPoint)
| RowData (rows : list row)
| DiscrepancyData (rows : list DiscrepancyRow)
| TotalsData (totalBudget totalActual variance : number)
| AveragesData (avgBudget avgActual avgVariance : number)
| PerformanceData (rows : list PerformanceRow)
| LedgerData (sums : list LedgerSums)
| NullData.

(** [BudgetAnalysisResult]; an optional property that is left out is [None]. *)
Record BudgetAnalysisResult := {
  insight : string;
  data : option Payload;
  chartType : option ChartType
}.

Inductive error := ReferenceError (name : string).

(** How a call ends: with a result, or with a thrown error. *)
Inductive completion :=
| Normal (r : BudgetAnalysisResult)
| Throw (e : error).

(** The narrative of a completed call. *)
Definition narrative (c : completion) : option string :=
  match c with
  | Normal r => Some (insight r)
  | Throw _ => None
  end.

(** The eight analyses [analyzeQuery] chooses from. *)
Inductive AnalysisKind :=
| Trends | MissedBudgets | Discrepancies | Totals | Averages
| Performance | GLEntries | GeneralInsight.

(** The chain of tests in [analyzeQuery]. *)
Definition classify (query : string) : AnalysisKind :=
  let lowerQuery := toLowerCase query in
  if includes lowerQuery "trend" || includes lowerQuery "yearly" then Trends
  else if includes lowerQuery "missed" || includes lowerQuery "miss"
          || includes lowerQuery "over budget" then MissedBudgets
  else if includes lowerQuery "discrepan" || includes lowerQuery "variance"
          || includes lowerQuery "difference" then Discrepancies
  else if includes lowerQuery "total" || includes lowerQuery "sum" then Totals
  else if includes lowerQuery "average" || includes lowerQuery "mean" then Averages
  else if includes lowerQuery "best" || includes lowerQuery "worst"
          || includes lowerQuery "performance" then Performance
  else if includes lowerQuery "gl" || includes lowerQuery "general ledger" then GLEntries
  else GeneralInsight.

Definition indexed {A} (l : list A) : list (nat * A) :=
  combine (seq 0 (List.length l)) l.

(** [budget > 0 ? ((actual - budget) / budget) * 100 : 0]. *)
Definition variance_of (budget actual : number) : number :=
  if gt budget 0%float then ((actual - budget) / budget * 100)%float else 0%float.

(** [v > 0 ? '+' : ''] followed by [v.toFixed(1)]. *)
Definition signed_fixed1 (h : Host) (v : number) : string :=
  (if gt v 0%float then "+" else "") ++ toFixed1 h v.

(** [parseFloat(item.K || item.k || 0)], the expression every routine
    reads a numeric field with. *)
Definition numeric_field (K k : string) (item : row) : number :=
  parseFloat (or_else (or_else (get item K) (get item k)) (Num 0%float)).

(** [parseFloat(item.Budget || item.budget || 0)]. *)
Definition budget_of : row -> number := numeric_field "Budget" "budget".

(** [parseFloat(item.Actual || item.actual || 0)]. *)
Definition actual_of : row -> number := numeric_field "Actual" "actual".

(** [item.Category || item.category || item.Description || item.description || 'Unknown']. *)
Definition category_of (item : row) : value :=
  or_else (or_else (or_else (or_else (get item "Category") (get item "category"))
                             (get item "Description")) (get item "description"))
          (Str "Unknown").

Section Analyzer.
Variable h : Host.
Variable this_data : list row.
(** [new Date().getFullYear()] and [Math.random()] at the call. *)
Variable currentYear : N.
Variable draw : number.

(** [item.Year || item.year || new Date().getFullYear()], as the
    property key it is used for. *)
Definition year_of (item : row) : string :=
  to_string h (or_else (or_else (get item "Year") (get item "year"))
                       (Num (round_Z (Z.of_N currentYear)))).

(** One step of the reduction in [groupByYear].  A year that names a
    member of [Object.prototype] reads as present and is never entered:
    the sums are added onto the inherited member instead. *)
Definition groupByYear_step (acc : object YearSums) (item : row) : object YearSums :=
  let year := year_of item in
  let budget := budget_of item in
  let actual := actual_of item in
  match own acc year with
  | Some s =>
      set acc year {| ys_budget := (ys_budget s + budget)%float;
                      ys_actual := (ys_actual s + actual)%float |}
  | None =>
      if inherited year then acc
      else set acc year {| ys_budget := (0 + budget)%float;
                           ys_actual := (0 + actual)%float |}
  end.

Definition groupByYear : object YearSums :=
  fold_left groupByYear_step this_data [].

(** One step of the reduction in [groupMissesByYear]:
    [acc[year] = (acc[year] || 0) + 1].  An inherited member is truthy
    and [+] concatenates its string form with [1]; the assignment then
    creates an own property, except on [__proto__], whose setter ignores
    a string. *)
Definition groupMissesByYear_step (acc : object value) (item : row) : object value :=
  let year := year_of item in
  match own acc year with
  | Some v => set acc year (plus_one (or_else v (Num 0%float)))
  | None =>
      if String.eqb year "__proto__" then acc
      else if inherited year then set acc year (Str (functionToString h year ++ "1"))
      else set acc year (plus_one (Num 0%float))
  end.

Definition groupMissesByYear (missedBudgets : list row) : object value :=
  fold_left groupMissesByYear_step missedBudgets [].

(** *** [analyzeTrends] *)

Definition years : list string := sort_strings (keys groupByYear).

Definition trend_point (year : string) : TrendPoint :=
  let d := match own groupByYear year with
           | Some s => s
           | None => {| ys_budget := nan; ys_actual := nan |}
           end in
  {| tp_year := year;
     tp_variance := variance_of (ys_budget d) (ys_actual d);
     tp_budget := ys_budget d;
     tp_actual := ys_actual d |}.

Definition trendAnalysis : list TrendPoint := map trend_point years.

Definition variance_at (ta : list TrendPoint) (i : nat) : number :=
  match nth_error ta i with
  | Some p => tp_variance p
  | None => nan
  end.

(** [trendAnalysis.filter((_, i) => i > 0 && |v[i]| < |v[i-1]|).length]. *)
Definition improvingYears (ta : list TrendPoint) : nat :=
  List.length
    (filter (fun ip : nat * TrendPoint =>
               let i := fst ip in
               (0 <? i)%nat &&
               lt (abs (variance_at ta i)) (abs (variance_at ta (i - 1))))
            (indexed ta)).

Definition totalYears : nat := List.length years - 1.

(** [improvingYears > totalYears / 2], on integers. *)
Definition isImproving : bool :=
  (totalYears <? 2 * improvingYears trendAnalysis)%nat.

Definition year_status (v : number) : string :=
  if lt (abs v) 5%float then "✅"
  else if lt (abs v) 15%float then "⚠️" else "❌".

Definition trend_line (p : TrendPoint) : string :=
  "• " ++ tp_year p ++ ": " ++ signed_fixed1 h (tp_variance p)
  ++ "% variance " ++ year_status (tp_variance p) ++ nl.

Definition insufficient_years : string :=
  "I need at least 2 years of data to analyze trends. Your current data covers only one year or less.".

Definition positive_trend : string :=
  "📈 **Positive Trend**: Your budget accuracy has generally improved over time." ++ nl ++ nl.

Definition declining_trend : string :=
  "📉 **Declining Trend**: Budget accuracy has declined in recent years." ++ nl ++ nl.

Definition analyzeTrends : BudgetAnalysisResult :=
  if (List.length years <? 2)%nat then
    {| insight := insufficient_years; data := None; chartType := None |}
  else
    let insight0 :=
      "**Budget Trend Analysis (" ++ nth 0 years "undefined" ++ " - "
      ++ nth (List.length years - 1) years "undefined" ++ ")**" ++ nl ++ nl in
    let insight1 :=
      insight0 ++ (if isImproving then positive_trend else declining_trend) in
    let insight2 := insight1 ++ "**Year-by-Year Performance:**" ++ nl in
    {| insight := fold_left (fun s p => s ++ trend_line p) trendAnalysis insight2;
       data := Some (TrendData trendAnalysis);
       chartType := Some line |}.

(** *** [analyzeMissedBudgets] *)

(** [actual > budget * 1.05]. *)
Definition missed (item : row) : bool :=
  gt (actual_of item) (budget_of item * 1.05)%float.

Definition missedBudgets : list row := filter missed this_data.

Definition totalItems : nat := List.length this_data.
Definition missedCount : nat := List.length missedBudgets.

Definition missedPercentage : number :=
  (of_nat missedCount / of_nat totalItems * 100)%float.

Definition no_overruns : string :=
  "🎯 **Excellent!** You haven't significantly exceeded your budget in any recorded entries." ++ nl ++ nl.

Definition overruns_summary : string :=
  "📊 **Budget Overruns**: " ++ string_of_nat missedCount ++ " out of "
  ++ string_of_nat totalItems ++ " entries (" ++ toFixed1 h missedPercentage
  ++ "%) exceeded budget by more than 5%." ++ nl ++ nl.

Definition risk_note : string :=
  if gt missedPercentage 30%float then
    "⚠️ **High Risk**: More than 30% of your budget entries are over budget. Consider reviewing your budgeting process." ++ nl ++ nl
  else if gt missedPercentage 15%float then
    "🔍 **Moderate Concern**: Some budget categories consistently go over. Review these areas for better planning." ++ nl ++ nl
  else "".

Definition miss_line (yc : string * value) : string :=
  "• " ++ fst yc ++ ": " ++ to_string h (snd yc) ++ " budget overruns" ++ nl.

Definition analyzeMissedBudgets : BudgetAnalysisResult :=
  let insight0 := "**Budget Performance Analysis**" ++ nl ++ nl in
  let insight1 :=
    if (missedCount =? 0)%nat then insight0 ++ no_overruns
    else
      let s := insight0 ++ overruns_summary ++ risk_note in
      let yearlyMisses := groupMissesByYear missedBudgets in
      fold_left (fun s yc => s ++ miss_line yc) yearlyMisses
                (s ++ "**Missed Budgets by Year:**" ++ nl) in
  {| insight := insight1;
     data := Some (RowData missedBudgets);
     chartType := Some bar |}.

(** *** [analyzeDiscrepancies] *)

Definition discrepancy_row (item : row) : DiscrepancyRow :=
  let budget := budget_of item in
  let actual := actual_of item in
  {| d_item := item;
     d_variance := variance_of budget actual;
     d_discrepancy := (actual - budget)%float |}.

(** [this.data.map(...).filter(item => Math.abs(item.variance) > 5)]. *)
Definition discrepancies : list DiscrepancyRow :=
  filter (fun r => gt (abs (d_variance r)) 5%float) (map discrepancy_row this_data).

Definition totalDiscrepancy : number :=
  fold_left (fun sum r => (sum + abs (d_discrepancy r))%float) discrepancies 0%float.

Definition avgVariance : number :=
  if (0 <? List.length discrepancies)%nat then
    (fold_left (fun sum r => (sum + abs (d_variance r))%float) discrepancies 0%float
     / of_nat (List.length discrepancies))%float
  else 0%float.

(** [(a, b) => Math.abs(b.variance) - Math.abs(a.variance)]. *)
Definition by_variance (a b : DiscrepancyRow) : number :=
  (abs (d_variance b) - abs (d_variance a))%float.

(** [discrepancies] after [discrepancies.sort(...)]: the array is sorted
    in place, so this is also what [data] refers to. *)
Definition sorted_discrepancies : list DiscrepancyRow :=
  sort by_variance discrepancies.

Definition largestDiscrepancies : list DiscrepancyRow :=
  firstn 5 sorted_discrepancies.

Definition discrepancy_line (ir : nat * DiscrepancyRow) : string :=
  string_of_nat (fst ir + 1) ++ ". " ++ to_string h (category_of (d_item (snd ir)))
  ++ ": " ++ signed_fixed1 h (d_variance (snd ir)) ++ "%" ++ nl.

Definition excellent_accuracy : string :=
  "✅ **Excellent Accuracy**: All budget entries are within 5% of planned amounts." ++ nl ++ nl.

Definition variance_summary : string :=
  "📈 **Variance Summary**: " ++ string_of_nat (List.length discrepancies)
  ++ " entries with significant variances (>5%)" ++ nl
  ++ "💰 **Total Discrepancy**: $" ++ toLocaleString h totalDiscrepancy ++ nl
  ++ "📊 **Average Variance**: " ++ toFixed1 h avgVariance ++ "%" ++ nl ++ nl.

Definition analyzeDiscrepancies : BudgetAnalysisResult :=
  let insight0 := "**Budget Variance Analysis**" ++ nl ++ nl in
  if (List.length discrepancies =? 0)%nat then
    {| insight := insight0 ++ excellent_accuracy;
       data := Some (DiscrepancyData discrepancies);
       chartType := Some table |}
  else
    {| insight :=
         fold_left (fun s ir => s ++ discrepancy_line ir) (indexed largestDiscrepancies)
                   (insight0 ++ variance_summary ++ "**Top 5 Largest Variances:**" ++ nl);
       data := Some (DiscrepancyData sorted_discrepancies);
       chartType := Some table |}.

(** *** [analyzeTotals] *)

Definition totals : number * number :=
  fold_left (fun acc item =>
               ((fst acc + budget_of item)%float, (snd acc + actual_of item)%float))
            this_data (0%float, 0%float).

Definition totalBudget : number := fst totals.
Definition totalActual : number := snd totals.

Definition totalVariance : number := variance_of totalBudget totalActual.

Definition excellent_control : string :=
  "🎯 **Excellent Control**: Your overall budget variance is within acceptable limits." ++ nl.

Definition over_budget : string :=
  "⚠️ **Over Budget**: You've exceeded your total budget. Consider reviewing spending controls." ++ nl.

Definition under_budget : string :=
  "💡 **Under Budget**: You've spent less than planned. This could indicate conservative budgeting or missed opportunities." ++ nl.

Definition totals_label (v : number) : string :=
  if lt (abs v) 5%float then excellent_control
  else if gt v 0%float then over_budget
  else under_budget.

Definition analyzeTotals : BudgetAnalysisResult :=
  {| insight :=
       "**Total Budget Analysis**" ++ nl ++ nl
       ++ "💰 **Total Budgeted**: $" ++ toLocaleString h totalBudget ++ nl
       ++ "💸 **Total Actual**: $" ++ toLocaleString h totalActual ++ nl
       ++ "📊 **Overall Variance**: " ++ signed_fixed1 h totalVariance ++ "%" ++ nl ++ nl
       ++ totals_label totalVariance;
     data := Some (TotalsData totalBudget totalActual totalVariance);
     chartType := None |}.

(** *** [analyzeAverages] *)

Definition avgBudget : number :=
  (fold_left (fun sum item => (sum + budget_of item)%float) this_data 0%float
   / of_nat (List.length this_data))%float.

Definition avgActual : number :=
  (fold_left (fun sum item => (sum + actual_of item)%float) this_data 0%float
   / of_nat (List.length this_data))%float.

(** [((avgActual - avgBudget) / avgBudget) * 100], with no test on the
    divisor. *)
Definition averageVariance : number :=
  ((avgActual - avgBudget) / avgBudget * 100)%float.

Definition good_consistency : string :=
  "✅ **Good Consistency**: Your average spending aligns well with budget planning." ++ nl.

Definition review_needed : string :=
  "⚠️ **Review Needed**: Significant variance in average spending suggests budgeting improvements needed." ++ nl.

Definition analyzeAverages : BudgetAnalysisResult :=
  {| insight :=
       "**Average Budget Analysis**" ++ nl ++ nl
       ++ "📊 **Average Budget**: $" ++ toLocaleString h avgBudget ++ nl
       ++ "📈 **Average Actual**: $" ++ toLocaleString h avgActual ++ nl
       ++ "🎯 **Average Variance**: " ++ signed_fixed1 h averageVariance ++ "%" ++ nl ++ nl
       ++ (if lt (abs averageVariance) 10%float then good_consistency else review_needed);
     data := Some (AveragesData avgBudget avgActual averageVariance);
     chartType := None |}.

(** *** [analyzePerformance] *)

Definition performance_row (item : row) : PerformanceRow :=
  let budget := budget_of item in
  let actual := actual_of item in
  let variance :=
    if gt budget 0%float then (abs ((actual - budget) / budget) * 100)%float
    else 0%float in
  {| p_item := item;
     p_variance := variance;
     p_score := if lt variance 5%float then "Excellent"
                else if lt variance 15%float then "Good"
                else if lt variance 25%float then "Fair" else "Poor" |}.

Definition performance : list PerformanceRow := map performance_row this_data.

Definition bestPerformers : list PerformanceRow :=
  firstn 3 (filter (fun r => String.eqb (p_score r) "Excellent") performance).

Definition worstPerformers : list PerformanceRow :=
  firstn 3 (filter (fun r => String.eqb (p_score r) "Poor") performance).

(** [acc[item.score] = (acc[item.score] || 0) + 1]. *)
Definition scores : object nat :=
  fold_left (fun acc r =>
               match own acc (p_score r) with
               | Some c => set acc (p_score r) (c + 1)%nat
               | None => set acc (p_score r) 1%nat
               end)
            performance [].

Definition score_line (sc : string * nat) : string :=
  let score := fst sc in
  let emoji := if String.eqb score "Excellent" then "🌟"
               else if String.eqb score "Good" then "✅"
               else if String.eqb score "Fair" then "⚠️" else "❌" in
  "• " ++ emoji ++ " " ++ score ++ ": " ++ string_of_nat (snd sc) ++ " entries" ++ nl.

Definition performer_line (ir : nat * PerformanceRow) : string :=
  string_of_nat (fst ir + 1) ++ ". " ++ to_string h (category_of (p_item (snd ir)))
  ++ " (" ++ toFixed1 h (p_variance (snd ir)) ++ "% variance)" ++ nl.

Definition analyzePerformance : BudgetAnalysisResult :=
  let insight0 := "**Performance Analysis**" ++ nl ++ nl in
  let insight1 :=
    fold_left (fun s sc => s ++ score_line sc) scores
              (insight0 ++ "📊 **Performance Distribution:**" ++ nl) in
  let insight2 :=
    fold_left (fun s ir => s ++ performer_line ir) (indexed bestPerformers)
              (insight1 ++ nl ++ "🏆 **Best Performers:**" ++ nl) in
  let insight3 :=
    if (0 <? List.length worstPerformers)%nat then
      fold_left (fun s ir => s ++ performer_line ir) (indexed worstPerformers)
                (insight2 ++ nl ++ "🔍 **Areas for Improvement:**" ++ nl)
    else insight2 in
  {| insight := insight3;
     data := Some (PerformanceData performance);
     chartType := Some bar |}.

(** *** [analyzeGLEntries] *)

Definition is_gl_field (key : string) : bool :=
  includes (toLowerCase key) "gl" || includes (toLowerCase key) "account"
  || includes (toLowerCase key) "code".

(** [Object.keys(this.data[0] || {}).filter(...)]. *)
Definition glFields : list string :=
  filter is_gl_field (keys (hd [] this_data)).

(** The body of [glFields.forEach] for one row and one field. *)
Definition glSummary_field (item : row) (acc : object LedgerSums) (field : string)
  : object LedgerSums :=
  let glValue := get item field in
  if truthy glValue then
    let key := to_string h glValue in
    match own acc key with
    | Some s =>
        set acc key {| gl_count := gl_count s + 1;
                       gl_totalBudget := (gl_totalBudget s + budget_of item)%float;
                       gl_totalActual := (gl_totalActual s + actual_of item)%float |}
    | None =>
        if inherited key then acc
        else set acc key {| gl_count := 0 + 1;
                            gl_totalBudget := (0 + budget_of item)%float;
                            gl_totalActual := (0 + actual_of item)%float |}
    end
  else acc.

Definition glSummary : object LedgerSums :=
  fold_left (fun acc item => fold_left (glSummary_field item) glFields acc)
            this_data [].

Definition ledger_entry (kd : string * LedgerSums) : LedgerEntry :=
  {| ge_gl := fst kd;
     ge_sums := snd kd;
     ge_variance := variance_of (gl_totalBudget (snd kd)) (gl_totalActual (snd kd)) |}.

Definition glEntries : list LedgerEntry :=
  sort (fun a b => (abs (ge_variance b) - abs (ge_variance a))%float)
       (map ledger_entry glSummary).

Definition gl_line (ie : nat * LedgerEntry) : string :=
  string_of_nat (fst ie + 1) ++ ". " ++ ge_gl (snd ie) ++ ": "
  ++ signed_fixed1 h (ge_variance (snd ie)) ++ "% "
  ++ year_status (ge_variance (snd ie)) ++ nl.

Definition problematicGLs : list LedgerEntry :=
  filter (fun e => gt (abs (ge_variance e)) 15%float) glEntries.

Definition no_gl_fields : string :=
  "❌ **No GL Fields Found**: Your data doesn't appear to contain General Ledger account codes or similar fields." ++ nl ++ nl
  ++ "Common GL field names to look for: 'GL_Account', 'Account_Code', 'GL_Code', etc." ++ nl.

(** [insight] at the end of the [else] block. *)
Definition gl_insight : string :=
  let insight0 := "**General Ledger Analysis**" ++ nl ++ nl in
  let insight1 :=
    insight0 ++ "📋 **GL Fields Identified**: " ++ join ", " glFields ++ nl ++ nl in
  let insight2 :=
    insight1 ++ "🔢 **Total GL Accounts**: " ++ string_of_nat (List.length glEntries)
    ++ nl ++ nl in
  if (0 <? List.length glEntries)%nat then
    let insight3 :=
      fold_left (fun s ie => s ++ gl_line ie) (indexed (firstn 5 glEntries))
                (insight2 ++ "**Top GL Accounts by Variance:**" ++ nl) in
    if (0 <? List.length problematicGLs)%nat then
      insight3 ++ nl ++ "🚨 **GL Accounts Needing Review**: "
      ++ string_of_nat (List.length problematicGLs) ++ " accounts with >15% variance" ++ nl
    else insight3
  else insight2.

(** [glSummary] is declared by [const] inside the [else] block; the
    [return] statement after the block names it only when
    [glFields.length > 0], and the name is not bound there. *)
Definition analyzeGLEntries : completion :=
  if (List.length glFields =? 0)%nat then
    Normal {| insight := "**General Ledger Analysis**" ++ nl ++ nl ++ no_gl_fields;
              data := Some NullData;
              chartType := Some table |}
  else Throw (ReferenceError "glSummary").

(** *** [provideGeneralInsight] *)

Definition help_message : string :=
  "I can help you analyze your budget data! Try asking questions like:" ++ nl ++ nl
  ++ "• 'What was the trend for our yearly budget submissions?'" ++ nl
  ++ "• 'How many years did we miss the budget plan?'" ++ nl
  ++ "• 'Show me budget variances by category'" ++ nl
  ++ "• 'What are the largest discrepancies in our data?'" ++ nl
  ++ "• 'Analyze our GL account performance'".

Definition data_overview : string :=
  "**Quick Data Overview:**" ++ nl ++ nl
  ++ "📊 **Total Records**: " ++ string_of_nat (List.length this_data) ++ nl
  ++ "🗓️ **Data Fields**: " ++ join ", " (keys (hd [] this_data)) ++ nl ++ nl
  ++ "💡 **Tip**: Ask specific questions about trends, variances, or performance to get detailed insights!".

(** [sampleInsights[Math.floor(Math.random() * sampleInsights.length)]];
    the draw lies in [0, 1), so the index is 0 when twice the draw is
    below 1 and 1 otherwise. *)
Definition provideGeneralInsight : BudgetAnalysisResult :=
  {| insight := if lt (draw * 2)%float 1%float then help_message else data_overview;
     data := None;
     chartType := None |}.

(** *** [analyzeQuery] *)

Definition run (k : AnalysisKind) : completion :=
  match k with
  | Trends => Normal analyzeTrends
  | MissedBudgets => Normal analyzeMissedBudgets
  | Discrepancies => Normal analyzeDiscrepancies
  | Totals => Normal analyzeTotals
  | Averages => Normal analyzeAverages
  | Performance => Normal analyzePerformance
  | GLEntries => analyzeGLEntries
  | GeneralInsight => Normal provideGeneralInsight
  end.

End Analyzer.

(** [new BudgetAnalyzer(data).analyzeQuery(query)], called at [now]. *)
Definition analyzeQuery (h : Host) (this_data : list row) (now : Moment)
           (query : string) : completion :=
  run h this_data (fullYear now) (random now) (classify query).

End BudgetAnalyzer.


(** ** A host and the record sets of the scenarios *)

Module Sample.
Import JS BudgetAnalyzer.

(** Digits in reverse order, a comma after every third. *)
Fixpoint commas (l : list ascii) (k : nat) : list ascii :=
  match l with
  | [] => []
  | c :: r =>
      if (k =? 3)%nat then ","%char :: c :: commas r 1 else c :: commas r (S k)
  end.

Definition grouped (n : N) : string :=
  string_of_list_ascii (rev (commas (rev (list_ascii_of_string (string_of_N n))) 0)).

Definition fraction3 (n : N) : string :=
  let d := string_of_N (1000 + n) in
  let d := substring 1 3 d in
  if (n mod 10 =? 0)%N then
    if (n mod 100 =? 0)%N then substring 0 1 d else substring 0 2 d
  else d.

(** A number format in the manner of en-US: the integer part grouped in
    threes, at most three fraction digits. *)
Definition en_US (x : number) : string :=
  match Prim2SF x with
  | S754_nan => "NaN"
  | S754_infinity s => if s then "-∞" else "∞"
  | S754_zero s => if s then "-0" else "0"
  | S754_finite s m e =>
      let n := Z.to_N (round_scaled 1000 m e) in
      (if s then "-" else "") ++ grouped (n / 1000)
      ++ (if (n mod 1000 =? 0)%N then "" else "." ++ fraction3 (n mod 1000))
  end.

Definition host : Host := {|
  toLocaleString := en_US;
  numberToString := fun _ => "#";
  functionToString := fun name => "function " ++ name ++ "() { [native code] }"
|}.

(** 2021: budget 100, actual 120; 2022: budget 100, actual 90. *)
Definition two_years : list row :=
  [ [("Year", Num 2021%float); ("Budget", Num 100%float); ("Actual", Num 120%float)];
    [("Year", Num 2022%float); ("Budget", Num 100%float); ("Actual", Num 90%float)] ].

(** Rows carrying a [GL_Account] field with the values 4000 and 4100. *)
Definition ledger_rows : list row :=
  [ [("GL_Account", Str "4000"); ("Budget", Num 100%float); ("Actual", Num 120%float)];
    [("GL_Account", Str "4100"); ("Budget", Num 100%float); ("Actual", Num 90%float)];
    [("GL_Account", Str "4000"); ("Budget", Num 50%float); ("Actual", Num 50%float)] ].

(** Budget 10^18 and actual 1.05 * 10^18, the double that both
    [budget * 1.05] and [budget * 1.05 + 0.01] round to. *)
Definition huge_row : row :=
  [("Budget", Num 1e18%float); ("Actual", Num 1.05e18%float)].

(** Budget 100 with actual 105, and budget 100 with actual 105.01. *)
Definition at_threshold : row :=
  [("Budget", Num 100%float); ("Actual", Num 105%float)].

Definition past_threshold : row :=
  [("Budget", Num 100%float); ("Actual", Num 105.01%float)].



(** A budget of -100 with an actual of -50. *)
Definition negative_budget : row :=
  [("Budget", Num (-100)%float); ("Actual", Num (-50)%float)].

(** A year [__proto__], a row without a budget of its own, and a year
    [budget]. *)
Definition prototype_year : list row :=
  [ [("Year", Str "__proto__"); ("Budget", Num 100%float); ("Actual", Num 150%float)];
    [("Year", Str "2021"); ("Actual", Num 120%float)];
    [("Year", Str "budget"); ("Budget", Num 100%float); ("Actual", Num 90%float)];
    [("Year", Str "2022"); ("Budget", Num 100%float); ("Actual", Num 120%float)] ].

(** Variances of 10%, 2% and 50%. *)
Definition three_variances : list row :=
  [ [("Budget", Num 100%float); ("Actual", Num 110%float)];
    [("Budget", Num 100%float); ("Actual", Num 102%float)];
    [("Budget", Num 100%float); ("Actual", Num 150%float)] ].


End Sample.

(** ** The specification's words, for comparison with the code *)

Module Spec.
Import JS BudgetAnalyzer.

(** The keyword sets, in the priority order of the classifier. *)
Definition keyword_table : list (AnalysisKind * list string) :=
  [ (Trends, ["trend"; "yearly"]);
    (MissedBudgets, ["missed"; "miss"; "over budget"]);
    (Discrepancies, ["discrepan"; "variance"; "difference"]);
    (Totals, ["total"; "sum"]);
    (Averages, ["average"; "mean"]);
    (Performance, ["best"; "worst"; "performance"]);
    (GLEntries, ["gl"; "general ledger"]) ].

(** [kw] occurs in [s] as a substring. *)
Definition occurs (kw s : string) : Prop := exists a b, s = a ++ kw ++ b.


Definition hitsb (question : string) (kws : list string) : bool :=
  existsb (includes (toLowerCase question)) kws.





(** The first category of the table whose keyword set is hit, the fallback
    when none is. *)
Definition first_match (question : string) : AnalysisKind :=
  match find (fun e => hitsb question (snd e)) keyword_table with
  | Some e => fst e
  | None => GeneralInsight
  end.



(** A visible ASCII character that cannot begin a number: not a digit, a
    sign, a point, or the I of Infinity. *)
Definition not_numeric_start (c : ascii) : bool :=
  let n := nat_of_ascii c in
  (33 <=? n)%nat && (n <=? 126)%nat && negb (is_digit c)
  && negb (Ascii.eqb c "+") && negb (Ascii.eqb c "-")
  && negb (Ascii.eqb c ".") && negb (Ascii.eqb c "I").

(** The variance percentage as the specification defines it:
    [(actual - budget) / budget * 100], and 0 when the budget is 0. *)
Definition variance (budget actual : number) : number :=
  if (budget =? 0)%float then 0%float else ((actual - budget) / budget * 100)%float.

(** The number of rows that satisfy [p]. *)
Fixpoint count {A} (p : A -> bool) (l : list A) : nat :=
  match l with
  | [] => 0
  | x :: r => (if p x then 1 else 0) + count p r
  end.

End Spec.

(** ** The analyzer with the objects it shares made explicit

    The definitions of [BudgetAnalyzer] give each analysis as a function
    of the record set.  Here the same methods are given as they run in a
    state: the arrays that are updated in place together with the array
    [this.data] refers to, and the properties the program has put on the
    objects every object inherits from.  These are all the places a call
    can write to and a later call can read from:
    - [discrepancies.sort(...)] and the [sort] of the ledger entries sort
      an array in place;
    - [acc[year].budget += budget] and the like assign to a property of
      [acc[year]], which is an entry of the accumulator or, when the key
      names a member of [Object.prototype], that member: a built-in
      function, or [Object.prototype] itself for the key [__proto__];
    - every other assignment has an accumulator, a fresh object or a local
      variable as its target.  No statement assigns to [this.data], to an
      element of an array or to a property of a row.
    A property is read through the prototype chain: [item.budget] on a
    row without a [budget] of its own is [Object.prototype.budget]. *)

Module Stateful.
Import JS BudgetAnalyzer.

(** An array that lives in the state. *)
Inductive array :=
| RowArray (rows : list row)
| DiscrepancyArray (rows : list DiscrepancyRow)
| EntryArray (entries : list LedgerEntry).

(** The property names under which the program assigns through
    [acc[key]]: [budget] and [actual] in [groupByYear], [count],
    [totalBudget] and [totalActual] in the ledger analysis. *)
Inductive written := Budget | Actual | Count | TotalBudget | TotalActual.

Definition spelling (w : written) : string :=
  match w with
  | Budget => "budget"
  | Actual => "actual"
  | Count => "count"
  | TotalBudget => "totalBudget"
  | TotalActual => "totalActual"
  end.

Definition written_of (k : string) : option written :=
  find (fun w => String.eqb (spelling w) k) [Budget; Actual; Count; TotalBudget; TotalActual].

Definition written_eqb (a b : written) : bool := String.eqb (spelling a) (spelling b).

(** The state: the arrays by address, the properties the program has put
    on [Object.prototype], and those it has put on the members of
    [Object.prototype], by the name of the member.  What it puts there is
    the result of [+=] with a number on the right and a number or
    [undefined] on the left: a number. *)
Record State := {
  arrays : list array;
  on_prototype : written -> option number;
  on_member : string -> written -> option number
}.

(** The state before any call: the record set, and nothing added. *)
Definition pristine (records : list row) : State :=
  {| arrays := [RowArray records];
     on_prototype := fun _ => None;
     on_member := fun _ _ => None |}.

(** How a method ends in a state: with a completion and the state it
    leaves, or with a [TypeError]. *)
Inductive outcome (A : Type) :=
| Done (a : A) (st : State)
| TypeError.
Arguments Done {A} a st.
Arguments TypeError {A}.

(** The payload a method has returned, if it has returned one. *)
Definition data_of (o : outcome completion) : option Payload :=
  match o with
  | Done (Normal r) _ => data r
  | _ => None
  end.

(** *** Arrays *)

(** A new array: its address and the state that holds it. *)
Definition alloc (st : State) (a : array) : nat * State :=
  (List.length (arrays st),
   {| arrays := (arrays st ++ [a])%list;
      on_prototype := on_prototype st;
      on_member := on_member st |}).

Fixpoint replace_nth (l : list array) (n : nat) (a : array) : list array :=
  match l, n with
  | [], _ => []
  | _ :: r, O => a :: r
  | x :: r, S k => x :: replace_nth r k a
  end.

(** An update of the array at an address, in place. *)
Definition update (st : State) (address : nat) (a : array) : State :=
  {| arrays := replace_nth (arrays st) address a;
     on_prototype := on_prototype st;
     on_member := on_member st |}.

Definition rows_at (st : State) (address : nat) : list row :=
  match nth_error (arrays st) address with
  | Some (RowArray l) => l
  | _ => []
  end.

Definition discrepancies_at (st : State) (address : nat) : list DiscrepancyRow :=
  match nth_error (arrays st) address with
  | Some (DiscrepancyArray l) => l
  | _ => []
  end.

Definition entries_at (st : State) (address : nat) : list LedgerEntry :=
  match nth_error (arrays st) address with
  | Some (EntryArray l) => l
  | _ => []
  end.

(** *** Reading through the prototype chain *)

(** [Object.prototype.k], for a [k] that is not the name of a built-in
    member. *)
Definition inherited_value (st : State) (k : string) : value :=
  match written_of k with
  | Some w => match on_prototype st w with
              | Some x => Num x
              | None => Undefined
              end
  | None => Undefined
  end.

(** [item.k] on a row.  The names read from a row are ten fixed names and
    the ledger fields, none of them the name of a built-in member. *)
Definition get_in (st : State) (o : row) (k : string) : value :=
  match own o k with
  | Some v => v
  | None => inherited_value st k
  end.

Definition numeric_field_in (st : State) (K k : string) (item : row) : number :=
  parseFloat (or_else (or_else (get_in st item K) (get_in st item k)) (Num 0%float)).

Definition budget_in (st : State) : row -> number := numeric_field_in st "Budget" "budget".
Definition actual_in (st : State) : row -> number := numeric_field_in st "Actual" "actual".

Definition category_in (st : State) (item : row) : value :=
  or_else (or_else (or_else (or_else (get_in st item "Category") (get_in st item "category"))
                             (get_in st item "Description")) (get_in st item "description"))
          (Str "Unknown").

Definition year_in (h : Host) (st : State) (currentYear : N) (item : row) : string :=
  to_string h (or_else (or_else (get_in st item "Year") (get_in st item "year"))
                       (Num (round_Z (Z.of_N currentYear)))).

(** What [acc[k]] finds: an entry of the accumulator, a built-in member of
    [Object.prototype], a number the program has put on
    [Object.prototype], or nothing. *)
Inductive slot (A : Type) :=
| Own (a : A)
| Member (name : string)
| Primitive (x : number)
| Nothing.
Arguments Own {A} a.
Arguments Member {A} name.
Arguments Primitive {A} x.
Arguments Nothing {A}.

Definition probe {A} (st : State) (acc : object A) (k : string) : slot A :=
  match own acc k with
  | Some a => Own a
  | None =>
      if inherited k then Member k
      else match written_of k with
           | Some w => match on_prototype st w with
                       | Some x => Primitive x
                       | None => Nothing
                       end
           | None => Nothing
           end
  end.

(** [m.p] for the member [m] of [Object.prototype]: [Object.prototype]
    itself for [__proto__], else a function, whose chain ends in
    [Object.prototype]. *)
Definition member_get (st : State) (m : string) (p : written) : value :=
  if String.eqb m "__proto__" then
    match on_prototype st p with Some x => Num x | None => Undefined end
  else
    match on_member st m p with
    | Some x => Num x
    | None => match on_prototype st p with Some x => Num x | None => Undefined end
    end.

(** [ToNumber] of what [member_get] returns. *)
Definition to_number (v : value) : number :=
  match v with
  | Num x => x
  | _ => nan
  end.

(** [m.p += x]. *)
Definition add_assign (st : State) (m : string) (p : written) (x : number) : State :=
  let v := (to_number (member_get st m p) + x)%float in
  if String.eqb m "__proto__" then
    {| arrays := arrays st;
       on_prototype := fun q => if written_eqb q p then Some v else on_prototype st q;
       on_member := on_member st |}
  else
    {| arrays := arrays st;
       on_prototype := on_prototype st;
       on_member := fun m' q =>
                      if String.eqb m' m && written_eqb q p then Some v
                      else on_member st m' q |}.

(** *** [groupByYear] and [groupMissesByYear] *)

(** One step of the reduction in [groupByYear].  The class body is strict
    code: an assignment to a property of a number throws. *)
Definition groupByYear_step_in (h : Host) (currentYear : N)
           (o : outcome (object YearSums)) (item : row) : outcome (object YearSums) :=
  match o with
  | TypeError => TypeError
  | Done acc st =>
      let year := year_in h st currentYear item in
      let budget := budget_in st item in
      let actual := actual_in st item in
      match probe st acc year with
      | Own s =>
          Done (set acc year {| ys_budget := (ys_budget s + budget)%float;
                                ys_actual := (ys_actual s + actual)%float |}) st
      | Member m =>
          Done acc (add_assign (add_assign st m Budget budget) m Actual actual)
      | Primitive x =>
          if truthy (Num x) then TypeError
          else Done (set acc year {| ys_budget := (0 + budget)%float;
                                     ys_actual := (0 + actual)%float |}) st
      | Nothing =>
          Done (set acc year {| ys_budget := (0 + budget)%float;
                                ys_actual := (0 + actual)%float |}) st
      end
  end.

Definition groupByYear_in (h : Host) (st : State) (this_data : nat) (currentYear : N)
  : outcome (object YearSums) :=
  fold_left (groupByYear_step_in h currentYear) (rows_at st this_data) (Done [] st).

(** One step of the reduction in [groupMissesByYear]; it assigns to the
    accumulator only. *)
Definition groupMissesByYear_step_in (h : Host) (st : State) (currentYear : N)
           (acc : object value) (item : row) : object value :=
  let year := year_in h st currentYear item in
  match probe st acc year with
  | Own v => set acc year (plus_one (or_else v (Num 0%float)))
  | Member m =>
      if String.eqb m "__proto__" then acc
      else set acc year (Str (functionToString h m ++ "1"))
  | Primitive x => set acc year (plus_one (or_else (Num x) (Num 0%float)))
  | Nothing => set acc year (plus_one (Num 0%float))
  end.

Definition groupMissesByYear_in (h : Host) (st : State) (currentYear : N)
           (missedBudgets : list row) : object value :=
  fold_left (groupMissesByYear_step_in h st currentYear) missedBudgets [].

(** *** [analyzeTrends] *)

(** The method from [Object.keys(yearlyData)] on. *)
Definition trends_of (h : Host) (yearlyData : object YearSums) : BudgetAnalysisResult :=
  let years := sort_strings (keys yearlyData) in
  let trend_point year :=
    let d := match own yearlyData year with
             | Some s => s
             | None => {| ys_budget := nan; ys_actual := nan |}
             end in
    {| tp_year := year;
       tp_variance := variance_of (ys_budget d) (ys_actual d);
       tp_budget := ys_budget d;
       tp_actual := ys_actual d |} in
  let trendAnalysis := map trend_point years in
  let totalYears := List.length years - 1 in
  let isImproving := (totalYears <? 2 * improvingYears trendAnalysis)%nat in
  if (List.length years <? 2)%nat then
    {| insight := insufficient_years; data := None; chartType := None |}
  else
    let insight0 :=
      "**Budget Trend Analysis (" ++ nth 0 years "undefined" ++ " - "
      ++ nth (List.length years - 1) years "undefined" ++ ")**" ++ nl ++ nl in
    let insight1 :=
      insight0 ++ (if isImproving then positive_trend else declining_trend) in
    let insight2 := insight1 ++ "**Year-by-Year Performance:**" ++ nl in
    {| insight := fold_left (fun s p => s ++ trend_line h p) trendAnalysis insight2;
       data := Some (TrendData trendAnalysis);
       chartType := Some line |}.

Definition analyzeTrends_in (h : Host) (st : State) (this_data : nat) (currentYear : N)
  : outcome completion :=
  match groupByYear_in h st this_data currentYear with
  | Done yearlyData st' => Done (Normal (trends_of h yearlyData)) st'
  | TypeError => TypeError
  end.

(** *** [analyzeMissedBudgets] *)

Definition analyzeMissedBudgets_in (h : Host) (st : State) (this_data : nat)
           (currentYear : N) : outcome completion :=
  let rows := rows_at st this_data in
  let missedBudgets :=
    filter (fun item => gt (actual_in st item) (budget_in st item * 1.05)%float) rows in
  let totalItems := List.length rows in
  let missedCount := List.length missedBudgets in
  let missedPercentage := (of_nat missedCount / of_nat totalItems * 100)%float in
  let insight0 := "**Budget Performance Analysis**" ++ nl ++ nl in
  let insight1 :=
    if (missedCount =? 0)%nat then insight0 ++ no_overruns
    else
      let s :=
        insight0
        ++ ("📊 **Budget Overruns**: " ++ string_of_nat missedCount ++ " out of "
            ++ string_of_nat totalItems ++ " entries (" ++ toFixed1 h missedPercentage
            ++ "%) exceeded budget by more than 5%." ++ nl ++ nl)
        ++ (if gt missedPercentage 30%float then
              "⚠️ **High Risk**: More than 30% of your budget entries are over budget. Consider reviewing your budgeting process." ++ nl ++ nl
            else if gt missedPercentage 15%float then
              "🔍 **Moderate Concern**: Some budget categories consistently go over. Review these areas for better planning." ++ nl ++ nl
            else "") in
      let yearlyMisses := groupMissesByYear_in h st currentYear missedBudgets in
      fold_left (fun s yc => s ++ miss_line h yc) yearlyMisses
                (s ++ "**Missed Budgets by Year:**" ++ nl) in
  Done (Normal {| insight := insight1;
                  data := Some (RowData missedBudgets);
                  chartType := Some bar |}) st.

(** *** [analyzeDiscrepancies] *)

Definition discrepancy_row_in (st : State) (item : row) : DiscrepancyRow :=
  let budget := budget_in st item in
  let actual := actual_in st item in
  {| d_item := item;
     d_variance := variance_of budget actual;
     d_discrepancy := (actual - budget)%float |}.

Definition discrepancy_line_in (h : Host) (st : State) (ir : nat * DiscrepancyRow) : string :=
  string_of_nat (fst ir + 1) ++ ". " ++ to_string h (category_in st (d_item (snd ir)))
  ++ ": " ++ signed_fixed1 h (d_variance (snd ir)) ++ "%" ++ nl.

(** [map] and [filter] each make a new array; [discrepancies] is the
    second.  [sort] sorts it in place and returns it, [slice] copies, and
    [data] refers to it as it is when the method returns. *)
Definition analyzeDiscrepancies_in (h : Host) (st : State) (this_data : nat)
  : outcome completion :=
  let '(mapped, st1) :=
    alloc st (DiscrepancyArray (map (discrepancy_row_in st) (rows_at st this_data))) in
  let '(discrepancies, st2) :=
    alloc st1 (DiscrepancyArray
                 (filter (fun r => gt (abs (d_variance r)) 5%float)
                         (discrepancies_at st1 mapped))) in
  let totalDiscrepancy :=
    fold_left (fun sum r => (sum + abs (d_discrepancy r))%float)
              (discrepancies_at st2 discrepancies) 0%float in
  let avgVariance :=
    if (0 <? List.length (discrepancies_at st2 discrepancies))%nat then
      (fold_left (fun sum r => (sum + abs (d_variance r))%float)
                 (discrepancies_at st2 discrepancies) 0%float
       / of_nat (List.length (discrepancies_at st2 discrepancies)))%float
    else 0%float in
  let insight0 := "**Budget Variance Analysis**" ++ nl ++ nl in
  if (List.length (discrepancies_at st2 discrepancies) =? 0)%nat then
    Done (Normal {| insight := insight0 ++ excellent_accuracy;
                    data := Some (DiscrepancyData (discrepancies_at st2 discrepancies));
                    chartType := Some table |}) st2
  else
    let summary :=
      "📈 **Variance Summary**: "
      ++ string_of_nat (List.length (discrepancies_at st2 discrepancies))
      ++ " entries with significant variances (>5%)" ++ nl
      ++ "💰 **Total Discrepancy**: $" ++ toLocaleString h totalDiscrepancy ++ nl
      ++ "📊 **Average Variance**: " ++ toFixed1 h avgVariance ++ "%" ++ nl ++ nl in
    let st3 :=
      update st2 discrepancies
             (DiscrepancyArray (sort by_variance (discrepancies_at st2 discrepancies))) in
    let largestDiscrepancies := firstn 5 (discrepancies_at st3 discrepancies) in
    Done (Normal {| insight :=
                      fold_left (fun s ir => s ++ discrepancy_line_in h st3 ir)
                                (indexed largestDiscrepancies)
                                (insight0 ++ summary ++ "**Top 5 Largest Variances:**" ++ nl);
                    data := Some (DiscrepancyData (discrepancies_at st3 discrepancies));
                    chartType := Some table |}) st3.

(** *** [analyzeTotals] and [analyzeAverages] *)

Definition analyzeTotals_in (h : Host) (st : State) (this_data : nat) : outcome completion :=
  let totals :=
    fold_left (fun acc item =>
                 ((fst acc + budget_in st item)%float, (snd acc + actual_in st item)%float))
              (rows_at st this_data) (0%float, 0%float) in
  let totalVariance := variance_of (fst totals) (snd totals) in
  Done (Normal
          {| insight :=
               "**Total Budget Analysis**" ++ nl ++ nl
               ++ "💰 **Total Budgeted**: $" ++ toLocaleString h (fst totals) ++ nl
               ++ "💸 **Total Actual**: $" ++ toLocaleString h (snd totals) ++ nl
               ++ "📊 **Overall Variance**: " ++ signed_fixed1 h totalVariance ++ "%" ++ nl ++ nl
               ++ totals_label totalVariance;
             data := Some (TotalsData (fst totals) (snd totals) totalVariance);
             chartType := None |}) st.

Definition analyzeAverages_in (h : Host) (st : State) (this_data : nat) : outcome completion :=
  let rows := rows_at st this_data in
  let avgBudget :=
    (fold_left (fun sum item => (sum + budget_in st item)%float) rows 0%float
     / of_nat (List.length rows))%float in
  let avgActual :=
    (fold_left (fun sum item => (sum + actual_in st item)%float) rows 0%float
     / of_nat (List.length rows))%float in
  let avgVariance := ((avgActual - avgBudget) / avgBudget * 100)%float in
  Done (Normal
          {| insight :=
               "**Average Budget Analysis**" ++ nl ++ nl
               ++ "📊 **Average Budget**: $" ++ toLocaleString h avgBudget ++ nl
               ++ "📈 **Average Actual**: $" ++ toLocaleString h avgActual ++ nl
               ++ "🎯 **Average Variance**: " ++ signed_fixed1 h avgVariance ++ "%" ++ nl ++ nl
               ++ (if lt (abs avgVariance) 10%float then good_consistency else review_needed);
             data := Some (AveragesData avgBudget avgActual avgVariance);
             chartType := None |}) st.

(** *** [analyzePerformance] *)

Definition performance_row_in (st : State) (item : row) : PerformanceRow :=
  let budget := budget_in st item in
  let actual := actual_in st item in
  let variance :=
    if gt budget 0%float then (abs ((actual - budget) / budget) * 100)%float
    else 0%float in
  {| p_item := item;
     p_variance := variance;
     p_score := if lt variance 5%float then "Excellent"
                else if lt variance 15%float then "Good"
                else if lt variance 25%float then "Fair" else "Poor" |}.

(** [acc[item.score] = (acc[item.score] || 0) + 1].  A score is one of
    four names, none of them a member of [Object.prototype] and none of
    them written by the program, so the lookup ends at the accumulator
    ([probe_score] below). *)
Definition scores_step_in (st : State) (acc : object nat) (r : PerformanceRow) : object nat :=
  match probe st acc (p_score r) with
  | Own c => set acc (p_score r) (c + 1)%nat
  | _ => set acc (p_score r) 1%nat
  end.

Definition performer_line_in (h : Host) (st : State) (ir : nat * PerformanceRow) : string :=
  string_of_nat (fst ir + 1) ++ ". " ++ to_string h (category_in st (p_item (snd ir)))
  ++ " (" ++ toFixed1 h (p_variance (snd ir)) ++ "% variance)" ++ nl.

Definition analyzePerformance_in (h : Host) (st : State) (this_data : nat)
  : outcome completion :=
  let performance := map (performance_row_in st) (rows_at st this_data) in
  let bestPerformers :=
    firstn 3 (filter (fun r => String.eqb (p_score r) "Excellent") performance) in
  let worstPerformers :=
    firstn 3 (filter (fun r => String.eqb (p_score r) "Poor") performance) in
  let scores := fold_left (scores_step_in st) performance [] in
  let insight0 := "**Performance Analysis**" ++ nl ++ nl in
  let insight1 :=
    fold_left (fun s sc => s ++ score_line sc) scores
              (insight0 ++ "📊 **Performance Distribution:**" ++ nl) in
  let insight2 :=
    fold_left (fun s ir => s ++ performer_line_in h st ir) (indexed bestPerformers)
              (insight1 ++ nl ++ "🏆 **Best Performers:**" ++ nl) in
  let insight3 :=
    if (0 <? List.length worstPerformers)%nat then
      fold_left (fun s ir => s ++ performer_line_in h st ir) (indexed worstPerformers)
                (insight2 ++ nl ++ "🔍 **Areas for Improvement:**" ++ nl)
    else insight2 in
  Done (Normal {| insight := insight3;
                  data := Some (PerformanceData performance);
                  chartType := Some bar |}) st.

(** *** [analyzeGLEntries] *)

(** The body of [glFields.forEach] for one row and one field.  Each of
    the three assignments evaluates [acc[glValue]] and the row's fields
    anew, in the state the one before has left. *)
Definition glSummary_field_in (h : Host) (item : row)
           (o : outcome (object LedgerSums)) (field : string)
  : outcome (object LedgerSums) :=
  match o with
  | TypeError => TypeError
  | Done acc st =>
      let glValue := get_in st item field in
      if truthy glValue then
        let key := to_string h glValue in
        match probe st acc key with
        | Own s =>
            Done (set acc key
                      {| gl_count := gl_count s + 1;
                         gl_totalBudget := (gl_totalBudget s + budget_in st item)%float;
                         gl_totalActual := (gl_totalActual s + actual_in st item)%float |}) st
        | Member m =>
            let st1 := add_assign st m Count 1%float in
            let st2 := add_assign st1 m TotalBudget (budget_in st1 item) in
            Done acc (add_assign st2 m TotalActual (actual_in st2 item))
        | Primitive x =>
            if truthy (Num x) then TypeError
            else Done (set acc key
                           {| gl_count := 0 + 1;
                              gl_totalBudget := (0 + budget_in st item)%float;
                              gl_totalActual := (0 + actual_in st item)%float |}) st
        | Nothing =>
            Done (set acc key
                      {| gl_count := 0 + 1;
                         gl_totalBudget := (0 + budget_in st item)%float;
                         gl_totalActual := (0 + actual_in st item)%float |}) st
        end
      else Done acc st
  end.

Definition glSummary_in (h : Host) (st : State) (this_data : nat)
  : outcome (object LedgerSums) :=
  fold_left (fun o item =>
               fold_left (glSummary_field_in h item) (glFields (rows_at st this_data)) o)
            (rows_at st this_data) (Done [] st).

(** With a ledger field the method builds the summary, maps its entries
    into a new array and sorts that array in place; the narrative it
    assembles is lost when the [return] statement throws. *)
Definition analyzeGLEntries_in (h : Host) (st : State) (this_data : nat)
  : outcome completion :=
  if (List.length (glFields (rows_at st this_data)) =? 0)%nat then
    Done (Normal {| insight := "**General Ledger Analysis**" ++ nl ++ nl ++ no_gl_fields;
                    data := Some NullData;
                    chartType := Some table |}) st
  else
    match glSummary_in h st this_data with
    | TypeError => TypeError
    | Done glSummary st1 =>
        let '(glEntries, st2) := alloc st1 (EntryArray (map ledger_entry glSummary)) in
        let st3 :=
          update st2 glEntries
                 (EntryArray
                    (sort (fun a b => (abs (ge_variance b) - abs (ge_variance a))%float)
                          (entries_at st2 glEntries))) in
        Done (Throw (ReferenceError "glSummary")) st3
    end.

(** *** [analyzeQuery] *)

(** [new BudgetAnalyzer(data).analyzeQuery(query)] in the state [st], for
    the array at [this_data]; the general insight reads the length of the
    array and the field names of its first row only. *)
Definition analyzeQuery_in (h : Host) (st : State) (this_data : nat) (now : Moment)
           (query : string) : outcome completion :=
  match classify query with
  | Trends => analyzeTrends_in h st this_data (fullYear now)
  | MissedBudgets => analyzeMissedBudgets_in h st this_data (fullYear now)
  | Discrepancies => analyzeDiscrepancies_in h st this_data
  | Totals => analyzeTotals_in h st this_data
  | Averages => analyzeAverages_in h st this_data
  | Performance => analyzePerformance_in h st this_data
  | GLEntries => analyzeGLEntries_in h st this_data
  | GeneralInsight =>
      Done (Normal (provideGeneralInsight (rows_at st this_data) (random now))) st
  end.

(** Every number the program has put on [Object.prototype] is NaN. *)
Definition only_nan (st : State) : Prop :=
  forall w x, on_prototype st w = Some x -> x = nan.

End Stateful.

(** ** The visualization component *)

Module DataVisualization.
Import JS BudgetAnalyzer.

(** [{ budget, actual, count }], one per year. *)
Record YearStats := {
  yd_budget : number;
  yd_actual : number;
  yd_count : nat
}.

(** One step of the reduction that builds [yearlyData].  As in
    [groupByYear], a year that names a member of [Object.prototype] reads
    as present and is never entered. *)
Definition yearlyData_step (h : Host) (currentYear : N)
           (acc : object YearStats) (item : row) : object YearStats :=
  let year := year_of h currentYear item in
  let budget := budget_of item in
  let actual := actual_of item in
  match own acc year with
  | Some s =>
      set acc year {| yd_budget := (yd_budget s + budget)%float;
                      yd_actual := (yd_actual s + actual)%float;
                      yd_count := yd_count s + 1 |}
  | None =>
      if inherited year then acc
      else set acc year {| yd_budget := (0 + budget)%float;
                           yd_actual := (0 + actual)%float;
                           yd_count := 0 + 1 |}
  end.

Definition yearlyData (h : Host) (budgetData : list row) (currentYear : N)
  : object YearStats :=
  fold_left (yearlyData_step h currentYear) budgetData [].

(** [yearlyData[year]]. *)
Definition stats_at (yd : object YearStats) (year : string) : YearStats :=
  match own yd year with
  | Some s => s
  | None => {| yd_budget := nan; yd_actual := nan; yd_count := 0 |}
  end.

(** What the memoised computation returns. *)
Record Insights := {
  years : list string;
  budgetValues : list number;
  actualValues : list number;
  variance : list number;
  totalRecords : nat;
  averageVariance : number
}.

(** The body of [useMemo]; [None] is [null]. *)
Definition insights (h : Host) (budgetData : list row) (currentYear : N)
  : option Insights :=
  if (List.length budgetData =? 0)%nat then None
  else
    let yd := yearlyData h budgetData currentYear in
    let years := sort_strings (keys yd) in
    let variance :=
      map (fun year => variance_of (yd_budget (stats_at yd year))
                                   (yd_actual (stats_at yd year))) years in
    Some {| years := years;
            budgetValues := map (fun year => yd_budget (stats_at yd year)) years;
            actualValues := map (fun year => yd_actual (stats_at yd year)) years;
            variance := variance;
            totalRecords := List.length budgetData;
            averageVariance :=
              (fold_left (fun a b => (a + b)%float) variance 0%float
               / of_nat (List.length variance))%float |}.

(** The text of the card headed Avg Variance:
    [insights.averageVariance.toFixed(1)] and a percent sign. *)
Definition average_card (h : Host) (ins : Insights) : string :=
  toFixed1 h (averageVariance ins) ++ "%".

(** The text of the card headed Status. *)
Definition status (ins : Insights) : string :=
  if gt (abs (averageVariance ins)) 10%float then "Review" else "Good".

(** The header of the preview table:
    [Object.keys(budgetData[0] || {}).slice(0, 5)]. *)
Definition preview_header (budgetData : list row) : list string :=
  firstn 5 (keys (hd [] budgetData)).

(** The body of the preview table: for each of [budgetData.slice(0, 5)],
    [String(value)] for each of [Object.values(row).slice(0, 5)]. *)
Definition preview_rows (h : Host) (budgetData : list row) : list (list string) :=
  map (fun row : row => map (to_string h) (firstn 5 (values row))) (firstn 5 budgetData).

End DataVisualization.

(** ** The upload component *)

Module FileUpload.

(** [file.name.match(/\.(xlsx|xls)$/)] finds a match: from some position
    on, the name reads [.xlsx] or [.xls] and ends there. *)
Fixpoint matches_extension (name : string) : bool :=
  if String.eqb name ".xlsx" || String.eqb name ".xls" then true
  else match name with
       | EmptyString => false
       | String _ r => matches_extension r
       end.

End FileUpload.

(** ** The page *)

Module Page.
Import JS BudgetAnalyzer.

Definition upload_first : string :=
  "Please upload your budget data first to analyze it.".

Definition analysis_error : string :=
  "I encountered an error while analyzing your data. Please try rephrasing your question.".

(** [handleSendMessage], as the string its promise is resolved with; the
    [catch] clause takes any error the analyzer throws. *)
Definition handleSendMessage (h : Host) (budgetData : list row) (now : Moment)
           (message : string) : string :=
  if (List.length budgetData =? 0)%nat then upload_first
  else
    match analyzeQuery h budgetData now message with
    | Normal result => insight result
    | Throw _ => analysis_error
    end.

End Page.

(** ** Notions the further properties are stated with *)

Module Notions.
Import JS BudgetAnalyzer.

(** The sum of a numeric field over rows, added up from 0 in the order of
    the rows. *)
Definition sum_of (f : row -> number) (rows : list row) : number :=
  fold_left (fun s item => (s + f item)%float) rows 0%float.

(** The rows filed under a year, in the order of the record set. *)
Definition filed_under (h : Host) (currentYear : N) (year : string) (data : list row)
  : list row :=
  filter (fun item => String.eqb (year_of h currentYear item) year) data.

(** The sums of the rows of a year; none when there is no row. *)
Definition year_sums (rows : list row) : option YearSums :=
  match rows with
  | [] => None
  | _ => Some {| ys_budget := sum_of budget_of rows; ys_actual := sum_of actual_of rows |}
  end.

(** The four score bands. *)
Definition bands : list string := ["Excellent"; "Good"; "Fair"; "Poor"].

(** The reducer of [scores]. *)
Definition scores_step (acc : object nat) (r : PerformanceRow) : object nat :=
  match own acc (p_score r) with
  | Some c => set acc (p_score r) (c + 1)%nat
  | None => set acc (p_score r) 1%nat
  end.

(** The place of an analysis in the chain of tests of [analyzeQuery]. *)
Definition priority (k : AnalysisKind) : nat :=
  match k with
  | Trends => 0 | MissedBudgets => 1 | Discrepancies => 2 | Totals => 3
  | Averages => 4 | Performance => 5 | GLEntries => 6 | GeneralInsight => 7
  end.

(** The number of members of [l] before the first that satisfies [p]. *)
Fixpoint first_index {A} (p : A -> bool) (l : list A) : nat :=
  match l with
  | [] => 0
  | x :: r => if p x then 0 else S (first_index p r)
  end.

Definition upper_ascii (c : ascii) : ascii :=
  let n := nat_of_ascii c in
  if (97 <=? n)%nat && (n <=? 122)%nat then ascii_of_nat (n - 32) else c.

(** A string with its ASCII letters in upper case. *)
Fixpoint toUpperCase (s : string) : string :=
  match s with
  | EmptyString => EmptyString
  | String c r => String (upper_ascii c) (toUpperCase r)
  end.

(** An object with [f] applied to each of its values. *)
Definition map_values {A B} (f : A -> B) (o : object A) : object B :=
  map (fun kv => (fst kv, f (snd kv))) o.

(** The sums of a year of the visualization, without the count. *)
Definition sums_of_stats (s : DataVisualization.YearStats) : YearSums :=
  {| ys_budget := DataVisualization.yd_budget s;
     ys_actual := DataVisualization.yd_actual s |}.

End Notions.

(** * Properties *)

Import JS BudgetAnalyzer Binary64 Notions.

(** ** Strings *)

Lemma prefix_occurs (n s : string) :
  String.prefix n s = true <-> exists b, s = n ++ b.
Proof.
  revert n; induction s as [|c s IH]; intros [|a n]; simpl.
  - split; [exists ""; reflexivity | reflexivity].
  - split; [discriminate | intros [b Hb]; discriminate].
  - split; [exists (String c s); reflexivity | reflexivity].
  - destruct (ascii_dec a c) as [->|Hne].
    + rewrite IH. split; intros [b Hb]; exists b; [now rewrite Hb | now injection Hb].
    + split; [discriminate | intros [b Hb]; injection Hb; intros; congruence].
Qed.

Lemma includes_cons (c : ascii) (s n : string) :
  includes (String c s) n
  = if String.prefix n (String c s) then true else includes s n.
Proof. reflexivity. Qed.

Lemma includes_occurs (s n : string) :
  includes s n = true <-> Spec.occurs n s.
Proof.
  unfold Spec.occurs. induction s as [|c s IH].
  - destruct n as [|a n]; simpl.
    + split; [exists "", ""; reflexivity | reflexivity].
    + split; [discriminate | intros [[|x a'] [b Hb]]; discriminate].
  - rewrite includes_cons.
    destruct (String.prefix n (String c s)) eqn:Hp.
    + split; [intros _ | reflexivity].
      apply prefix_occurs in Hp. destruct Hp as [b Hb]. now exists "", b.
    + rewrite IH. split.
      * intros [a [b Hb]]. exists (String c a), b. simpl. now rewrite Hb.
      * intros [[|x a] [b Hb]].
        -- simpl in Hb. assert (String.prefix n (String c s) = true) as E
             by (apply prefix_occurs; now exists b).
           congruence.
        -- simpl in Hb. injection Hb; intros. now exists a, b.
Qed.

Lemma toLowerCase_app (a b : string) :
  toLowerCase (a ++ b) = toLowerCase a ++ toLowerCase b.
Proof. induction a as [|c a IH]; simpl; [reflexivity | now rewrite IH]. Qed.


Lemma lower_ascii_idem (c : ascii) : lower_ascii (lower_ascii c) = lower_ascii c.
Proof. destruct c as [[] [] [] [] [] [] [] []]; reflexivity. Qed.

Lemma lower_upper_ascii (c : ascii) : lower_ascii (upper_ascii c) = lower_ascii c.
Proof. destruct c as [[] [] [] [] [] [] [] []]; reflexivity. Qed.

Lemma toLowerCase_idem (s : string) : toLowerCase (toLowerCase s) = toLowerCase s.
Proof. induction s as [|c s IH]; simpl; [reflexivity | now rewrite IH, lower_ascii_idem]. Qed.

Lemma toLowerCase_upper (s : string) : toLowerCase (toUpperCase s) = toLowerCase s.
Proof. induction s as [|c s IH]; simpl; [reflexivity | now rewrite IH, lower_upper_ascii]. Qed.

Lemma append_nil_r (a : string) : a ++ "" = a.
Proof. induction a as [|x a IH]; simpl; [reflexivity | now rewrite IH]. Qed.

Lemma append_assoc (a b c : string) : (a ++ b) ++ c = a ++ b ++ c.
Proof. induction a as [|x a IH]; simpl; [reflexivity | now rewrite IH]. Qed.

Lemma concat_empty_cons (a : string) (l : list string) :
  String.concat "" (a :: l) = a ++ String.concat "" l.
Proof. destruct l; simpl; [now rewrite append_nil_r | reflexivity]. Qed.

(** A [forEach] that appends one line per element. *)
Lemma fold_left_append {A} (f : A -> string) (l : list A) (init : string) :
  fold_left (fun s x => s ++ f x) l init = init ++ String.concat "" (map f l).
Proof.
  revert init. induction l as [|x l IH]; intro init.
  - simpl. now rewrite append_nil_r.
  - cbn [fold_left map]. rewrite IH, concat_empty_cons. apply append_assoc.
Qed.

(** ** Lists *)

Lemma length_filter_count {A} (p : A -> bool) (l : list A) :
  List.length (filter p l) = Spec.count p l.
Proof.
  induction l as [|x l IH]; simpl; [reflexivity|].
  destruct (p x); simpl; now rewrite IH.
Qed.

Lemma filter_map_commute {A B} (f : A -> B) (p : B -> bool) (l : list A) :
  filter p (map f l) = map f (filter (fun x => p (f x)) l).
Proof.
  induction l as [|x l IH]; simpl; [reflexivity|].
  destruct (p (f x)); simpl; now rewrite IH.
Qed.

Lemma fold_left_over_map {A B C} (f : C -> B -> C) (g : A -> B) (l : list A) (c : C) :
  fold_left f (map g l) c = fold_left (fun acc x => f acc (g x)) l c.
Proof. revert c. induction l as [|x l IH]; intro c; simpl; [reflexivity | apply IH]. Qed.

(** ** Objects as key-ordered property lists *)

Lemma own_None {A} (o : object A) (k : string) :
  own o k = None <-> ~ In k (keys o).
Proof.
  unfold own, keys. induction o as [|[k' v'] o IH]; simpl.
  - tauto.
  - destruct (String.eqb_spec k' k) as [->|Hne].
    + split; [discriminate | intro H; exfalso; apply H; now left].
    + rewrite IH. split; intros H; [intros [E|Hin]; [congruence | now apply H] | tauto].
Qed.

Lemma own_Some {A} (o : object A) (k : string) (v : A) :
  own o k = Some v -> In k (keys o).
Proof.
  intro H. destruct (in_dec string_dec k (keys o)) as [Hin|Hn]; [exact Hin|].
  apply own_None in Hn. congruence.
Qed.

Lemma keys_replace {A} (o : object A) (k : string) (v : A) :
  keys (replace o k v) = keys o.
Proof.
  unfold keys. induction o as [|[k' v'] o IH]; simpl; [reflexivity|].
  destruct (String.eqb k' k); simpl; [reflexivity | now rewrite IH].
Qed.

Lemma In_add_new {A} (o : object A) (k : string) (v : A) (x : string) :
  In x (keys (add_new o k v)) <-> x = k \/ In x (keys o).
Proof.
  unfold keys. induction o as [|[k' v'] o IH]; simpl.
  - intuition.
  - destruct (index_of_key k) as [n|]; [destruct (index_of_key k') as [n'|];
      [destruct (n <? n')%Z|] |]; simpl; rewrite ?IH; intuition.
Qed.

Lemma NoDup_add_new {A} (o : object A) (k : string) (v : A) :
  NoDup (keys o) -> ~ In k (keys o) -> NoDup (keys (add_new o k v)).
Proof.
  induction o as [|[k' v'] o IH]; simpl; intros Hnd Hn.
  - constructor; [intros [] | constructor].
  - inversion Hnd as [|? ? Hk' Ho]; subst.
    assert (NoDup (k :: k' :: keys o)) as Hfront
      by (constructor; [exact Hn | exact Hnd]).
    assert (NoDup (k' :: keys (add_new o k v))) as Hback.
    { constructor.
      - rewrite In_add_new. intros [E|Hin]; [apply Hn; left; congruence | contradiction].
      - apply IH; [exact Ho | intro; apply Hn; now right]. }
    destruct (index_of_key k) as [n|]; [destruct (index_of_key k') as [n'|];
      [destruct (n <? n')%Z|] |]; simpl; assumption.
Qed.

Lemma keys_set {A} (o : object A) (k : string) (v : A) :
  NoDup (keys o) ->
  NoDup (keys (set o k v))
  /\ forall x, In x (keys (set o k v)) <-> x = k \/ In x (keys o).
Proof.
  intro Hnd. unfold set. destruct (own o k) as [w|] eqn:E.
  - rewrite keys_replace. split; [exact Hnd|].
    intro x. split; [now right | intros [->|H]; [now apply own_Some in E | exact H]].
  - apply own_None in E. split; [now apply NoDup_add_new | intro x; apply In_add_new].
Qed.

(** ** Sorting strings *)

(** The code units of one-, two-, three- and four-byte characters, and the
    order they give: as numbers are ordered when they are compared as
    strings, and a character beyond U+FFFF before one from U+E000 on. *)
Example code_units_samples :
  code_units "Az" = [65; 122]%N
  /\ code_units "é" = [233]%N
  /\ code_units "€" = [8364]%N
  /\ code_units "｡" = [65377]%N
  /\ code_units "😀" = [55357; 56832]%N
  /\ code_units "a😀b" = [97; 55357; 56832; 98]%N
  /\ string_ltb "1000" "999" = true
  /\ string_ltb "2021" "2022" = true
  /\ string_ltb "202" "2021" = true
  /\ string_ltb "Z" "a" = true
  /\ string_ltb "😀" "｡" = true
  /\ string_ltb "｡" "😀" = false
  /\ sort_strings ["｡"; "b"; "😀"; "a"; "é"] = ["a"; "b"; "é"; "😀"; "｡"].
Proof. vm_compute. repeat split. Qed.






Lemma sort_insert_string_perm (x : string) (l : list string) :
  Permutation (sort_insert_string x l) (x :: l).
Proof.
  induction l as [|y l IH]; simpl; [reflexivity|].
  destruct (string_ltb y x); [|reflexivity].
  rewrite IH. apply perm_swap.
Qed.

Lemma sort_strings_perm (l : list string) : Permutation (sort_strings l) l.
Proof.
  induction l as [|x l IH]; simpl; [reflexivity|].
  rewrite sort_insert_string_perm. now constructor.
Qed.



(** ** Rounding of doubles

    The results below are read off the specification of binary64 in
    [SpecFloat]: what a mantissa and an exponent that pass [bounded] look
    like, what shifting and rounding do to a positive mantissa, and from
    these the sign of a difference. *)

Local Open Scope Z_scope.

Lemma digits2_bounds (p : positive) :
  2 ^ (Zpos (digits2_pos p) - 1) <= Zpos p < 2 ^ Zpos (digits2_pos p).
Proof.
  induction p as [p IH|p IH|]; cbn [digits2_pos].
  - rewrite Pos2Z.inj_succ.
    replace (Z.succ (Zpos (digits2_pos p)) - 1) with (Z.succ (Zpos (digits2_pos p) - 1)) by lia.
    rewrite !Z.pow_succ_r by lia. lia.
  - rewrite Pos2Z.inj_succ.
    replace (Z.succ (Zpos (digits2_pos p)) - 1) with (Z.succ (Zpos (digits2_pos p) - 1)) by lia.
    rewrite !Z.pow_succ_r by lia. lia.
  - simpl. lia.
Qed.

Lemma bounded_bounds (m : positive) (e : Z) :
  bounded prec emax m e = true ->
  emin64 <= e /\ Zpos m < 2 ^ 53 /\ (emin64 < e -> 2 ^ 52 <= Zpos m).
Proof.
  unfold bounded, canonical_mantissa, fexp. intro H.
  apply andb_true_iff in H. destruct H as [H _]. apply Z.eqb_eq in H.
  fold emin64 in H. change prec with 53 in H.
  pose proof (digits2_bounds m) as [Hlo Hhi].
  set (d := Zpos (digits2_pos m)) in *.
  assert (0 < d) by (unfold d; lia).
  split; [lia|]. split.
  - assert (d <= 53) by lia.
    eapply Z.lt_le_trans; [exact Hhi|]. apply Z.pow_le_mono_r; lia.
  - intro He. assert (d = 53) as Hd by lia. rewrite Hd in Hlo. exact Hlo.
Qed.

Lemma shr_1_m (mrs : shr_record) :
  0 <= shr_m mrs -> shr_m (shr_1 mrs) = shr_m mrs / 2.
Proof.
  destruct mrs as [m r s]. cbn [shr_m]. intro Hm.
  rewrite <- Z.div2_div.
  destruct m as [|[p|p|]|p]; try reflexivity. lia.
Qed.

Lemma iter_shr_m (q : positive) (mrs : shr_record) :
  0 <= shr_m mrs ->
  shr_m (iter_pos shr_1 q mrs) = shr_m mrs / 2 ^ Zpos q.
Proof.
  revert mrs. induction q as [q IH|q IH|]; intros mrs Hm; cbn [iter_pos].
  - assert (0 <= shr_m (shr_1 mrs)) as H1 by (rewrite shr_1_m by lia; apply Z.div_pos; lia).
    assert (0 <= shr_m (iter_pos shr_1 q (shr_1 mrs))) as H2
      by (rewrite IH by lia; apply Z.div_pos; lia).
    rewrite IH, IH, shr_1_m by lia.
    rewrite !Z.div_div by lia.
    f_equal. replace (Zpos q~1) with (1 + Zpos q + Zpos q) by lia.
    rewrite !Z.pow_add_r, Z.pow_1_r by lia. ring.
  - assert (0 <= shr_m (iter_pos shr_1 q mrs)) as H2
      by (rewrite IH by lia; apply Z.div_pos; lia).
    rewrite IH, IH by lia.
    rewrite !Z.div_div by lia.
    f_equal. replace (Zpos q~0) with (Zpos q + Zpos q) by lia.
    rewrite Z.pow_add_r by lia. ring.
  - rewrite shr_1_m by lia. reflexivity.
Qed.

Lemma shr_fexp_pos (m e : Z) (l : location) :
  0 < m -> emin64 <= e ->
  0 < shr_m (fst (shr_fexp prec emax m e l)) /\ emin64 <= snd (shr_fexp prec emax m e l).
Proof.
  intros Hm He. unfold shr_fexp, shr.
  assert (shr_m (shr_record_of_loc m l) = m) as Hrec by (destruct l as [|[]]; reflexivity).
  destruct m as [|p|p]; try lia. cbn [Zdigits2].
  pose proof (digits2_bounds p) as [Hlo Hhi].
  set (d := Zpos (digits2_pos p)) in *.
  unfold fexp. fold emin64. change prec with 53.
  destruct (Z.max (d + e - 53) emin64 - e) as [|q|q] eqn:En; cbn [fst snd].
  - rewrite Hrec. lia.
  - rewrite iter_shr_m by (rewrite Hrec; lia). rewrite Hrec.
    assert (Zpos q = d - 53) as Hq by lia.
    split; [|lia].
    apply Z.div_str_pos. split; [apply Z.pow_pos_nonneg; lia|].
    eapply Z.le_trans; [|exact Hlo]. apply Z.pow_le_mono_r; lia.
  - rewrite Hrec. lia.
Qed.

Lemma binary_round_aux_pos (m e : Z) (l : location) :
  0 < m -> emin64 <= e ->
  SFltb (S754_zero false) (binary_round_aux prec emax false m e l) = true.
Proof.
  intros Hm He. unfold binary_round_aux.
  pose proof (shr_fexp_pos m e l Hm He) as [H1 H1e].
  destruct (shr_fexp prec emax m e l) as [mrs' e']. cbn [fst snd] in H1, H1e.
  set (m2 := round_nearest_even (shr_m mrs') (loc_of_shr_record mrs')).
  assert (0 < m2) as H2.
  { unfold m2, round_nearest_even.
    destruct (loc_of_shr_record mrs') as [|[]]; try lia.
    destruct (Z.even (shr_m mrs')); lia. }
  pose proof (shr_fexp_pos m2 e' loc_Exact H2 H1e) as [H3 _].
  destruct (shr_fexp prec emax m2 e' loc_Exact) as [mrs'' e'']. cbn [fst] in H3.
  destruct (shr_m mrs'') as [|p|p]; try lia.
  destruct (e'' <=? emax - prec); reflexivity.
Qed.

Lemma binary_round_aux_neg (m e : Z) (l : location) :
  SFltb (S754_zero false) (binary_round_aux prec emax true m e l) = false.
Proof.
  unfold binary_round_aux.
  destruct (shr_fexp prec emax m e l) as [mrs' e'].
  destruct (shr_fexp prec emax _ e' loc_Exact) as [mrs'' e''].
  destruct (shr_m mrs'') as [|p|p]; try reflexivity.
  destruct (e'' <=? emax - prec); reflexivity.
Qed.

Lemma binary_normalize_sign (M e : Z) :
  emin64 <= e ->
  SFltb (S754_zero false) (binary_normalize prec emax M e false) = (0 <? M).
Proof.
  intro He. destruct M as [|p|p]; cbn [binary_normalize].
  - reflexivity.
  - unfold binary_round.
    destruct (shl_align p e (fexp prec emax (Zpos (digits2_pos p) + e))) as [mz ez] eqn:Ea.
    rewrite binary_round_aux_pos; [reflexivity | lia |].
    unfold shl_align in Ea.
    destruct (fexp prec emax (Zpos (digits2_pos p) + e) - e) eqn:Ed;
      injection Ea as _ <-; try exact He.
    unfold fexp. fold emin64. lia.
  - unfold binary_round.
    destruct (shl_align p e (fexp prec emax (Zpos (digits2_pos p) + e))) as [mz ez].
    now rewrite binary_round_aux_neg.
Qed.

Lemma shl_align_fst (m : positive) (e e' : Z) :
  e' <= e -> Zpos (fst (shl_align m e e')) = Zpos m * 2 ^ (e - e').
Proof.
  intro H. unfold shl_align.
  destruct (e' - e) as [|d|d] eqn:Ed; cbn [fst]; try lia.
  - replace (e - e') with 0 by lia. simpl. lia.
  - replace (e - e') with (Zpos d) by lia.
    change (Pos.iter xO m d) with (shift_pos d m).
    rewrite shift_pos_correct, Z.pow_pos_fold. ring.
Qed.

(** The sign of a difference of two non-negative finite doubles. *)
Lemma SFsub_sign_finite (mx my : positive) (ex ey : Z) :
  bounded prec emax mx ex = true -> bounded prec emax my ey = true ->
  SFltb (S754_zero false)
        (SFsub prec emax (S754_finite false my ey) (S754_finite false mx ex))
  = SFltb (S754_finite false mx ex) (S754_finite false my ey).
Proof.
  intros Hx Hy.
  apply bounded_bounds in Hx, Hy.
  destruct Hx as (Hxe & Hxhi & Hxlo). destruct Hy as (Hye & Hyhi & Hylo).
  cbn [SFsub cond_Zopp].
  rewrite binary_normalize_sign by lia.
  rewrite !shl_align_fst by lia.
  unfold SFltb. cbn [SFcompare].
  rewrite Pos.compare_cont_spec. cbn [Pos.switch_Eq].
  destruct (Z.compare_spec ex ey) as [E|E|E].
  - subst ey. rewrite Z.min_id, Z.sub_diag. cbn [Z.pow]. rewrite !Z.mul_1_r.
    destruct (Pos.compare_spec mx my) as [E|E|E];
      [apply Z.ltb_ge | apply Z.ltb_lt | apply Z.ltb_ge]; lia.
  - rewrite Z.min_r by lia. rewrite Z.sub_diag. cbn [Z.pow]. rewrite Z.mul_1_r.
    apply Z.ltb_lt.
    assert (2 ^ 1 <= 2 ^ (ey - ex)) as Hp by (apply Z.pow_le_mono_r; lia).
    change (2 ^ 1) with 2 in Hp. specialize (Hylo ltac:(lia)).
    change (2 ^ 53) with (2 ^ 52 * 2) in Hxhi. nia.
  - rewrite Z.min_l by lia. rewrite Z.sub_diag. cbn [Z.pow]. rewrite Z.mul_1_r.
    apply Z.ltb_ge.
    assert (2 ^ 1 <= 2 ^ (ex - ey)) as Hp by (apply Z.pow_le_mono_r; lia).
    change (2 ^ 1) with 2 in Hp. specialize (Hxlo ltac:(lia)).
    change (2 ^ 53) with (2 ^ 52 * 2) in Hyhi. nia.
Qed.

Lemma SFsub_sign (x y : spec_float) :
  valid_binary x = true -> valid_binary y = true ->
  SFnonneg x = true -> SFnonneg y = true ->
  SFltb (S754_zero false) (SFsub prec emax y x) = SFltb x y.
Proof.
  intros Vx Vy Nx Ny.
  destruct x as [sx|[]| |[] mx ex]; try discriminate Nx;
    destruct y as [sy|[]| |[] my ey]; try discriminate Ny;
    try reflexivity; try (destruct sx; reflexivity); try (destruct sy; reflexivity);
    try (destruct sx, sy; reflexivity).
  now apply SFsub_sign_finite.
Qed.

Lemma sub_sign (x y : float) :
  nonneg x -> nonneg y -> (0 <? y - x)%float = (x <? y)%float.
Proof.
  intros Nx Ny. rewrite !FloatAxioms.ltb_spec, FloatAxioms.sub_spec.
  change (Prim2SF 0) with (S754_zero false).
  apply SFsub_sign; auto using Prim2SF_valid.
Qed.

(** ** The order of doubles *)

Lemma SFltb_irrefl (x : spec_float) : SFltb x x = false.
Proof.
  unfold SFltb. destruct x as [s|s| |s m e]; simpl.
  - reflexivity.
  - destruct s; reflexivity.
  - reflexivity.
  - destruct s; rewrite Z.compare_refl, Pos.compare_cont_refl; reflexivity.
Qed.

Lemma ltb_irrefl (x : float) : (x <? x)%float = false.
Proof. rewrite ltb_spec. apply SFltb_irrefl. Qed.

Lemma SFcompare_rank (x y : spec_float) :
  SFnonneg x = true -> SFnonneg y = true ->
  (SFltb x y = true <-> rank_lt x y)
  /\ (SFeqb x y = true <-> rank_eq x y)
  /\ (SFleb x y = true <-> rank_lt x y \/ rank_eq x y).
Proof.
  intros Nx Ny. unfold SFltb, SFeqb, SFleb, rank_lt, rank_eq.
  destruct x as [sx|[]| |[] mx ex]; try discriminate Nx;
    destruct y as [sy|[]| |[] my ey]; try discriminate Ny;
    cbn [SFcompare rank1 rank2 rank3];
    try (repeat split; intros; try discriminate; try reflexivity; lia).
  rewrite Pos.compare_cont_spec. cbn [Pos.switch_Eq].
  destruct (Z.compare_spec ex ey); destruct (Pos.compare_spec mx my);
    repeat split; intros; try discriminate; try reflexivity; lia.
Qed.

Lemma nonneg_eqb (x v : float) : nonneg x -> (x =? v)%float = true -> nonneg v.
Proof.
  unfold nonneg. intros Nx E. rewrite FloatAxioms.eqb_spec in E. unfold SFeqb in E.
  destruct (Prim2SF x) as [sx|[]| |[] mx ex]; try discriminate Nx;
    destruct (Prim2SF v) as [sv|[]| |[] mv ev]; try reflexivity;
    cbn [SFcompare] in E; discriminate E.
Qed.

Lemma exceeds_nonneg (t v : float) : (t <? abs v)%float = true -> nonneg (abs v).
Proof.
  unfold nonneg. rewrite FloatAxioms.ltb_spec, abs_spec. unfold SFltb.
  destruct (Prim2SF v) as [s|s| |s m e]; cbn [SFabs SFnonneg]; try reflexivity.
  destruct (Prim2SF t); cbn [SFcompare]; discriminate.
Qed.

Section Order.
Variables x y z : float.
Hypothesis Nx : nonneg x.
Hypothesis Ny : nonneg y.

Lemma ltb_false_leb : (x <? y)%float = false -> (y <=? x)%float = true.
Proof.
  intro H. rewrite FloatAxioms.ltb_spec in H. rewrite FloatAxioms.leb_spec.
  destruct (SFcompare_rank (Prim2SF x) (Prim2SF y) Nx Ny) as (Hlt & _ & _).
  destruct (SFcompare_rank (Prim2SF y) (Prim2SF x) Ny Nx) as (_ & _ & Hle).
  apply Hle. unfold rank_lt, rank_eq in *.
  destruct (SFltb (Prim2SF x) (Prim2SF y)); [discriminate|].
  assert (~ (rank1 (Prim2SF x) < rank1 (Prim2SF y)
             \/ rank1 (Prim2SF x) = rank1 (Prim2SF y)
                /\ (rank2 (Prim2SF x) < rank2 (Prim2SF y)
                    \/ rank2 (Prim2SF x) = rank2 (Prim2SF y)
                       /\ rank3 (Prim2SF x) < rank3 (Prim2SF y)))) as Hn
    by (intro Hc; apply Hlt in Hc; discriminate).
  lia.
Qed.

Lemma ltb_true_leb : (x <? y)%float = true -> (x <=? y)%float = true.
Proof.
  intro H. rewrite FloatAxioms.ltb_spec in H. rewrite FloatAxioms.leb_spec.
  destruct (SFcompare_rank (Prim2SF x) (Prim2SF y) Nx Ny) as (Hlt & _ & Hle).
  apply Hle. left. now apply Hlt.
Qed.

Hypothesis Nz : nonneg z.

Lemma leb_trans : (x <=? y)%float = true -> (y <=? z)%float = true -> (x <=? z)%float = true.
Proof.
  intros H1 H2. rewrite FloatAxioms.leb_spec in *.
  destruct (SFcompare_rank (Prim2SF x) (Prim2SF y) Nx Ny) as (_ & _ & Hxy).
  destruct (SFcompare_rank (Prim2SF y) (Prim2SF z) Ny Nz) as (_ & _ & Hyz).
  destruct (SFcompare_rank (Prim2SF x) (Prim2SF z) Nx Nz) as (_ & _ & Hxz).
  apply Hxy in H1. apply Hyz in H2. apply Hxz.
  unfold rank_lt, rank_eq in *. lia.
Qed.

Lemma ltb_eqb_apart : (x <? y)%float = true -> (x =? z)%float = true -> (y =? z)%float = false.
Proof.
  intros H1 H2. rewrite FloatAxioms.ltb_spec in H1. rewrite FloatAxioms.eqb_spec in *.
  destruct (SFcompare_rank (Prim2SF x) (Prim2SF y) Nx Ny) as (Hxy & _ & _).
  destruct (SFcompare_rank (Prim2SF x) (Prim2SF z) Nx Nz) as (_ & Hxz & _).
  destruct (SFcompare_rank (Prim2SF y) (Prim2SF z) Ny Nz) as (_ & Hyz & _).
  apply Hxy in H1. apply Hxz in H2.
  destruct (SFeqb (Prim2SF y) (Prim2SF z)); [|reflexivity].
  assert (rank_eq (Prim2SF y) (Prim2SF z)) as H3 by (now apply Hyz).
  unfold rank_lt, rank_eq in *. lia.
Qed.

End Order.

Lemma leb_antisym_eqb (x y : float) :
  nonneg x -> nonneg y ->
  (x <=? y)%float = true -> (y <=? x)%float = true -> (x =? y)%float = true.
Proof.
  intros Nx Ny H1 H2. rewrite FloatAxioms.leb_spec in *. rewrite FloatAxioms.eqb_spec.
  destruct (SFcompare_rank (Prim2SF x) (Prim2SF y) Nx Ny) as (_ & Heq & Hxy).
  destruct (SFcompare_rank (Prim2SF y) (Prim2SF x) Ny Nx) as (_ & _ & Hyx).
  apply Hxy in H1. apply Hyx in H2. apply Heq.
  unfold rank_lt, rank_eq in *. lia.
Qed.

Lemma nonneg_leb_refl (x : float) : nonneg x -> (x <=? x)%float = true.
Proof.
  intro Nx. rewrite FloatAxioms.leb_spec.
  destruct (SFcompare_rank (Prim2SF x) (Prim2SF x) Nx Nx) as (_ & _ & H).
  apply H. right. unfold rank_eq. lia.
Qed.

Lemma nonneg_eqb_refl (x : float) : nonneg x -> (x =? x)%float = true.
Proof. intro Nx. apply leb_antisym_eqb; auto using nonneg_leb_refl. Qed.

(** Whatever the average actual, a zero average budget never gives a zero
    average variance: the quotient is infinite or NaN. *)
Lemma unguarded_division (a b : float) :
  (b =? 0)%float = true -> ((a - b) / b * 100 =? 0)%float = false.
Proof.
  intro Hb. rewrite FloatAxioms.eqb_spec in *.
  rewrite mul_spec, div_spec, sub_spec.
  change (Prim2SF 0) with (S754_zero false) in *.
  remember (Prim2SF 100) as hundred eqn:E. vm_compute in E. subst hundred.
  destruct (Prim2SF b) as [sb|sb| |sb mb eb]; try discriminate Hb;
    try (destruct sb; discriminate Hb).
  destruct (Prim2SF a) as [sa|sa| |sa ma ea]; try (destruct sa); destruct sb; reflexivity.
Qed.

Local Close Scope Z_scope.

(** ** Sorting by a key, largest first *)

Section SortByKey.
Context {A : Type}.
Variable key : A -> float.

Lemma sort_insert_perm (cmp : A -> A -> float) (x : A) (l : list A) :
  Permutation (sort_insert cmp x l) (x :: l).
Proof.
  induction l as [|y l IH]; simpl; [reflexivity|].
  destruct (gt (cmp x y) 0%float); [|reflexivity].
  rewrite IH. apply perm_swap.
Qed.

Lemma sort_perm (cmp : A -> A -> float) (l : list A) : Permutation (sort cmp l) l.
Proof.
  induction l as [|x l IH]; simpl; [reflexivity|].
  rewrite sort_insert_perm. now constructor.
Qed.

Lemma sort_insert_sorted (x : A) (l : list A) :
  (keyed_nonneg key) x -> Forall (keyed_nonneg key) l ->
  StronglySorted (descending key) l -> StronglySorted (descending key) (sort_insert (by_key key) x l).
Proof.
  intros Gx. induction l as [|y l IH]; simpl; intros Gl Hs.
  - constructor; [constructor | constructor].
  - inversion Gl as [|? ? Gy Gl']; subst. inversion Hs as [|? ? Hl Hy]; subst.
    unfold gt, by_key at 1. rewrite (sub_sign (key x) (key y) Gx Gy).
    destruct (key x <? key y)%float eqn:E.
    + constructor; [now apply IH|].
      rewrite Forall_forall. intros z Hz.
      apply (Permutation_in _ (sort_insert_perm (by_key key) x l)) in Hz.
      destruct Hz as [<-|Hz]; [now apply ltb_true_leb|].
      rewrite Forall_forall in Hy. now apply Hy.
    + assert ((descending key) x y) as Hxy by (now apply ltb_false_leb).
      constructor; [exact Hs|]. constructor; [exact Hxy|].
      rewrite Forall_forall in *. intros z Hz.
      exact (leb_trans (key z) (key y) (key x) (Gl' z Hz) Gy Gx (Hy z Hz) Hxy).
Qed.

Lemma sort_sorted (l : list A) :
  Forall (keyed_nonneg key) l -> StronglySorted (descending key) (sort (by_key key) l).
Proof.
  induction l as [|x l IH]; simpl; intro Gl; [constructor|].
  inversion Gl; subst. apply sort_insert_sorted; auto.
  rewrite Forall_forall in *. intros z Hz.
  apply (Permutation_in _ (sort_perm (by_key key) l)) in Hz. auto.
Qed.

Lemma sort_insert_stable (v : float) (x : A) (l : list A) :
  (keyed_nonneg key) x -> Forall (keyed_nonneg key) l ->
  filter (fun a => (key a =? v)%float) (sort_insert (by_key key) x l)
  = filter (fun a => (key a =? v)%float) (x :: l).
Proof.
  intros Gx. induction l as [|y l IH]; intro Gl; [reflexivity|].
  inversion Gl as [|? ? Gy Gl']; subst.
  cbn [sort_insert]. unfold gt, by_key at 1. rewrite (sub_sign (key x) (key y) Gx Gy).
  destruct (key x <? key y)%float eqn:E; [|reflexivity].
  cbn [filter]. rewrite (IH Gl'). cbn [filter].
  destruct (key x =? v)%float eqn:Ex; [|reflexivity].
  assert (nonneg v) as Nv by (now apply (nonneg_eqb (key x))).
  now rewrite (ltb_eqb_apart (key x) (key y) v Gx Gy Nv E Ex).
Qed.

Lemma sort_stable (v : float) (l : list A) :
  Forall (keyed_nonneg key) l ->
  filter (fun a => (key a =? v)%float) (sort (by_key key) l)
  = filter (fun a => (key a =? v)%float) l.
Proof.
  induction l as [|x l IH]; intro Gl; [reflexivity|].
  inversion Gl; subst. cbn [sort fold_right].
  change (fold_right (sort_insert (by_key key)) [] l) with (sort (by_key key) l).
  rewrite sort_insert_stable; auto.
  - cbn [filter]. now rewrite IH.
  - rewrite Forall_forall in *. intros z Hz.
    apply (Permutation_in _ (sort_perm (by_key key) l)) in Hz. auto.
Qed.

(** A list is determined by being a permutation of the input, in descending
    order of the key, with equal keys in input order: every stable sort by
    this comparator returns what [sort] returns. *)
Lemma sorted_stable_unique (l1 l2 : list A) :
  Forall (keyed_nonneg key) l1 ->
  Permutation l1 l2 ->
  StronglySorted (descending key) l1 ->
  StronglySorted (descending key) l2 ->
  (forall v, filter (fun a => (key a =? v)%float) l1
             = filter (fun a => (key a =? v)%float) l2) ->
  l1 = l2.
Proof.
  revert l2. induction l1 as [|a r1 IH]; intros l2 G P S1 S2 F.
  - apply Permutation_nil in P. now subst.
  - destruct l2 as [|b r2]; [apply Permutation_sym, Permutation_nil in P; discriminate|].
    inversion G as [|? ? Ga Gr]; subst.
    inversion S1 as [|? ? S1' H1]; subst. inversion S2 as [|? ? S2' H2]; subst.
    assert (keyed_nonneg key b) as Gb.
    { rewrite Forall_forall in G. apply G.
      apply (Permutation_in _ (Permutation_sym P)). now left. }
    assert ((key a <=? key b)%float = true) as Hab.
    { assert (In a (b :: r2)) as [<-|Hin] by (apply (Permutation_in _ P); now left).
      - now apply nonneg_leb_refl.
      - rewrite Forall_forall in H2. now apply H2. }
    assert ((key b <=? key a)%float = true) as Hba.
    { assert (In b (a :: r1)) as [<-|Hin]
        by (apply (Permutation_in _ (Permutation_sym P)); now left).
      - now apply nonneg_leb_refl.
      - rewrite Forall_forall in H1. now apply H1. }
    assert (a = b) as <-.
    { pose proof (F (key a)) as Fa. cbn [filter] in Fa.
      rewrite (nonneg_eqb_refl (key a) Ga),
        (leb_antisym_eqb (key b) (key a) Gb Ga Hba Hab) in Fa.
      now injection Fa. }
    f_equal. apply IH; auto.
    + now apply Permutation_cons_inv in P.
    + intro v. specialize (F v). cbn [filter] in F.
      destruct (key a =? v)%float; [now injection F | exact F].
Qed.

Lemma sort_determined (l l' : list A) :
  Forall (keyed_nonneg key) l ->
  Permutation l' l ->
  StronglySorted (descending key) l' ->
  (forall v, filter (fun a => (key a =? v)%float) l'
             = filter (fun a => (key a =? v)%float) l) ->
  l' = sort (by_key key) l.
Proof.
  intros G P S F. apply sorted_stable_unique.
  - rewrite Forall_forall in *. intros a Ha. apply G. now apply (Permutation_in _ P).
  - rewrite P. symmetry. apply sort_perm.
  - exact S.
  - now apply sort_sorted.
  - intro v. rewrite F. symmetry. now apply sort_stable.
Qed.

End SortByKey.

(** ** The classifier *)



Lemma classify_table (q : string) : classify q = Spec.first_match q.
Proof.
  unfold classify, Spec.first_match, Spec.hitsb, Spec.keyword_table.
  simpl.
  repeat match goal with
         | |- context [includes (toLowerCase q) ?k] =>
             destruct (includes (toLowerCase q) k); simpl; try reflexivity
         end.
Qed.

(** *** Occurrence in any case

    What lower-casing the question amounts to, stated without
    [toLowerCase]: a keyword in lower case occurs in the lower-cased
    question exactly when it occurs in the question itself with some of
    its letters in upper case. *)











(** ** Reading numeric fields *)

(** [parseFloat] on strings: numeric prefixes, exponents, white space, and
    the strings that have no numeric prefix. *)
Example parseFloat_string_samples :
  parseFloat_string "105.01" = 105.01%float
  /\ parseFloat_string "  -12.5e3 USD" = (-12500)%float
  /\ parseFloat_string "1,250" = 1%float
  /\ parseFloat_string ".5" = 0.5%float
  /\ parseFloat_string "5e" = 5%float
  /\ parseFloat_string "Infinity" = infinity
  /\ parseFloat_string "4.9e-324" = 4.9e-324%float
  /\ parseFloat_string "1.8e308" = infinity
  /\ parseFloat_string "" = nan
  /\ parseFloat_string "$100" = nan
  /\ parseFloat_string "n/a" = nan.
Proof. repeat split. Qed.

(** [toFixed(1)] rounds the exact value of the double, ties upward in
    magnitude, and keeps the sign of a negative number that rounds to 0. *)
Example toFixed1_samples (h : Host) :
  toFixed1 h 5%float = "5.0"
  /\ toFixed1 h 0.25%float = "0.3"
  /\ toFixed1 h 0.35%float = "0.3"
  /\ toFixed1 h (-0.04)%float = "-0.0"
  /\ toFixed1 h (-0)%float = "0.0"
  /\ toFixed1 h 13.333333333333334%float = "13.3"
  /\ toFixed1 h nan = "NaN"
  /\ toFixed1 h infinity = "Infinity".
Proof. repeat split. Qed.

Lemma no_numeric_prefix_nan (c : ascii) (r : string) :
  Spec.not_numeric_start c = true -> parseFloat_string (String c r) = nan.
Proof.
  destruct c as [[] [] [] [] [] [] [] []]; intro L; try discriminate L; reflexivity.
Qed.

(** C2, amended.  A numeric field that is absent under both spellings, or
    whose value is falsy, is read as 0 by the expression every routine uses;
    a string value is read by [parseFloat], and one that begins with a
    character that cannot begin a number (a letter other than the I of
    Infinity, a currency sign, ...) is read as NaN, which is not replaced
    by 0.  Reading is a total function: it raises nothing. *)
Theorem numeric_field_reading (K k : string) (item : row) :
  (truthy (get item K) = false -> truthy (get item k) = false ->
   numeric_field K k item = 0%float)
  /\ (own item K = None -> own item k = None -> numeric_field K k item = 0%float)
  /\ (forall c r, get item K = Str (String c r) ->
       Spec.not_numeric_start c = true ->
       numeric_field K k item = nan).
Proof.
  unfold numeric_field, or_else, get. repeat split.
  - intros H1 H2. unfold get in H1, H2. rewrite H1, H2. reflexivity.
  - intros H1 H2. rewrite H1, H2. reflexivity.
  - intros c r H L. unfold get in H. rewrite H. simpl.
    now apply no_numeric_prefix_nan.
Qed.

(** C2 at a row with neither [Budget] nor [budget], and at a row whose
    [Budget] is the text n/a. *)
Lemma numeric_field_reading_witness :
  (own [("Year", Num 2021%float)] "Budget" = None
   /\ own [("Year", Num 2021%float)] "budget" = None
   /\ budget_of [("Year", Num 2021%float)] = 0%float)
  /\ (get [("Budget", Str "n/a")] "Budget" = Str "n/a"
      /\ budget_of [("Budget", Str "n/a")] = nan).
Proof.
  split.
  - split; [reflexivity|]. split; [reflexivity|].
    exact (proj1 (proj2 (numeric_field_reading "Budget" "budget" [("Year", Num 2021%float)]))
                 eq_refl eq_refl).
  - split; [reflexivity|].
    exact (proj2 (proj2 (numeric_field_reading "Budget" "budget" [("Budget", Str "n/a")]))
                 "n"%char "/a" eq_refl eq_refl).
Defined.

(** C2, as stated, fails: a [Budget] that is not parsable is read as NaN,
    and the total budget of the record set is NaN. *)
Lemma unparsable_budget_is_nan :
  budget_of [("Budget", Str "n/a"); ("Actual", Num 50%float)] = nan
  /\ data (analyzeTotals Sample.host [[("Budget", Str "n/a"); ("Actual", Num 50%float)]])
     = Some (TotalsData nan 50%float 0%float)
  /\ is_nan (totalBudget [[("Budget", Str "n/a"); ("Actual", Num 50%float)]]) = true.
Proof. vm_compute. repeat split. Qed.

(** ** Trends *)

Lemma groupByYear_keys (h : Host) (this_data : list row) (currentYear : N) :
  NoDup (keys (groupByYear h this_data currentYear))
  /\ forall y, In y (keys (groupByYear h this_data currentYear))
               <-> In y (map (year_of h currentYear) this_data) /\ inherited y = false.
Proof.
  unfold groupByYear.
  induction this_data as [|item l IH] using rev_ind.
  - simpl. split; [constructor | intro y; tauto].
  - rewrite fold_left_app, map_app. simpl.
    set (acc := fold_left (groupByYear_step h currentYear) l []) in *.
    destruct IH as [Hnd Hin].
    unfold groupByYear_step.
    set (year := year_of h currentYear item).
    assert (forall y, In y (map (year_of h currentYear) l ++ [year])%list
                      <-> In y (map (year_of h currentYear) l) \/ y = year) as Happ
      by (intro y; rewrite in_app_iff; simpl; intuition).
    destruct (own acc year) as [sums|] eqn:E.
    + destruct (keys_set acc year
                  {| ys_budget := (ys_budget sums + budget_of item)%float;
                     ys_actual := (ys_actual sums + actual_of item)%float |} Hnd)
        as [Hnd' Hin'].
      split; [exact Hnd'|]. intro y. rewrite Hin', Happ, Hin.
      apply own_Some in E. apply Hin in E.
      split; [intros [->|H]; [split; [now right | tauto] | tauto] | tauto].
    + destruct (inherited year) eqn:Ei.
      * split; [exact Hnd|]. intro y. rewrite Happ, Hin.
        split; [tauto | intros [[H| ->] Hy]; [tauto | congruence]].
      * destruct (keys_set acc year
                    {| ys_budget := (0 + budget_of item)%float;
                       ys_actual := (0 + actual_of item)%float |} Hnd)
          as [Hnd' Hin'].
        split; [exact Hnd'|]. intro y. rewrite Hin', Happ, Hin.
        split; [intros [->|H]; tauto | tauto].
Qed.






(** ** Missed budgets *)

(** C5, amended.  A row is kept as missed exactly when its parsed actual is
    strictly greater than its parsed budget times 1.05, in double
    arithmetic; the count is the number of such rows, the percentage is
    that count over the number of rows, times 100, and both are printed in
    the narrative when the count is not 0.  A row whose actual equals
    [budget * 1.05] is not counted; a row whose actual equals
    [budget * 1.05 + 0.01] is counted exactly when that sum is greater than
    [budget * 1.05], as it is for a budget of 100. *)
Theorem missed_budgets_threshold (h : Host) (this_data : list row) (currentYear : N) :
  let over item := ((budget_of item * 1.05) <? actual_of item)%float in
  let count := Spec.count over this_data in
  let percentage := (of_nat count / of_nat (List.length this_data) * 100)%float in
  missedBudgets this_data = filter over this_data
  /\ (forall item, In item (missedBudgets this_data) <-> In item this_data /\ over item = true)
  /\ missedCount this_data = count
  /\ missedPercentage this_data = percentage
  /\ data (analyzeMissedBudgets h this_data currentYear) = Some (RowData (filter over this_data))
  /\ (count <> 0 ->
      exists rest,
        insight (analyzeMissedBudgets h this_data currentYear)
        = "**Budget Performance Analysis**" ++ nl ++ nl
          ++ "📊 **Budget Overruns**: " ++ string_of_nat count ++ " out of "
          ++ string_of_nat (List.length this_data) ++ " entries (" ++ toFixed1 h percentage
          ++ "%) exceeded budget by more than 5%." ++ nl ++ nl ++ rest)
  /\ (forall item, actual_of item = (budget_of item * 1.05)%float -> missed item = false)
  /\ (forall item, actual_of item = (budget_of item * 1.05 + 0.01)%float ->
      missed item = ((budget_of item * 1.05) <? (budget_of item * 1.05 + 0.01))%float)
  /\ missed Sample.at_threshold = false
  /\ missed Sample.past_threshold = true.
Proof.
  intros over count percentage.
  assert (missedCount this_data = count) as Hc
    by (unfold missedCount, missedBudgets; apply length_filter_count).
  split; [reflexivity|].
  split; [intro item; unfold missedBudgets; apply filter_In|].
  split; [exact Hc|].
  split; [unfold missedPercentage, totalItems; now rewrite Hc|].
  split; [reflexivity|].
  split.
  - intro Hne. unfold analyzeMissedBudgets.
    destruct (missedCount this_data =? 0)%nat eqn:E.
    + apply Nat.eqb_eq in E. congruence.
    + cbv zeta. rewrite fold_left_append.
      unfold overruns_summary, missedPercentage, totalItems. rewrite Hc.
      fold percentage.
      eexists. rewrite !append_assoc. reflexivity.
  - split; [intros item E; unfold missed, gt; rewrite E; apply ltb_irrefl|].
    split; [intros item E; unfold missed, gt; now rewrite E|].
    split; reflexivity.
Qed.

(** C5 at the two rows around the threshold. *)
Lemma missed_budgets_threshold_witness :
  Spec.count (fun item => ((budget_of item * 1.05) <? actual_of item)%float)
             [Sample.at_threshold; Sample.past_threshold] <> 0
  /\ exists rest,
      insight (analyzeMissedBudgets Sample.host [Sample.at_threshold; Sample.past_threshold] 2026)
      = "**Budget Performance Analysis**" ++ nl ++ nl
        ++ "📊 **Budget Overruns**: 1 out of 2 entries (50.0%) exceeded budget by more than 5%."
        ++ nl ++ nl ++ rest.
Proof.
  assert (Spec.count (fun item => ((budget_of item * 1.05) <? actual_of item)%float)
             [Sample.at_threshold; Sample.past_threshold] <> 0) as H by discriminate.
  split; [exact H|].
  exact (proj1 (proj2 (proj2 (proj2 (proj2 (proj2
           (missed_budgets_threshold Sample.host [Sample.at_threshold; Sample.past_threshold] 2026))))))
         H).
Defined.

(** C5, as stated, fails: with a budget of 10^18 an actual equal to
    [budget * 1.05 + 0.01] is not counted, the 0.01 being lost in the sum. *)
Lemma missed_budgets_absorbed :
  actual_of Sample.huge_row = (budget_of Sample.huge_row * 1.05 + 0.01)%float
  /\ missed Sample.huge_row = false
  /\ missedCount [Sample.huge_row] = 0.
Proof. repeat split. Qed.

(** C10.  On the empty record set the missed-budget analysis returns the
    no-overruns narrative, an empty list and the bar tag: the count of
    misses is 0, and the percentage, 0/0, is computed but never printed. *)
Theorem missed_budgets_empty (h : Host) (currentYear : N) :
  analyzeMissedBudgets h [] currentYear =
  {| insight := "**Budget Performance Analysis**" ++ nl ++ nl ++ no_overruns;
     data := Some (RowData []);
     chartType := Some bar |}
  /\ missedPercentage [] = nan.
Proof. split; reflexivity. Qed.

(** ** Discrepancies *)

Lemma by_variance_by_key :
  by_variance = by_key (fun r => abs (d_variance r)).
Proof. reflexivity. Qed.

Lemma discrepancies_nonneg (this_data : list row) :
  Forall (keyed_nonneg (fun r => abs (d_variance r))) (discrepancies this_data).
Proof.
  unfold discrepancies. rewrite Forall_forall. intros r Hr.
  apply filter_In in Hr. destruct Hr as [_ Hr].
  unfold keyed_nonneg. now apply (exceeds_nonneg 5%float).
Qed.

Lemma positive_not_zero (x : float) : gt x 0%float = true -> (x =? 0)%float = false.
Proof.
  unfold gt. rewrite FloatAxioms.ltb_spec, FloatAxioms.eqb_spec.
  change (Prim2SF 0%float) with (S754_zero false).
  unfold SFltb, SFeqb, SFcompare.
  destruct (Prim2SF x) as [s| s| |s m e]; try destruct s; simpl; congruence.
Qed.

(** C6, amended.  The variance of a row is [(actual - budget) / budget *
    100] when its parsed budget is greater than 0 and 0 otherwise: it is
    the variance of the specification for a budget greater than 0, and a
    row whose budget is not greater than 0 (zero, negative, NaN) is never
    kept.  With that variance the discrepancy analysis keeps exactly the
    rows whose variance magnitude is strictly greater than 5: a row at 5
    is left out, a row at 5.01 is kept.  Over the kept rows, in input
    order, it reports the sum of [|actual - budget|] and the mean of
    [|variance|].  The kept rows are then ranked by descending
    [|variance|], rows of equal magnitude staying in input order, and the
    first 5 of that ranking are listed. *)
Theorem discrepancies_report (h : Host) (this_data : list row) :
  let variance item :=
    if (0 <? budget_of item)%float
    then ((actual_of item - budget_of item) / budget_of item * 100)%float
    else 0%float in
  let exceeds item := (5 <? abs (variance item))%float in
  let kept_items := filter exceeds this_data in
  let kept := map discrepancy_row kept_items in
  let key r := abs (d_variance r) in
  let ranked := sorted_discrepancies this_data in
  discrepancies this_data = kept
  /\ (forall item, (0 <? budget_of item)%float = true ->
        variance item = Spec.variance (budget_of item) (actual_of item))
  /\ (forall item, (0 <? budget_of item)%float = false -> exceeds item = false)
  /\ (forall item, In item kept_items <-> In item this_data /\ exceeds item = true)
  /\ (forall item, variance item = 5%float -> exceeds item = false)
  /\ (forall item, variance item = 5.01%float -> exceeds item = true)
  /\ totalDiscrepancy this_data
     = fold_left (fun sum item => (sum + abs (actual_of item - budget_of item))%float)
                 kept_items 0%float
  /\ avgVariance this_data
     = (if (0 <? List.length kept_items)%nat then
          (fold_left (fun sum item => (sum + abs (variance item))%float) kept_items 0%float
           / of_nat (List.length kept_items))%float
        else 0%float)
  /\ Permutation ranked kept
  /\ StronglySorted (fun a b => (key b <=? key a)%float = true) ranked
  /\ (forall v, filter (fun r => (key r =? v)%float) ranked
               = filter (fun r => (key r =? v)%float) kept)
  /\ largestDiscrepancies this_data = firstn 5 ranked
  /\ data (analyzeDiscrepancies h this_data) = Some (DiscrepancyData ranked)
  /\ chartType (analyzeDiscrepancies h this_data) = Some table
  /\ (kept_items = [] ->
      insight (analyzeDiscrepancies h this_data)
      = "**Budget Variance Analysis**" ++ nl ++ nl ++ excellent_accuracy)
  /\ (kept_items <> [] ->
      insight (analyzeDiscrepancies h this_data)
      = "**Budget Variance Analysis**" ++ nl ++ nl
        ++ "📈 **Variance Summary**: " ++ string_of_nat (List.length kept_items)
        ++ " entries with significant variances (>5%)" ++ nl
        ++ "💰 **Total Discrepancy**: $" ++ toLocaleString h (totalDiscrepancy this_data) ++ nl
        ++ "📊 **Average Variance**: " ++ toFixed1 h (avgVariance this_data) ++ "%" ++ nl ++ nl
        ++ "**Top 5 Largest Variances:**" ++ nl
        ++ String.concat "" (map (discrepancy_line h) (indexed (firstn 5 ranked)))).
Proof.
  intros variance exceeds kept_items kept key ranked.
  assert (discrepancies this_data = kept) as Hkept.
  { unfold discrepancies. rewrite filter_map_commute. reflexivity. }
  assert (List.length (discrepancies this_data) = List.length kept_items) as Hlen
    by (rewrite Hkept; apply length_map).
  pose proof (discrepancies_nonneg this_data) as Hgood.
  split; [exact Hkept|].
  split.
  { intros item Hpos. unfold variance, Spec.variance. rewrite Hpos.
    rewrite (positive_not_zero _ Hpos). reflexivity. }
  split; [intros item Hneg; unfold exceeds, variance; rewrite Hneg; reflexivity|].
  split; [intro item; apply filter_In|].
  split; [intros item E; unfold exceeds; rewrite E; reflexivity|].
  split; [intros item E; unfold exceeds; rewrite E; reflexivity|].
  split.
  { unfold totalDiscrepancy. rewrite Hkept. unfold kept.
    rewrite fold_left_over_map. reflexivity. }
  split.
  { unfold avgVariance. rewrite Hlen. rewrite Hkept. unfold kept.
    rewrite fold_left_over_map. reflexivity. }
  split.
  { unfold ranked, sorted_discrepancies. rewrite <- Hkept. apply sort_perm. }
  split.
  { unfold ranked, sorted_discrepancies. rewrite by_variance_by_key.
    apply (sort_sorted key). exact Hgood. }
  split.
  { intro v. unfold ranked, sorted_discrepancies. rewrite by_variance_by_key, <- Hkept.
    apply (sort_stable key). exact Hgood. }
  split; [reflexivity|].
  split.
  { unfold analyzeDiscrepancies.
    destruct (List.length (discrepancies this_data) =? 0)%nat eqn:E; [|reflexivity].
    apply Nat.eqb_eq in E. apply length_zero_iff_nil in E.
    unfold ranked, sorted_discrepancies. rewrite E. reflexivity. }
  split.
  { unfold analyzeDiscrepancies.
    destruct (List.length (discrepancies this_data) =? 0)%nat; reflexivity. }
  split.
  { intro E. unfold analyzeDiscrepancies. rewrite Hlen, E. reflexivity. }
  intro Hne. unfold analyzeDiscrepancies. rewrite Hlen.
  destruct (List.length kept_items =? 0)%nat eqn:E.
  { apply Nat.eqb_eq in E. apply length_zero_iff_nil in E. contradiction. }
  cbn [insight]. rewrite fold_left_append.
  unfold variance_summary, largestDiscrepancies. rewrite Hlen. fold ranked.
  rewrite !append_assoc. reflexivity.
Qed.

(** C6 at the two-year record set, whose variances are 20 and -10. *)
Lemma discrepancies_report_witness :
  filter (fun item =>
            (5 <? abs (if (0 <? budget_of item)%float
                       then ((actual_of item - budget_of item) / budget_of item * 100)%float
                       else 0%float))%float)
         Sample.two_years <> []
  /\ insight (analyzeDiscrepancies Sample.host Sample.two_years)
     = "**Budget Variance Analysis**" ++ nl ++ nl
       ++ "📈 **Variance Summary**: 2 entries with significant variances (>5%)" ++ nl
       ++ "💰 **Total Discrepancy**: $30" ++ nl
       ++ "📊 **Average Variance**: 15.0%" ++ nl ++ nl
       ++ "**Top 5 Largest Variances:**" ++ nl
       ++ "1. Unknown: +20.0%" ++ nl
       ++ "2. Unknown: -10.0%" ++ nl.
Proof.
  assert (filter (fun item =>
                    (5 <? abs (if (0 <? budget_of item)%float
                               then ((actual_of item - budget_of item)
                                     / budget_of item * 100)%float
                               else 0%float))%float)
                 Sample.two_years <> []) as H by (vm_compute; discriminate).
  split; [exact H|].
  exact (proj2 (proj2 (proj2 (proj2 (proj2 (proj2 (proj2 (proj2 (proj2 (proj2 (proj2
          (proj2 (proj2 (proj2 (proj2
             (discrepancies_report Sample.host Sample.two_years)))))))))))))))
          H).
Defined.

(** C6, as stated, fails.  By the variance of the specification, which is
    0 only for a budget of 0, a budget of -100 with an actual of -50 has a
    variance of -50, of magnitude above 5; the analysis gives the row a
    variance of 0, keeps nothing and reports excellent accuracy. *)
Lemma discrepancies_negative_budget :
  budget_of Sample.negative_budget = (-100)%float
  /\ actual_of Sample.negative_budget = (-50)%float
  /\ Spec.variance (budget_of Sample.negative_budget) (actual_of Sample.negative_budget)
     = (-50)%float
  /\ (5 <? abs (Spec.variance (budget_of Sample.negative_budget)
                              (actual_of Sample.negative_budget)))%float = true
  /\ d_variance (discrepancy_row Sample.negative_budget) = 0%float
  /\ discrepancies [Sample.negative_budget] = []
  /\ analyzeDiscrepancies Sample.host [Sample.negative_budget]
     = {| insight := "**Budget Variance Analysis**" ++ nl ++ nl ++ excellent_accuracy;
          data := Some (DiscrepancyData []);
          chartType := Some table |}.
Proof. vm_compute. repeat split. Qed.

(** ** Totals *)

(** C1, amended.  On the two-year record set the totals analysis reports a
    total budget of 200, a total actual of 210 and an overall variance of
    5, printed [+5.0%]; 5 is not below 5, so the narrative closes with the
    over-budget sentence. *)
Theorem totals_two_years (h : Host) :
  analyzeTotals h Sample.two_years =
  {| insight :=
       "**Total Budget Analysis**" ++ nl ++ nl
       ++ "💰 **Total Budgeted**: $" ++ toLocaleString h 200%float ++ nl
       ++ "💸 **Total Actual**: $" ++ toLocaleString h 210%float ++ nl
       ++ "📊 **Overall Variance**: +5.0%" ++ nl ++ nl
       ++ over_budget;
     data := Some (TotalsData 200%float 210%float 5%float);
     chartType := None |}.
Proof.
  unfold analyzeTotals.
  replace (totalBudget Sample.two_years) with 200%float by (vm_compute; reflexivity).
  replace (totalActual Sample.two_years) with 210%float by (vm_compute; reflexivity).
  replace (totalVariance Sample.two_years) with 5%float by (vm_compute; reflexivity).
  reflexivity.
Qed.

(** C1, as stated, fails: the narrative of the two-year record set does not
    carry the excellent-control sentence. *)
Lemma totals_two_years_not_excellent :
  includes (insight (analyzeTotals Sample.host Sample.two_years)) "Excellent Control" = false
  /\ includes (toLowerCase (insight (analyzeTotals Sample.host Sample.two_years)))
              "excellent control" = false
  /\ includes (insight (analyzeTotals Sample.host Sample.two_years)) "Over Budget" = true
  /\ data (analyzeTotals Sample.host Sample.two_years)
     = Some (TotalsData 200%float 210%float 5%float).
Proof. vm_compute. repeat split. Qed.

(** ** Averages *)

Lemma averages_unguarded (this_data : list row) :
  (avgBudget this_data =? 0)%float = true ->
  (averageVariance this_data =? 0)%float = false.
Proof. apply unguarded_division. Qed.

(** C3, at its failing inputs.  With an average budget of 0 the division is
    carried out: an average actual of 50 gives an infinite variance, an
    average actual of 0 gives NaN. *)
Theorem averages_zero_budget (h : Host) :
  data (analyzeAverages h [[("Budget", Num 0%float); ("Actual", Num 50%float)]])
  = Some (AveragesData 0%float 50%float infinity)
  /\ data (analyzeAverages h [[("Budget", Num 0%float); ("Actual", Num 0%float)]])
     = Some (AveragesData 0%float 0%float nan)
  /\ variance_of 0%float 50%float = 0%float.
Proof. repeat split. Qed.

(** ** The ledger analysis *)

Lemma analyzeGLEntries_no_fields (data : list row) :
  glFields data = [] ->
  analyzeGLEntries data =
  Normal {| insight := "**General Ledger Analysis**" ++ nl ++ nl ++ no_gl_fields;
            data := Some NullData;
            chartType := Some table |}.
Proof. intro H. unfold analyzeGLEntries. now rewrite H. Qed.

Lemma analyzeGLEntries_fields (data : list row) :
  glFields data <> [] -> analyzeGLEntries data = Throw (ReferenceError "glSummary").
Proof.
  intro H. unfold analyzeGLEntries.
  destruct (glFields data); [contradiction | reflexivity].
Qed.

(** C8, at its failing input.  On rows with a [GL_Account] field holding
    4000 and 4100 the field is detected and the summary has the two keys,
    each with its count and sums; the call then ends in a ReferenceError
    instead of a result. *)
Theorem ledger_rows_throw (h : Host) :
  glFields Sample.ledger_rows = ["GL_Account"]
  /\ glSummary h Sample.ledger_rows =
     [ ("4000", {| gl_count := 2; gl_totalBudget := 150%float; gl_totalActual := 170%float |});
       ("4100", {| gl_count := 1; gl_totalBudget := 100%float; gl_totalActual := 90%float |}) ]
  /\ map ge_variance (glEntries h Sample.ledger_rows) = [13.333333333333334%float; (-10)%float]
  /\ glFields Sample.two_years = []
  /\ narrative (analyzeGLEntries Sample.two_years)
     = Some ("**General Ledger Analysis**" ++ nl ++ nl ++ no_gl_fields)
  /\ analyzeGLEntries Sample.ledger_rows = Throw (ReferenceError "glSummary").
Proof. repeat split. Qed.

(** ** NaN on the left of a sum *)

Lemma Prim2SF_nan (x : float) : Prim2SF x = S754_nan -> x = nan.
Proof. intros H. apply Prim2SF_inj. rewrite H. reflexivity. Qed.

Lemma add_nan_l (x : float) : (nan + x)%float = nan.
Proof. apply Prim2SF_nan. rewrite add_spec. reflexivity. Qed.

(** ** Calling twice *)

(** Two calls of the function of the record set and the moment that fall
    in the same calendar year agree, unless the question goes to the
    fallback. *)
Lemma analyzeQuery_same_year (h : Host) (this_data : list row)
      (now1 now2 : Moment) (query : string) :
  classify query <> GeneralInsight ->
  fullYear now1 = fullYear now2 ->
  analyzeQuery h this_data now1 query = analyzeQuery h this_data now2 query.
Proof.
  intros Hk Hy. unfold analyzeQuery. rewrite Hy.
  destruct (classify query); try reflexivity. now contradiction Hk.
Qed.

Section Calls.
Import Stateful.

(** *** What a read finds in a state *)

Lemma or_else_assoc (a b c : value) :
  or_else (or_else a b) c = or_else a (or_else b c).
Proof.
  unfold or_else. destruct (truthy a) eqn:E; [now rewrite E | reflexivity].
Qed.

Lemma pristine_only_nan (records : list row) : only_nan (pristine records).
Proof. intros w x H. discriminate H. Qed.

(** An inherited NaN is falsy, as [undefined] is. *)
Lemma inherited_value_falsy (st : State) (k : string) :
  only_nan st -> truthy (inherited_value st k) = false.
Proof.
  intros H. unfold inherited_value.
  destruct (written_of k) as [w|]; [|reflexivity].
  destruct (on_prototype st w) as [x|] eqn:E; [|reflexivity].
  rewrite (H w x E). reflexivity.
Qed.

Lemma or_else_get_in (st : State) (o : row) (k : string) (b : value) :
  only_nan st -> or_else (get_in st o k) b = or_else (get o k) b.
Proof.
  intros H. unfold get_in, get. destruct (own o k); [reflexivity|].
  unfold or_else. now rewrite (inherited_value_falsy st k H).
Qed.

Lemma get_in_truthy (st : State) (o : row) (k : string) :
  only_nan st ->
  truthy (get_in st o k) = truthy (get o k)
  /\ (truthy (get o k) = true -> get_in st o k = get o k).
Proof.
  intros H. unfold get_in, get. destruct (own o k); [split; reflexivity|].
  rewrite (inherited_value_falsy st k H). split; [reflexivity | discriminate].
Qed.

Lemma numeric_field_in_eq (st : State) (K k : string) :
  only_nan st -> numeric_field_in st K k = numeric_field K k.
Proof.
  intros H. apply functional_extensionality; intro item.
  unfold numeric_field_in, numeric_field.
  rewrite !or_else_assoc. now rewrite !or_else_get_in by exact H.
Qed.

Lemma budget_in_eq (st : State) : only_nan st -> budget_in st = budget_of.
Proof. apply numeric_field_in_eq. Qed.

Lemma actual_in_eq (st : State) : only_nan st -> actual_in st = actual_of.
Proof. apply numeric_field_in_eq. Qed.

Lemma category_in_eq (st : State) : only_nan st -> category_in st = category_of.
Proof.
  intros H. apply functional_extensionality; intro item.
  unfold category_in, category_of.
  rewrite !or_else_assoc. now rewrite !or_else_get_in by exact H.
Qed.

Lemma year_in_eq (h : Host) (st : State) (currentYear : N) :
  only_nan st -> year_in h st currentYear = year_of h currentYear.
Proof.
  intros H. apply functional_extensionality; intro item.
  unfold year_in, year_of.
  rewrite !or_else_assoc. now rewrite !or_else_get_in by exact H.
Qed.

(** *** What a write leaves *)

(** [m.p += x] on [Object.prototype] stores NaN: the property was
    [undefined] or NaN before. *)
Lemma only_nan_add_assign (st : State) (m : string) (p : written) (x : number) :
  only_nan st -> only_nan (add_assign st m p x).
Proof.
  intros H w y. unfold add_assign, member_get.
  destruct (String.eqb m "__proto__"); cbn [on_prototype]; [|apply H].
  destruct (written_eqb w p); [|apply H].
  intros [= <-].
  destruct (on_prototype st p) as [z|] eqn:Ep; cbn [to_number].
  - rewrite (H p z Ep). apply add_nan_l.
  - apply add_nan_l.
Qed.

Lemma arrays_add_assign (st : State) (m : string) (p : written) (x : number) :
  arrays (add_assign st m p x) = arrays st.
Proof. unfold add_assign. destruct (String.eqb m "__proto__"); reflexivity. Qed.

(** The call does write: on a year [__proto__] the step leaves
    [Object.prototype.budget] and [Object.prototype.actual] behind, and a
    row without a budget of its own then reads NaN where it read
    [undefined]. *)
Lemma groupByYear_leaves_nan (h : Host) (records : list row) :
  let st' := add_assign (add_assign (pristine records) "__proto__" Budget 100%float)
                        "__proto__" Actual 150%float in
  groupByYear_step_in h 2026 (Done [] (pristine records))
    [("Year", Str "__proto__"); ("Budget", Num 100%float); ("Actual", Num 150%float)]
  = Done [] st'
  /\ on_prototype st' Budget = Some nan
  /\ on_prototype st' Actual = Some nan
  /\ get_in (pristine records) [("Actual", Num 120%float)] "budget" = Undefined
  /\ get_in st' [("Actual", Num 120%float)] "budget" = Num nan
  /\ budget_in st' [("Actual", Num 120%float)] = 0%float.
Proof. repeat split. Qed.

(** *** The methods in a state and as functions of the record set *)

Lemma groupByYear_step_in_eq (h : Host) (currentYear : N) (acc : object YearSums)
      (st : State) (item : row) :
  only_nan st ->
  exists st',
    groupByYear_step_in h currentYear (Done acc st) item
    = Done (groupByYear_step h currentYear acc item) st'
    /\ only_nan st' /\ arrays st' = arrays st.
Proof.
  intros H. unfold groupByYear_step_in, groupByYear_step, probe.
  rewrite (year_in_eq h st currentYear H), (budget_in_eq st H), (actual_in_eq st H).
  cbv zeta.
  destruct (own acc (year_of h currentYear item)); [now exists st|].
  destruct (inherited (year_of h currentYear item)).
  { eexists. split; [reflexivity|]. split.
    - now repeat apply only_nan_add_assign.
    - now rewrite !arrays_add_assign. }
  destruct (written_of (year_of h currentYear item)) as [w|]; [|now exists st].
  destruct (on_prototype st w) as [x|] eqn:E; [|now exists st].
  rewrite (H w x E). now exists st.
Qed.

Lemma groupByYear_fold_in (h : Host) (currentYear : N) (rows : list row) :
  forall (acc : object YearSums) (st : State),
    only_nan st ->
    exists st',
      fold_left (groupByYear_step_in h currentYear) rows (Done acc st)
      = Done (fold_left (groupByYear_step h currentYear) rows acc) st'
      /\ only_nan st' /\ arrays st' = arrays st.
Proof.
  induction rows as [|item rows IH]; intros acc st H; cbn [fold_left].
  - now exists st.
  - destruct (groupByYear_step_in_eq h currentYear acc st item H) as (st1 & E & H1 & A1).
    rewrite E.
    destruct (IH (groupByYear_step h currentYear acc item) st1 H1) as (st2 & E2 & H2 & A2).
    exists st2. split; [exact E2|]. split; [exact H2|]. now rewrite A2.
Qed.

Lemma groupMissesByYear_step_in_eq (h : Host) (st : State) (currentYear : N) :
  only_nan st ->
  groupMissesByYear_step_in h st currentYear = groupMissesByYear_step h currentYear.
Proof.
  intros H. apply functional_extensionality; intro acc.
  apply functional_extensionality; intro item.
  unfold groupMissesByYear_step_in, groupMissesByYear_step, probe.
  rewrite (year_in_eq h st currentYear H). cbv zeta.
  destruct (own acc (year_of h currentYear item)); [reflexivity|].
  destruct (String.eqb (year_of h currentYear item) "__proto__") eqn:Ep.
  - apply String.eqb_eq in Ep. rewrite Ep. reflexivity.
  - destruct (inherited (year_of h currentYear item)); [now rewrite Ep|].
    destruct (written_of (year_of h currentYear item)) as [w|]; [|reflexivity].
    destruct (on_prototype st w) as [x|] eqn:E; [|reflexivity].
    rewrite (H w x E). reflexivity.
Qed.

(** A score is looked up in the accumulator alone. *)
Lemma probe_score (st : State) (acc : object nat) (item : row) :
  probe st acc (p_score (performance_row_in st item))
  = match own acc (p_score (performance_row_in st item)) with
    | Some c => Own c
    | None => Nothing
    end.
Proof.
  unfold probe, performance_row_in. cbn [p_score].
  repeat match goal with |- context [if lt ?a ?b then _ else _] => destruct (lt a b) end;
    destruct (own acc _); reflexivity.
Qed.

Lemma scores_step_in_eq (st : State) :
  scores_step_in st
  = fun acc r => match own acc (p_score r) with
                 | Some c => set acc (p_score r) (c + 1)%nat
                 | None => set acc (p_score r) 1%nat
                 end.
Proof.
  apply functional_extensionality; intro acc.
  apply functional_extensionality; intro r.
  unfold scores_step_in, probe.
  destruct (own acc (p_score r)); [reflexivity|].
  destruct (inherited (p_score r)); [reflexivity|].
  destruct (written_of (p_score r)) as [w|]; [|reflexivity].
  destruct (on_prototype st w); reflexivity.
Qed.

Lemma performance_row_in_eq (st : State) :
  only_nan st -> performance_row_in st = performance_row.
Proof.
  intros H. apply functional_extensionality; intro item.
  unfold performance_row_in, performance_row.
  now rewrite (budget_in_eq st H), (actual_in_eq st H).
Qed.

Lemma glSummary_field_in_eq (h : Host) (item : row) (acc : object LedgerSums)
      (st : State) (field : string) :
  only_nan st ->
  exists st',
    glSummary_field_in h item (Done acc st) field
    = Done (glSummary_field h item acc field) st'
    /\ only_nan st' /\ arrays st' = arrays st.
Proof.
  intros H. unfold glSummary_field_in, glSummary_field, probe.
  destruct (get_in_truthy st item field H) as [Et Ev]. cbv zeta. rewrite Et.
  destruct (truthy (get item field)); [|now exists st].
  rewrite (Ev eq_refl), (budget_in_eq st H), (actual_in_eq st H).
  destruct (own acc (to_string h (get item field))); [now exists st|].
  destruct (inherited (to_string h (get item field))).
  { eexists. split; [reflexivity|]. split.
    - now repeat apply only_nan_add_assign.
    - now rewrite !arrays_add_assign. }
  destruct (written_of (to_string h (get item field))) as [w|]; [|now exists st].
  destruct (on_prototype st w) as [x|] eqn:E; [|now exists st].
  rewrite (H w x E). now exists st.
Qed.

Lemma glSummary_fields_in (h : Host) (item : row) (fields : list string) :
  forall (acc : object LedgerSums) (st : State),
    only_nan st ->
    exists st',
      fold_left (glSummary_field_in h item) fields (Done acc st)
      = Done (fold_left (glSummary_field h item) fields acc) st'
      /\ only_nan st' /\ arrays st' = arrays st.
Proof.
  induction fields as [|field fields IH]; intros acc st H; cbn [fold_left].
  - now exists st.
  - destruct (glSummary_field_in_eq h item acc st field H) as (st1 & E & H1 & A1).
    rewrite E.
    destruct (IH (glSummary_field h item acc field) st1 H1) as (st2 & E2 & H2 & A2).
    exists st2. split; [exact E2|]. split; [exact H2|]. now rewrite A2.
Qed.

Lemma glSummary_rows_in (h : Host) (fields : list string) (rows : list row) :
  forall (acc : object LedgerSums) (st : State),
    only_nan st ->
    exists st',
      fold_left (fun o item => fold_left (glSummary_field_in h item) fields o)
                rows (Done acc st)
      = Done (fold_left (fun acc item => fold_left (glSummary_field h item) fields acc)
                        rows acc) st'
      /\ only_nan st' /\ arrays st' = arrays st.
Proof.
  induction rows as [|item rows IH]; intros acc st H; cbn [fold_left].
  - now exists st.
  - destruct (glSummary_fields_in h item fields acc st H) as (st1 & E & H1 & A1).
    rewrite E.
    destruct (IH (fold_left (glSummary_field h item) fields acc) st1 H1)
      as (st2 & E2 & H2 & A2).
    exists st2. split; [exact E2|]. split; [exact H2|]. now rewrite A2.
Qed.

(** *** Arrays *)

Lemma rows_at_data (st : State) (this_data : nat) (records : list row) :
  nth_error (arrays st) this_data = Some (RowArray records) ->
  rows_at st this_data = records.
Proof. intros H. unfold rows_at. now rewrite H. Qed.

Lemma nth_error_snoc {A} (l : list A) (x : A) :
  nth_error (l ++ [x]) (List.length l) = Some x.
Proof. induction l; [reflexivity | exact IHl]. Qed.

Lemma nth_error_kept {A} (l : list A) (x : A) (n : nat) (y : A) :
  nth_error l n = Some y -> nth_error (l ++ [x]) n = Some y.
Proof.
  revert n. induction l as [|a l IH]; intros [|n] H; try discriminate H.
  - exact H.
  - exact (IH n H).
Qed.

Lemma replace_nth_snoc (l : list array) (x y : array) :
  replace_nth (l ++ [x])%list (List.length l) y = (l ++ [y])%list.
Proof. induction l as [|a l IH]; [reflexivity | cbn; now rewrite IH]. Qed.

(** *** Each call, in a state *)

Lemma groupByYear_in_eq (h : Host) (st : State) (this_data : nat)
      (records : list row) (currentYear : N) :
  only_nan st ->
  nth_error (arrays st) this_data = Some (RowArray records) ->
  exists st',
    groupByYear_in h st this_data currentYear
    = Done (groupByYear h records currentYear) st'
    /\ only_nan st' /\ arrays st' = arrays st.
Proof.
  intros H Hd. unfold groupByYear_in.
  rewrite (rows_at_data st this_data records Hd).
  exact (groupByYear_fold_in h currentYear records [] st H).
Qed.

Lemma glSummary_in_eq (h : Host) (st : State) (this_data : nat) (records : list row) :
  only_nan st ->
  nth_error (arrays st) this_data = Some (RowArray records) ->
  exists st',
    glSummary_in h st this_data = Done (glSummary h records) st'
    /\ only_nan st' /\ arrays st' = arrays st.
Proof.
  intros H Hd. unfold glSummary_in.
  rewrite (rows_at_data st this_data records Hd).
  exact (glSummary_rows_in h (glFields records) records [] st H).
Qed.

Lemma analyzeTrends_in_eq (h : Host) (st : State) (this_data : nat)
      (records : list row) (currentYear : N) :
  only_nan st ->
  nth_error (arrays st) this_data = Some (RowArray records) ->
  exists st',
    analyzeTrends_in h st this_data currentYear
    = Done (Normal (analyzeTrends h records currentYear)) st'
    /\ only_nan st' /\ nth_error (arrays st') this_data = Some (RowArray records).
Proof.
  intros H Hd. unfold analyzeTrends_in.
  destruct (groupByYear_in_eq h st this_data records currentYear H Hd)
    as (st' & E & H' & A).
  rewrite E. exists st'. split; [reflexivity|]. split; [exact H'|]. now rewrite A.
Qed.

Lemma analyzeMissedBudgets_in_eq (h : Host) (st : State) (this_data : nat)
      (records : list row) (currentYear : N) :
  only_nan st ->
  nth_error (arrays st) this_data = Some (RowArray records) ->
  analyzeMissedBudgets_in h st this_data currentYear
  = Done (Normal (analyzeMissedBudgets h records currentYear)) st.
Proof.
  intros H Hd. unfold analyzeMissedBudgets_in, groupMissesByYear_in.
  rewrite (rows_at_data st this_data records Hd).
  rewrite (budget_in_eq st H), (actual_in_eq st H),
    (groupMissesByYear_step_in_eq h st currentYear H).
  reflexivity.
Qed.

Lemma analyzeTotals_in_eq (h : Host) (st : State) (this_data : nat)
      (records : list row) :
  only_nan st ->
  nth_error (arrays st) this_data = Some (RowArray records) ->
  analyzeTotals_in h st this_data = Done (Normal (analyzeTotals h records)) st.
Proof.
  intros H Hd. unfold analyzeTotals_in.
  rewrite (rows_at_data st this_data records Hd).
  rewrite (budget_in_eq st H), (actual_in_eq st H). reflexivity.
Qed.

Lemma analyzeAverages_in_eq (h : Host) (st : State) (this_data : nat)
      (records : list row) :
  only_nan st ->
  nth_error (arrays st) this_data = Some (RowArray records) ->
  analyzeAverages_in h st this_data = Done (Normal (analyzeAverages h records)) st.
Proof.
  intros H Hd. unfold analyzeAverages_in.
  rewrite (rows_at_data st this_data records Hd).
  rewrite (budget_in_eq st H), (actual_in_eq st H). reflexivity.
Qed.

Lemma analyzePerformance_in_eq (h : Host) (st : State) (this_data : nat)
      (records : list row) :
  only_nan st ->
  nth_error (arrays st) this_data = Some (RowArray records) ->
  analyzePerformance_in h st this_data = Done (Normal (analyzePerformance h records)) st.
Proof.
  intros H Hd. unfold analyzePerformance_in, performer_line_in.
  rewrite (rows_at_data st this_data records Hd).
  rewrite (performance_row_in_eq st H), (category_in_eq st H), (scores_step_in_eq st).
  reflexivity.
Qed.

Lemma analyzeDiscrepancies_in_eq (h : Host) (st : State) (this_data : nat)
      (records : list row) :
  only_nan st ->
  nth_error (arrays st) this_data = Some (RowArray records) ->
  exists st',
    analyzeDiscrepancies_in h st this_data
    = Done (Normal (analyzeDiscrepancies h records)) st'
    /\ only_nan st' /\ nth_error (arrays st') this_data = Some (RowArray records).
Proof.
  intros H Hd.
  unfold analyzeDiscrepancies_in, alloc, update, discrepancies_at, discrepancy_line_in.
  cbn [arrays on_prototype on_member].
  rewrite (rows_at_data st this_data records Hd).
  rewrite !nth_error_snoc, replace_nth_snoc, !nth_error_snoc.
  unfold discrepancy_row_in.
  rewrite (budget_in_eq st H), (actual_in_eq st H).
  assert (Hc : category_in
                 {| arrays :=
                      (arrays st ++ [DiscrepancyArray (map discrepancy_row records)])
                      ++ [DiscrepancyArray
                            (sort by_variance
                               (filter (fun r => gt (abs (d_variance r)) 5%float)
                                       (map discrepancy_row records)))];
                    on_prototype := on_prototype st;
                    on_member := on_member st |} = category_of).
  { apply category_in_eq. exact H. }
  change (fun item => {| d_item := item;
                         d_variance := variance_of (budget_of item) (actual_of item);
                         d_discrepancy := (actual_of item - budget_of item)%float |})
    with discrepancy_row.
  rewrite Hc.
  change (filter (fun r => gt (abs (d_variance r)) 5%float) (map discrepancy_row records))
    with (discrepancies records).
  destruct (List.length (discrepancies records) =? 0)%nat eqn:El.
  - eexists. split; [unfold analyzeDiscrepancies; rewrite El; reflexivity|].
    split; [exact H|]. cbn [arrays]. now apply nth_error_kept, nth_error_kept.
  - eexists. split; [unfold analyzeDiscrepancies; rewrite El; reflexivity|].
    split; [exact H|]. cbn [arrays]. now apply nth_error_kept, nth_error_kept.
Qed.

Lemma analyzeGLEntries_in_eq (h : Host) (st : State) (this_data : nat)
      (records : list row) :
  only_nan st ->
  nth_error (arrays st) this_data = Some (RowArray records) ->
  exists st',
    analyzeGLEntries_in h st this_data = Done (analyzeGLEntries records) st'
    /\ only_nan st' /\ nth_error (arrays st') this_data = Some (RowArray records).
Proof.
  intros H Hd. unfold analyzeGLEntries_in, analyzeGLEntries.
  rewrite (rows_at_data st this_data records Hd).
  destruct (List.length (glFields records) =? 0)%nat; [now exists st|].
  destruct (glSummary_in_eq h st this_data records H Hd) as (st1 & E & H1 & A1).
  rewrite E. unfold alloc, update, entries_at. cbn [arrays on_prototype on_member].
  rewrite nth_error_snoc, replace_nth_snoc.
  eexists. split; [reflexivity|]. split; [exact H1|].
  cbn [arrays]. apply nth_error_kept. now rewrite A1.
Qed.

(** A call in a state gives what the function of the record set gives,
    and leaves a state of the same kind with the record set as it was. *)
Lemma analyzeQuery_in_eq (h : Host) (st : State) (this_data : nat)
      (records : list row) (now : Moment) (query : string) :
  only_nan st ->
  nth_error (arrays st) this_data = Some (RowArray records) ->
  exists st',
    analyzeQuery_in h st this_data now query = Done (analyzeQuery h records now query) st'
    /\ only_nan st' /\ nth_error (arrays st') this_data = Some (RowArray records).
Proof.
  intros H Hd. unfold analyzeQuery_in, analyzeQuery.
  destruct (classify query); cbn [run].
  - apply analyzeTrends_in_eq; assumption.
  - exists st. now rewrite (analyzeMissedBudgets_in_eq h st this_data records _ H Hd).
  - apply analyzeDiscrepancies_in_eq; assumption.
  - exists st. now rewrite (analyzeTotals_in_eq h st this_data records H Hd).
  - exists st. now rewrite (analyzeAverages_in_eq h st this_data records H Hd).
  - exists st. now rewrite (analyzePerformance_in_eq h st this_data records H Hd).
  - apply analyzeGLEntries_in_eq; assumption.
  - exists st. now rewrite (rows_at_data st this_data records Hd).
Qed.

(** C9, amended.  A first call may leave things behind: NaN under
    [budget], [actual], [count], [totalBudget] or [totalActual] on
    [Object.prototype] and numbers on its member functions, and new
    arrays, two of them sorted in place.  In a state where what has been
    left on [Object.prototype] is NaN, as it is before any call and after
    every call, a call on the record set ends with a result and leaves
    such a state again, with the record set as it was; and for a question
    that is not routed to the general-insight fallback, a second call in
    the state the first has left, in the same calendar year, ends as the
    first did: the same narrative, payload and chart tag, or the same
    error.  The result is the one the analysis gives as a function of the
    record set and the year. *)
Theorem analyzeQuery_repeatable (h : Host) (st : State) (this_data : nat)
        (records : list row) (now1 now2 : Moment) (query : string) :
  only_nan st ->
  nth_error (arrays st) this_data = Some (RowArray records) ->
  classify query <> GeneralInsight ->
  fullYear now1 = fullYear now2 ->
  exists (c : completion) (st1 st2 : State),
    analyzeQuery_in h st this_data now1 query = Done c st1
    /\ analyzeQuery_in h st1 this_data now2 query = Done c st2
    /\ c = analyzeQuery h records now1 query
    /\ nth_error (arrays st1) this_data = Some (RowArray records)
    /\ nth_error (arrays st2) this_data = Some (RowArray records)
    /\ only_nan st1 /\ only_nan st2.
Proof.
  intros H Hd Hk Hy.
  destruct (analyzeQuery_in_eq h st this_data records now1 query H Hd)
    as (st1 & E1 & H1 & Hd1).
  destruct (analyzeQuery_in_eq h st1 this_data records now2 query H1 Hd1)
    as (st2 & E2 & H2 & Hd2).
  exists (analyzeQuery h records now1 query), st1, st2.
  rewrite (analyzeQuery_same_year h records now1 now2 query Hk Hy) at 2.
  repeat split; assumption.
Qed.

(** C9 on rows that make the first call write: a year [__proto__], a row
    without a budget of its own and a year [budget], asked for the trend
    twice in 2026, starting from the state before any call. *)
Lemma analyzeQuery_repeatable_witness :
  only_nan (pristine Sample.prototype_year)
  /\ classify "yearly trend" <> GeneralInsight
  /\ exists (c : completion) (st1 st2 : State),
       analyzeQuery_in Sample.host (pristine Sample.prototype_year) 0
                       {| fullYear := 2026; random := 0.25%float |} "yearly trend"
       = Done c st1
       /\ analyzeQuery_in Sample.host st1 0
                          {| fullYear := 2026; random := 0.75%float |} "yearly trend"
          = Done c st2
       /\ c = analyzeQuery Sample.host Sample.prototype_year
                           {| fullYear := 2026; random := 0.25%float |} "yearly trend"
       /\ nth_error (arrays st1) 0 = Some (RowArray Sample.prototype_year)
       /\ nth_error (arrays st2) 0 = Some (RowArray Sample.prototype_year)
       /\ only_nan st1 /\ only_nan st2.
Proof.
  assert (classify "yearly trend" <> GeneralInsight) as Hk by discriminate.
  split; [exact (pristine_only_nan Sample.prototype_year)|].
  split; [exact Hk|].
  exact (analyzeQuery_repeatable Sample.host (pristine Sample.prototype_year) 0
           Sample.prototype_year
           {| fullYear := 2026; random := 0.25%float |}
           {| fullYear := 2026; random := 0.75%float |} "yearly trend"
           (pristine_only_nan Sample.prototype_year) eq_refl Hk eq_refl).
Defined.

(** The two calls on those rows, run.  The first leaves NaN under
    [budget] and [actual] on [Object.prototype]; the second, run in that
    state, gives the narrative the first gave. *)
Lemma trends_twice :
  exists (r : BudgetAnalysisResult) (st1 st2 : State),
    analyzeTrends_in Sample.host (pristine Sample.prototype_year) 0 2026 = Done (Normal r) st1
    /\ on_prototype (pristine Sample.prototype_year) Budget = None
    /\ on_prototype st1 Budget = Some nan
    /\ on_prototype st1 Actual = Some nan
    /\ analyzeTrends_in Sample.host st1 0 2026 = Done (Normal r) st2
    /\ insight r
       = "**Budget Trend Analysis (2021 - budget)**" ++ nl ++ nl
         ++ declining_trend
         ++ "**Year-by-Year Performance:**" ++ nl
         ++ "• 2021: 0.0% variance ✅" ++ nl
         ++ "• 2022: +20.0% variance ❌" ++ nl
         ++ "• budget: -10.0% variance ⚠️" ++ nl.
Proof.
  exists (analyzeTrends Sample.host Sample.prototype_year 2026).
  exists (add_assign (add_assign (pristine Sample.prototype_year) "__proto__" Budget 100%float)
                     "__proto__" Actual 150%float).
  exists (add_assign
            (add_assign
               (add_assign
                  (add_assign (pristine Sample.prototype_year) "__proto__" Budget 100%float)
                  "__proto__" Actual 150%float)
               "__proto__" Budget 100%float)
            "__proto__" Actual 150%float).
  vm_compute. repeat split.
Qed.

(** The state is read: were a truthy number under [budget] on
    [Object.prototype], a row without a budget of its own would read it,
    and the year [budget] would end the trend analysis in a TypeError. *)
Lemma state_is_read :
  let st := {| arrays := [RowArray Sample.prototype_year];
               on_prototype := fun _ => Some 5%float;
               on_member := fun _ _ => None |} in
  budget_of [("Actual", Num 120%float)] = 0%float
  /\ budget_in st [("Actual", Num 120%float)] = 5%float
  /\ analyzeTrends_in Sample.host st 0 2026 = TypeError
  /\ data_of (analyzeTotals_in Sample.host st 0)
     = Some (TotalsData 305%float 480%float 57.377049180327866%float)
  /\ data (analyzeTotals Sample.host Sample.prototype_year)
     = Some (TotalsData 300%float 480%float 60%float).
Proof. vm_compute. repeat split. Qed.

(** The arrays a call makes stay in the state.  The variance analysis
    maps the record set into a new array, filters that into another and
    sorts the last in place; the record set is as it was. *)
Lemma sort_in_place_is_local :
  exists (c : completion) (st1 : State),
    analyzeDiscrepancies_in Sample.host (pristine Sample.three_variances) 0 = Done c st1
    /\ map d_variance (discrepancies_at st1 1) = [10%float; 2%float; 50%float]
    /\ map d_variance (discrepancies_at st1 2) = [50%float; 10%float]
    /\ data_of (Done c st1) = Some (DiscrepancyData (discrepancies_at st1 2))
    /\ rows_at st1 0 = Sample.three_variances.
Proof.
  exists (Normal (analyzeDiscrepancies Sample.host Sample.three_variances)).
  exists {| arrays :=
              [ RowArray Sample.three_variances;
                DiscrepancyArray (map discrepancy_row Sample.three_variances);
                DiscrepancyArray (sorted_discrepancies Sample.three_variances) ];
            on_prototype := fun _ => None;
            on_member := fun _ _ => None |}.
  vm_compute. repeat split.
Qed.

End Calls.

(** C9, as stated, fails: a row without a year is filed under the current
    year, so the missed-budget narrative of an unmodified record set differs
    between a call in 2025 and a call in 2026; the first call leaves the
    state as it found it. *)
Lemma missed_budgets_across_new_year :
  classify "missed" = MissedBudgets
  /\ narrative (analyzeQuery Sample.host [[("Budget", Num 100%float); ("Actual", Num 200%float)]]
                             {| fullYear := 2025; random := 0%float |} "missed")
     = Some ("**Budget Performance Analysis**" ++ nl ++ nl
             ++ "📊 **Budget Overruns**: 1 out of 1 entries (100.0%) exceeded budget by more than 5%." ++ nl ++ nl
             ++ "⚠️ **High Risk**: More than 30% of your budget entries are over budget. Consider reviewing your budgeting process." ++ nl ++ nl
             ++ "**Missed Budgets by Year:**" ++ nl
             ++ "• 2025: 1 budget overruns" ++ nl)
  /\ narrative (analyzeQuery Sample.host [[("Budget", Num 100%float); ("Actual", Num 200%float)]]
                             {| fullYear := 2026; random := 0%float |} "missed")
     = Some ("**Budget Performance Analysis**" ++ nl ++ nl
             ++ "📊 **Budget Overruns**: 1 out of 1 entries (100.0%) exceeded budget by more than 5%." ++ nl ++ nl
             ++ "⚠️ **High Risk**: More than 30% of your budget entries are over budget. Consider reviewing your budgeting process." ++ nl ++ nl
             ++ "**Missed Budgets by Year:**" ++ nl
             ++ "• 2026: 1 budget overruns" ++ nl)
  /\ Stateful.analyzeQuery_in Sample.host
       (Stateful.pristine [[("Budget", Num 100%float); ("Actual", Num 200%float)]]) 0
       {| fullYear := 2025; random := 0%float |} "missed"
     = Stateful.Done
         (analyzeQuery Sample.host [[("Budget", Num 100%float); ("Actual", Num 200%float)]]
                       {| fullYear := 2025; random := 0%float |} "missed")
         (Stateful.pristine [[("Budget", Num 100%float); ("Actual", Num 200%float)]])
  /\ Stateful.analyzeQuery_in Sample.host
       (Stateful.pristine [[("Budget", Num 100%float); ("Actual", Num 200%float)]]) 0
       {| fullYear := 2026; random := 0%float |} "missed"
     = Stateful.Done
         (analyzeQuery Sample.host [[("Budget", Num 100%float); ("Actual", Num 200%float)]]
                       {| fullYear := 2026; random := 0%float |} "missed")
         (Stateful.pristine [[("Budget", Num 100%float); ("Actual", Num 200%float)]]).
Proof. vm_compute. repeat split. Qed.

(** The fallback does vary with the draw. *)
Lemma general_insight_varies :
  narrative (analyzeQuery Sample.host Sample.two_years
                          {| fullYear := 2026; random := 0.25%float |} "hello")
  = Some (help_message)
  /\ narrative (analyzeQuery Sample.host Sample.two_years
                             {| fullYear := 2026; random := 0.75%float |} "hello")
     = Some (data_overview Sample.two_years).
Proof. vm_compute. repeat split. Qed.

(** * Further properties *)


(** ** NaN in double arithmetic *)

Lemma add_nan_r (x : float) : (x + nan)%float = nan.
Proof.
  apply Prim2SF_nan. rewrite add_spec. change (Prim2SF nan) with S754_nan.
  destruct (Prim2SF x) as [s| s| |s m e]; try destruct s; reflexivity.
Qed.

Lemma sub_nan_l (x : float) : (nan - x)%float = nan.
Proof. apply Prim2SF_nan. rewrite sub_spec. reflexivity. Qed.

Lemma sub_nan_r (x : float) : (x - nan)%float = nan.
Proof.
  apply Prim2SF_nan. rewrite sub_spec. change (Prim2SF nan) with S754_nan.
  destruct (Prim2SF x) as [s| s| |s m e]; try destruct s; reflexivity.
Qed.

Lemma mul_nan_l (x : float) : (nan * x)%float = nan.
Proof. apply Prim2SF_nan. rewrite mul_spec. reflexivity. Qed.

Lemma div_nan_l (x : float) : (nan / x)%float = nan.
Proof. apply Prim2SF_nan. rewrite div_spec. reflexivity. Qed.

Lemma ltb_nan_l (x : float) : (nan <? x)%float = false.
Proof. rewrite FloatAxioms.ltb_spec. reflexivity. Qed.

Lemma ltb_nan_r (x : float) : (x <? nan)%float = false.
Proof.
  rewrite FloatAxioms.ltb_spec. change (Prim2SF nan) with S754_nan.
  destruct (Prim2SF x) as [s| s| |s m e]; try destruct s; reflexivity.
Qed.

Lemma fold_add_nan_init {A} (f : A -> number) (l : list A) :
  fold_left (fun s a => (s + f a)%float) l nan = nan.
Proof. induction l as [|x l IH]; simpl; [reflexivity | rewrite add_nan_l; exact IH]. Qed.

(** A sum with a NaN among its terms is NaN. *)
Lemma fold_add_nan {A} (f : A -> number) (l : list A) (x : A) (init : number) :
  In x l -> f x = nan -> fold_left (fun s a => (s + f a)%float) l init = nan.
Proof.
  revert init. induction l as [|y l IH]; intros init Hin Hf.
  - destruct Hin.
  - simpl. destruct Hin as [->|Hin].
    + rewrite Hf, add_nan_r. apply fold_add_nan_init.
    + apply IH; assumption.
Qed.

Lemma sum_of_nan (f : row -> number) (l : list row) (item : row) :
  In item l -> f item = nan -> sum_of f l = nan.
Proof. apply fold_add_nan. Qed.

Lemma sum_of_snoc (f : row -> number) (l : list row) (item : row) :
  sum_of f (l ++ [item]) = (sum_of f l + f item)%float.
Proof. unfold sum_of. rewrite fold_left_app. reflexivity. Qed.

(** ** More on lists and objects *)

Lemma filter_none {A} (p : A -> bool) (l : list A) :
  (forall x, In x l -> p x = false) -> filter p l = [].
Proof.
  induction l as [|x l IH]; intros H; simpl; [reflexivity|].
  rewrite (H x (or_introl eq_refl)). apply IH. intros y Hy. apply H. right. exact Hy.
Qed.

Lemma In_firstn {A} (n : nat) (l : list A) (x : A) : In x (firstn n l) -> In x l.
Proof.
  intros H. rewrite <- (firstn_skipn n l). apply in_or_app. left. exact H.
Qed.

Lemma count_app {A} (p : A -> bool) (l1 l2 : list A) :
  Spec.count p (l1 ++ l2) = Spec.count p l1 + Spec.count p l2.
Proof. induction l1 as [|x l1 IH]; simpl; [reflexivity | rewrite IH; lia]. Qed.

Lemma count_map {A B} (f : A -> B) (p : B -> bool) (l : list A) :
  Spec.count p (map f l) = Spec.count (fun x => p (f x)) l.
Proof. induction l as [|x l IH]; simpl; [reflexivity | now rewrite IH]. Qed.

Lemma fold_left_ext_eq {A B} (f g : A -> B -> A) (l : list B) (init : A) :
  (forall a x, f a x = g a x) -> fold_left f l init = fold_left g l init.
Proof.
  intros H. revert init. induction l as [|x l IH]; intros init; simpl;
    [reflexivity | rewrite H; apply IH].
Qed.

Lemma combine_map_r {A B} (f : A -> B) (l : list A) :
  combine l (map f l) = map (fun x => (x, f x)) l.
Proof. induction l as [|x l IH]; simpl; [reflexivity | now rewrite IH]. Qed.

Lemma own_replace {A} (o : object A) (k : string) (v : A) (k' : string) :
  own o k <> None ->
  own (replace o k v) k' = if String.eqb k' k then Some v else own o k'.
Proof.
  unfold own. induction o as [|[k0 v0] r IH]; simpl; intros H.
  - congruence.
  - destruct (String.eqb k0 k) eqn:E0; simpl.
    + apply String.eqb_eq in E0. subst k0.
      destruct (String.eqb k' k) eqn:E1.
      * apply String.eqb_eq in E1. subst k'. rewrite String.eqb_refl. reflexivity.
      * rewrite String.eqb_sym, E1. reflexivity.
    + destruct (String.eqb k0 k') eqn:E1.
      * apply String.eqb_eq in E1. subst k'. rewrite E0. reflexivity.
      * apply IH. exact H.
Qed.

Lemma own_add_new {A} (o : object A) (k : string) (v : A) (k' : string) :
  own o k = None ->
  own (add_new o k v) k' = if String.eqb k' k then Some v else own o k'.
Proof.
  unfold own. induction o as [|[k0 v0] r IH]; simpl; intros H.
  - rewrite (String.eqb_sym k k'). destruct (String.eqb k' k); reflexivity.
  - destruct (String.eqb k0 k) eqn:E0; [discriminate|].
    assert (Hhead : forall rest : object A,
               match find (fun kv => String.eqb (fst kv) k') ((k, v) :: (k0, v0) :: rest) with
               | Some kv => Some (snd kv) | None => None end
               = if String.eqb k' k then Some v
                 else match find (fun kv => String.eqb (fst kv) k') ((k0, v0) :: rest) with
                      | Some kv => Some (snd kv) | None => None end).
    { intros rest. simpl. rewrite (String.eqb_sym k k').
      destruct (String.eqb k' k); reflexivity. }
    assert (Htail :
               match find (fun kv => String.eqb (fst kv) k') ((k0, v0) :: add_new r k v) with
               | Some kv => Some (snd kv) | None => None end
               = if String.eqb k' k then Some v
                 else match find (fun kv => String.eqb (fst kv) k') ((k0, v0) :: r) with
                      | Some kv => Some (snd kv) | None => None end).
    { simpl. destruct (String.eqb k0 k') eqn:E1.
      - apply String.eqb_eq in E1. subst k'. rewrite E0. reflexivity.
      - apply IH. exact H. }
    destruct (index_of_key k) as [n|]; [destruct (index_of_key k0) as [n'|]|].
    + destruct (n <? n')%Z; [apply Hhead | exact Htail].
    + apply Hhead.
    + exact Htail.
Qed.

(** Reading a property after an assignment. *)
Lemma own_set {A} (o : object A) (k : string) (v : A) (k' : string) :
  own (set o k v) k' = if String.eqb k' k then Some v else own o k'.
Proof.
  unfold set. destruct (own o k) eqn:E.
  - apply own_replace. congruence.
  - apply own_add_new. exact E.
Qed.

Lemma get_values (o : object value) :
  NoDup (keys o) -> map (get o) (keys o) = values o.
Proof.
  induction o as [|[k v] r IH]; intros Hnd; simpl; [reflexivity|].
  inversion Hnd as [|? ? Hnotin Hnd']; subst.
  unfold get at 1, own. simpl. rewrite String.eqb_refl. simpl. f_equal.
  rewrite <- (IH Hnd'). apply map_ext_in. intros k' Hk'.
  unfold get, own. simpl.
  destruct (String.eqb k k') eqn:E; [|reflexivity].
  apply String.eqb_eq in E. subst k'. contradiction.
Qed.

Lemma own_map_values {A B} (f : A -> B) (o : object A) (k : string) :
  own (map_values f o) k = option_map f (own o k).
Proof.
  unfold own, map_values. induction o as [|[k0 v0] r IH]; simpl; [reflexivity|].
  destruct (String.eqb k0 k); [reflexivity | exact IH].
Qed.

Lemma keys_map_values {A B} (f : A -> B) (o : object A) :
  keys (map_values f o) = keys o.
Proof. unfold keys, map_values. rewrite map_map. reflexivity. Qed.

Lemma map_values_replace {A B} (f : A -> B) (o : object A) (k : string) (v : A) :
  map_values f (replace o k v) = replace (map_values f o) k (f v).
Proof.
  induction o as [|[k0 v0] r IH]; simpl; [reflexivity|].
  destruct (String.eqb k0 k); simpl; [reflexivity | now rewrite IH].
Qed.

Lemma map_values_add_new {A B} (f : A -> B) (o : object A) (k : string) (v : A) :
  map_values f (add_new o k v) = add_new (map_values f o) k (f v).
Proof.
  induction o as [|[k0 v0] r IH]; simpl; [reflexivity|].
  destruct (index_of_key k) as [n|]; [destruct (index_of_key k0) as [n'|]|].
  - destruct (n <? n')%Z; simpl; [reflexivity | now rewrite IH].
  - reflexivity.
  - simpl. now rewrite IH.
Qed.

Lemma map_values_set {A B} (f : A -> B) (o : object A) (k : string) (v : A) :
  map_values f (set o k v) = set (map_values f o) k (f v).
Proof.
  unfold set. rewrite own_map_values.
  destruct (own o k); simpl; [apply map_values_replace | apply map_values_add_new].
Qed.

Lemma list_sum_values_replace (o : object nat) (k : string) (v c : nat) :
  own o k = Some c ->
  list_sum (values (replace o k v)) + c = list_sum (values o) + v.
Proof.
  unfold own. induction o as [|[k0 v0] r IH]; simpl; intros H; [discriminate|].
  destruct (String.eqb k0 k) eqn:E; simpl.
  - injection H as ->. lia.
  - specialize (IH H). unfold values in *. lia.
Qed.

Lemma list_sum_values_add_new (o : object nat) (k : string) (v : nat) :
  list_sum (values (add_new o k v)) = list_sum (values o) + v.
Proof.
  induction o as [|[k0 v0] r IH]; simpl; [lia|].
  unfold values in *.
  destruct (index_of_key k) as [n|]; [destruct (index_of_key k0) as [n'|]|].
  - destruct (n <? n')%Z; simpl; lia.
  - simpl; lia.
  - simpl; lia.
Qed.

(** ** Grouping by year *)

Lemma filed_under_snoc (h : Host) (currentYear : N) (y : string) (l : list row) (item : row) :
  filed_under h currentYear y (l ++ [item])
  = (filed_under h currentYear y l
     ++ (if String.eqb (year_of h currentYear item) y then [item] else []))%list.
Proof. unfold filed_under. rewrite filter_app. reflexivity. Qed.

Lemma year_sums_snoc (rows : list row) (item : row) :
  year_sums (rows ++ [item])
  = Some {| ys_budget := (sum_of budget_of rows + budget_of item)%float;
            ys_actual := (sum_of actual_of rows + actual_of item)%float |}.
Proof.
  unfold year_sums. rewrite !sum_of_snoc. destruct rows; reflexivity.
Qed.

Lemma year_sums_some (rows : list row) (s : YearSums) :
  year_sums rows = Some s ->
  s = {| ys_budget := sum_of budget_of rows; ys_actual := sum_of actual_of rows |}.
Proof. destruct rows; simpl; congruence. Qed.

Lemma year_sums_none (rows : list row) : year_sums rows = None -> rows = [].
Proof. destruct rows; simpl; congruence. Qed.

(** What [groupByYear] holds for a year. *)
Lemma groupByYear_own (h : Host) (this_data : list row) (currentYear : N) (y : string) :
  own (groupByYear h this_data currentYear) y
  = if inherited y then None else year_sums (filed_under h currentYear y this_data).
Proof.
  unfold groupByYear. revert y.
  induction this_data as [|item l IH] using rev_ind; intros y.
  - simpl. destruct (inherited y); reflexivity.
  - rewrite fold_left_app. simpl. unfold groupByYear_step at 1.
    set (acc := fold_left (groupByYear_step h currentYear) l []) in *.
    set (yr := year_of h currentYear item).
    rewrite filed_under_snoc. fold yr.
    destruct (own acc yr) as [s|] eqn:Eown.
    + rewrite own_set. rewrite (String.eqb_sym y yr).
      pose proof (IH yr) as Hyr. rewrite Eown in Hyr.
      destruct (inherited yr) eqn:Ei; [discriminate|].
      symmetry in Hyr. apply year_sums_some in Hyr.
      destruct (String.eqb yr y) eqn:E.
      * apply String.eqb_eq in E. subst y. rewrite Ei.
        rewrite year_sums_snoc. rewrite Hyr. reflexivity.
      * rewrite app_nil_r. apply IH.
    + destruct (inherited yr) eqn:Ei.
      * destruct (String.eqb yr y) eqn:E.
        -- apply String.eqb_eq in E. subst y. rewrite Ei. exact Eown.
        -- rewrite app_nil_r. apply IH.
      * rewrite own_set. rewrite (String.eqb_sym y yr).
        pose proof (IH yr) as Hyr. rewrite Eown, Ei in Hyr.
        symmetry in Hyr. apply year_sums_none in Hyr.
        destruct (String.eqb yr y) eqn:E.
        -- apply String.eqb_eq in E. subst y. rewrite Ei.
           rewrite Hyr. reflexivity.
        -- rewrite app_nil_r. apply IH.
Qed.

(** X1.  [groupByYear] holds, for every year that is not the name of a
    member of [Object.prototype] and under which at least one row is filed,
    the sum of the parsed budgets and the sum of the parsed actuals of the
    rows filed under that year, each added up from 0 in the order of the
    record set; it holds nothing for any other key.  In particular every
    row whose year is not such a name is accounted for under its year. *)
Theorem groupByYear_sums (h : Host) (this_data : list row) (currentYear : N) :
  let filed year := filed_under h currentYear year this_data in
  (forall year,
      own (groupByYear h this_data currentYear) year
      = if inherited year then None
        else match filed year with
             | [] => None
             | rows => Some {| ys_budget := sum_of budget_of rows;
                               ys_actual := sum_of actual_of rows |}
             end)
  /\ (forall item, In item this_data -> inherited (year_of h currentYear item) = false ->
        own (groupByYear h this_data currentYear) (year_of h currentYear item)
        = Some {| ys_budget := sum_of budget_of (filed (year_of h currentYear item));
                  ys_actual := sum_of actual_of (filed (year_of h currentYear item)) |}).
Proof.
  cbv zeta. split.
  - intros year. rewrite groupByYear_own. unfold year_sums.
    destruct (filed_under h currentYear year this_data); reflexivity.
  - intros item Hin Hi. rewrite groupByYear_own, Hi. unfold year_sums.
    destruct (filed_under h currentYear (year_of h currentYear item) this_data) eqn:E;
      [|reflexivity].
    assert (Hf : In item (filed_under h currentYear (year_of h currentYear item) this_data)).
    { unfold filed_under. apply filter_In. split; [exact Hin | apply String.eqb_refl]. }
    rewrite E in Hf. destruct Hf.
Qed.

(** X1 at the ledger rows, which carry no year and are filed under 2026:
    budgets 100, 100 and 50, actuals 120, 90 and 50. *)
Lemma groupByYear_sums_witness :
  own (groupByYear Sample.host Sample.ledger_rows 2026) "2026"
  = Some {| ys_budget := 250%float; ys_actual := 260%float |}.
Proof.
  destruct (groupByYear_sums Sample.host Sample.ledger_rows 2026) as [_ H].
  exact (H [("GL_Account", Str "4000"); ("Budget", Num 100%float); ("Actual", Num 120%float)]
           (or_introl eq_refl) eq_refl).
Defined.

(** X2.  Every point of the series of the trend analysis stands for a year
    under which at least one row is filed; its budget and its actual are
    the sums over the rows of that year, and its variance is
    [(actual - budget) / budget * 100] of these sums when the budget sum is
    greater than 0 and 0 otherwise.  The analysis returns either no payload
    or this series with at least two points. *)
Theorem trend_series_sums (h : Host) (this_data : list row) (currentYear : N) :
  let series := trendAnalysis h this_data currentYear in
  (forall p, In p series ->
     let rows := filed_under h currentYear (tp_year p) this_data in
     rows <> []
     /\ inherited (tp_year p) = false
     /\ tp_budget p = sum_of budget_of rows
     /\ tp_actual p = sum_of actual_of rows
     /\ tp_variance p
        = if (0 <? tp_budget p)%float
          then ((tp_actual p - tp_budget p) / tp_budget p * 100)%float
          else 0%float)
  /\ (data (analyzeTrends h this_data currentYear) = None
      \/ (data (analyzeTrends h this_data currentYear) = Some (TrendData series)
          /\ 2 <= List.length series)).
Proof.
  cbv zeta. split.
  - intros p Hp. unfold trendAnalysis in Hp. apply in_map_iff in Hp.
    destruct Hp as [y [<- Hy]]. unfold years in Hy.
    apply (Permutation_in _ (sort_strings_perm _)) in Hy.
    unfold trend_point. cbn [tp_year tp_budget tp_actual tp_variance].
    pose proof (groupByYear_own h this_data currentYear y) as Hown.
    destruct (own (groupByYear h this_data currentYear) y) as [s|] eqn:E.
    + destruct (inherited y); [discriminate|].
      symmetry in Hown. pose proof (year_sums_some _ _ Hown) as Hs.
      split; [intros Hnil; rewrite Hnil in Hown; discriminate|].
      split; [reflexivity|]. rewrite Hs. cbn [ys_budget ys_actual].
      repeat split.
    + apply own_None in E. contradiction.
  - unfold analyzeTrends.
    destruct (List.length (years h this_data currentYear) <? 2)%nat eqn:E; [left; reflexivity|].
    right. split; [reflexivity|]. apply Nat.ltb_ge in E.
    unfold trendAnalysis. rewrite length_map. exact E.
Qed.

(** X2 at the point for 2021 of the two-year record set. *)
Lemma trend_series_sums_witness :
  In {| tp_year := "2021"; tp_variance := 20%float; tp_budget := 100%float;
        tp_actual := 120%float |}
     (trendAnalysis Sample.host Sample.two_years 2026)
  /\ 100%float = sum_of budget_of (filed_under Sample.host 2026 "2021" Sample.two_years).
Proof.
  assert (H : In {| tp_year := "2021"; tp_variance := 20%float; tp_budget := 100%float;
                    tp_actual := 120%float |}
                 (trendAnalysis Sample.host Sample.two_years 2026))
    by (vm_compute; left; reflexivity).
  split; [exact H|].
  exact (proj1 (proj2 (proj2 (proj1 (trend_series_sums Sample.host Sample.two_years 2026) _ H)))).
Defined.

Lemma groupMissesByYear_keys (h : Host) (currentYear : N) (l : list row) :
  NoDup (keys (groupMissesByYear h currentYear l))
  /\ forall y, In y (keys (groupMissesByYear h currentYear l))
               <-> In y (map (year_of h currentYear) l) /\ y <> "__proto__".
Proof.
  unfold groupMissesByYear.
  induction l as [|item l IH] using rev_ind.
  - simpl. split; [constructor | intro y; tauto].
  - rewrite fold_left_app, map_app. simpl.
    set (acc := fold_left (groupMissesByYear_step h currentYear) l []) in *.
    destruct IH as [Hnd Hin].
    unfold groupMissesByYear_step.
    set (year := year_of h currentYear item).
    assert (forall y, In y (map (year_of h currentYear) l ++ [year])%list
                      <-> In y (map (year_of h currentYear) l) \/ y = year) as Happ
      by (intro y; rewrite in_app_iff; simpl; intuition).
    assert (Hset : forall v, year <> "__proto__" ->
               NoDup (keys (set acc year v))
               /\ forall y, In y (keys (set acc year v))
                            <-> In y (map (year_of h currentYear) l ++ [year])%list
                                /\ y <> "__proto__").
    { intros v Hne. destruct (keys_set acc year v Hnd) as [Hnd' Hin'].
      split; [exact Hnd'|]. intro y. rewrite Hin', Happ, Hin.
      split; [intros [->|H]; tauto | tauto]. }
    destruct (own acc year) as [v|] eqn:E.
    + apply Hset. apply own_Some in E. apply Hin in E. tauto.
    + destruct (String.eqb year "__proto__") eqn:Ep.
      * apply String.eqb_eq in Ep. split; [exact Hnd|]. intro y. rewrite Happ, Hin.
        split; [tauto | intros [[H| ->] Hy]; [tauto | congruence]].
      * apply String.eqb_neq in Ep. destruct (inherited year); apply Hset; exact Ep.
Qed.

(** X3.  The breakdown by year of the missed-budget analysis has one entry
    for each year under which a missed row is filed, and no other entry: a
    year is listed exactly when some row of the record set is missed and
    is filed under it, except that the year [__proto__] is never listed;
    no year is listed twice, and there are at most as many entries as
    missed rows.  When at least one row is missed the narrative ends with
    one line per entry, in the order of the entries. *)
Theorem missed_years_breakdown (h : Host) (this_data : list row) (currentYear : N) :
  let yearly := groupMissesByYear h currentYear (missedBudgets this_data) in
  NoDup (keys yearly)
  /\ (forall y, In y (keys yearly)
                <-> (exists item, In item this_data /\ missed item = true
                                  /\ year_of h currentYear item = y)
                    /\ y <> "__proto__")
  /\ List.length yearly <= missedCount this_data
  /\ (missedCount this_data <> 0 ->
      insight (analyzeMissedBudgets h this_data currentYear)
      = "**Budget Performance Analysis**" ++ nl ++ nl
        ++ overruns_summary h this_data ++ risk_note this_data
        ++ "**Missed Budgets by Year:**" ++ nl
        ++ String.concat "" (map (miss_line h) yearly)).
Proof.
  cbv zeta.
  destruct (groupMissesByYear_keys h currentYear (missedBudgets this_data)) as [Hnd Hin].
  split; [exact Hnd|]. split; [|split].
  - intros y. rewrite Hin. unfold missedBudgets. rewrite in_map_iff.
    split.
    + intros [[item [Hy Hitem]] Hne]. apply filter_In in Hitem.
      split; [exists item; tauto | exact Hne].
    + intros [[item [H1 [H2 H3]]] Hne]. split; [|exact Hne].
      exists item. split; [exact H3|]. apply filter_In. tauto.
  - unfold missedCount.
    rewrite <- (length_map (year_of h currentYear) (missedBudgets this_data)).
    replace (List.length (groupMissesByYear h currentYear (missedBudgets this_data)))
      with (List.length (keys (groupMissesByYear h currentYear (missedBudgets this_data))))
      by apply length_map.
    apply NoDup_incl_length; [exact Hnd|]. intros y Hy. apply Hin in Hy. tauto.
  - intros Hne. unfold analyzeMissedBudgets. cbn [insight].
    apply Nat.eqb_neq in Hne. rewrite Hne.
    rewrite fold_left_append. rewrite !append_assoc. reflexivity.
Qed.

(** X3 at two rows without a year, one of them missed, asked in 2026. *)
Lemma missed_years_breakdown_witness :
  missedCount [Sample.at_threshold; Sample.past_threshold] <> 0
  /\ insight (analyzeMissedBudgets Sample.host [Sample.at_threshold; Sample.past_threshold] 2026)
     = "**Budget Performance Analysis**" ++ nl ++ nl
       ++ overruns_summary Sample.host [Sample.at_threshold; Sample.past_threshold]
       ++ risk_note [Sample.at_threshold; Sample.past_threshold]
       ++ "**Missed Budgets by Year:**" ++ nl
       ++ "• 2026: 1 budget overruns" ++ nl.
Proof.
  assert (H : missedCount [Sample.at_threshold; Sample.past_threshold] <> 0)
    by (vm_compute; discriminate).
  split; [exact H|].
  exact (proj2 (proj2 (proj2 (missed_years_breakdown Sample.host
           [Sample.at_threshold; Sample.past_threshold] 2026))) H).
Defined.

(** ** Totals and averages *)

Lemma fold_pair_sums (l : list row) (a b : number) :
  fold_left (fun acc item =>
               ((fst acc + budget_of item)%float, (snd acc + actual_of item)%float)) l (a, b)
  = (fold_left (fun s item => (s + budget_of item)%float) l a,
     fold_left (fun s item => (s + actual_of item)%float) l b).
Proof. revert a b. induction l as [|item l IH]; intros a b; simpl; [reflexivity | apply IH]. Qed.

Lemma totals_sum_of (this_data : list row) :
  totalBudget this_data = sum_of budget_of this_data
  /\ totalActual this_data = sum_of actual_of this_data.
Proof.
  unfold totalBudget, totalActual, totals. rewrite fold_pair_sums. split; reflexivity.
Qed.

Lemma totals_result (h : Host) (this_data : list row) (tb ta : number) :
  totalBudget this_data = tb -> totalActual this_data = ta ->
  analyzeTotals h this_data =
  {| insight :=
       "**Total Budget Analysis**" ++ nl ++ nl
       ++ "💰 **Total Budgeted**: $" ++ toLocaleString h tb ++ nl
       ++ "💸 **Total Actual**: $" ++ toLocaleString h ta ++ nl
       ++ "📊 **Overall Variance**: " ++ signed_fixed1 h (variance_of tb ta) ++ "%" ++ nl ++ nl
       ++ totals_label (variance_of tb ta);
     data := Some (TotalsData tb ta (variance_of tb ta));
     chartType := None |}.
Proof. intros <- <-. reflexivity. Qed.

(** X4.  The totals analysis reports, as total budget and total actual, the
    sums of the parsed budgets and of the parsed actuals of all rows, added
    up from 0 in the order of the record set: both are 0 on the empty set,
    and a row appended to the record set adds its parsed budget and actual
    to the totals.  The payload carries these two sums and the variance
    [(actual - budget) / budget * 100] of the sums, or 0 when the budget
    sum is not greater than 0. *)
Theorem totals_are_sums (h : Host) (this_data : list row) (item : row) :
  let budget := sum_of budget_of this_data in
  let actual := sum_of actual_of this_data in
  totalBudget this_data = budget
  /\ totalActual this_data = actual
  /\ totalBudget [] = 0%float
  /\ totalActual [] = 0%float
  /\ totalBudget (this_data ++ [item]) = (totalBudget this_data + budget_of item)%float
  /\ totalActual (this_data ++ [item]) = (totalActual this_data + actual_of item)%float
  /\ data (analyzeTotals h this_data)
     = Some (TotalsData budget actual
                        (if (0 <? budget)%float then ((actual - budget) / budget * 100)%float
                         else 0%float)).
Proof.
  destruct (totals_sum_of this_data) as [Hb Ha].
  destruct (totals_sum_of (this_data ++ [item])) as [Hb' Ha']. cbv zeta.
  split; [exact Hb|]. split; [exact Ha|].
  split; [reflexivity|]. split; [reflexivity|].
  split; [rewrite Hb', Hb; apply sum_of_snoc|].
  split; [rewrite Ha', Ha; apply sum_of_snoc|].
  rewrite (totals_result h this_data _ _ Hb Ha). reflexivity.
Qed.

(** X5.  Whenever the total budget is not greater than 0 (the empty record
    set, a sheet without budget column, budgets that sum to 0 or less, a
    total that is NaN), the totals analysis reports a variance of 0,
    printed [0.0%], and closes with the excellent-control sentence,
    whatever the total actual is. *)
Theorem totals_without_positive_budget (h : Host) (this_data : list row) :
  gt (totalBudget this_data) 0%float = false ->
  analyzeTotals h this_data =
  {| insight :=
       "**Total Budget Analysis**" ++ nl ++ nl
       ++ "💰 **Total Budgeted**: $" ++ toLocaleString h (totalBudget this_data) ++ nl
       ++ "💸 **Total Actual**: $" ++ toLocaleString h (totalActual this_data) ++ nl
       ++ "📊 **Overall Variance**: 0.0%" ++ nl ++ nl
       ++ excellent_control;
     data := Some (TotalsData (totalBudget this_data) (totalActual this_data) 0%float);
     chartType := None |}.
Proof.
  intros H. rewrite (totals_result h this_data _ _ eq_refl eq_refl).
  unfold variance_of. rewrite H. reflexivity.
Qed.

(** X5 at a row that has an actual of 50 and no budget. *)
Lemma totals_without_positive_budget_witness :
  gt (totalBudget [[("Year", Num 2024%float); ("Actual", Num 50%float)]]) 0%float = false
  /\ analyzeTotals Sample.host [[("Year", Num 2024%float); ("Actual", Num 50%float)]] =
  {| insight :=
       "**Total Budget Analysis**" ++ nl ++ nl
       ++ "💰 **Total Budgeted**: $0" ++ nl
       ++ "💸 **Total Actual**: $50" ++ nl
       ++ "📊 **Overall Variance**: 0.0%" ++ nl ++ nl
       ++ excellent_control;
     data := Some (TotalsData 0%float 50%float 0%float);
     chartType := None |}.
Proof.
  split; [reflexivity|].
  exact (totals_without_positive_budget Sample.host
           [[("Year", Num 2024%float); ("Actual", Num 50%float)]] eq_refl).
Defined.

(** X6.  One cell that parses to NaN decides the totals analysis.  If the
    budget of some row parses to NaN, the total budget is NaN, the variance
    is 0 and the narrative closes with the excellent-control sentence.  If
    the actual of some row parses to NaN while the total budget is greater
    than 0, the total actual and the variance are NaN, the variance prints
    as [NaN%], and the narrative closes with the under-budget sentence. *)
Theorem totals_unparsable_cell (h : Host) (this_data : list row) (item : row) :
  In item this_data ->
  (budget_of item = nan ->
   analyzeTotals h this_data =
   {| insight :=
        "**Total Budget Analysis**" ++ nl ++ nl
        ++ "💰 **Total Budgeted**: $" ++ toLocaleString h nan ++ nl
        ++ "💸 **Total Actual**: $" ++ toLocaleString h (totalActual this_data) ++ nl
        ++ "📊 **Overall Variance**: 0.0%" ++ nl ++ nl
        ++ excellent_control;
      data := Some (TotalsData nan (totalActual this_data) 0%float);
      chartType := None |})
  /\ (actual_of item = nan -> gt (totalBudget this_data) 0%float = true ->
      analyzeTotals h this_data =
      {| insight :=
           "**Total Budget Analysis**" ++ nl ++ nl
           ++ "💰 **Total Budgeted**: $" ++ toLocaleString h (totalBudget this_data) ++ nl
           ++ "💸 **Total Actual**: $" ++ toLocaleString h nan ++ nl
           ++ "📊 **Overall Variance**: NaN%" ++ nl ++ nl
           ++ under_budget;
         data := Some (TotalsData (totalBudget this_data) nan nan);
         chartType := None |}).
Proof.
  intros Hin. destruct (totals_sum_of this_data) as [Hb Ha]. split.
  - intros Hnan.
    assert (Hb' : totalBudget this_data = nan)
      by (rewrite Hb; exact (sum_of_nan budget_of this_data item Hin Hnan)).
    rewrite (totals_result h this_data _ _ Hb' eq_refl). reflexivity.
  - intros Hnan Hpos.
    assert (Ha' : totalActual this_data = nan)
      by (rewrite Ha; exact (sum_of_nan actual_of this_data item Hin Hnan)).
    rewrite (totals_result h this_data _ _ eq_refl Ha').
    unfold variance_of. rewrite Hpos.
    rewrite sub_nan_l, div_nan_l, mul_nan_l. reflexivity.
Qed.

(** X6 at a budget of 100 whose actual reads [n/a]. *)
Lemma totals_unparsable_cell_witness :
  In [("Budget", Num 100%float); ("Actual", Str "n/a")]
     [[("Budget", Num 100%float); ("Actual", Str "n/a")]]
  /\ analyzeTotals Sample.host [[("Budget", Num 100%float); ("Actual", Str "n/a")]] =
     {| insight :=
          "**Total Budget Analysis**" ++ nl ++ nl
          ++ "💰 **Total Budgeted**: $100" ++ nl
          ++ "💸 **Total Actual**: $NaN" ++ nl
          ++ "📊 **Overall Variance**: NaN%" ++ nl ++ nl
          ++ under_budget;
        data := Some (TotalsData 100%float nan nan);
        chartType := None |}.
Proof.
  assert (H : In [("Budget", Num 100%float); ("Actual", Str "n/a")]
                 [[("Budget", Num 100%float); ("Actual", Str "n/a")]])
    by (left; reflexivity).
  split; [exact H|].
  exact (proj2 (totals_unparsable_cell Sample.host
                  [[("Budget", Num 100%float); ("Actual", Str "n/a")]]
                  [("Budget", Num 100%float); ("Actual", Str "n/a")] H) eq_refl eq_refl).
Defined.

Lemma averages_result (h : Host) (this_data : list row) (v : number) :
  averageVariance this_data = v ->
  analyzeAverages h this_data =
  {| insight :=
       "**Average Budget Analysis**" ++ nl ++ nl
       ++ "📊 **Average Budget**: $" ++ toLocaleString h (avgBudget this_data) ++ nl
       ++ "📈 **Average Actual**: $" ++ toLocaleString h (avgActual this_data) ++ nl
       ++ "🎯 **Average Variance**: " ++ signed_fixed1 h v ++ "%" ++ nl ++ nl
       ++ (if lt (abs v) 10%float then good_consistency else review_needed);
     data := Some (AveragesData (avgBudget this_data) (avgActual this_data) v);
     chartType := None |}.
Proof. intros <-. reflexivity. Qed.

Lemma averages_sum_of (this_data : list row) :
  avgBudget this_data = (sum_of budget_of this_data / of_nat (List.length this_data))%float
  /\ avgActual this_data = (sum_of actual_of this_data / of_nat (List.length this_data))%float.
Proof. split; reflexivity. Qed.

(** X7.  The averages analysis and the totals analysis agree: on every
    record set the average budget is the total budget of the totals
    analysis divided by the number of rows, the average actual is the
    total actual divided by the number of rows, and the average variance
    in the payload is [(avgActual - avgBudget) / avgBudget * 100] of these
    two quotients. *)
Theorem averages_from_totals (h : Host) (this_data : list row) :
  let n := of_nat (List.length this_data) in
  avgBudget this_data = (totalBudget this_data / n)%float
  /\ avgActual this_data = (totalActual this_data / n)%float
  /\ data (analyzeAverages h this_data)
     = Some (AveragesData (totalBudget this_data / n) (totalActual this_data / n)
               ((totalActual this_data / n - totalBudget this_data / n)
                / (totalBudget this_data / n) * 100))%float.
Proof.
  destruct (totals_sum_of this_data) as [Hb Ha].
  destruct (averages_sum_of this_data) as [Hb' Ha']. cbv zeta.
  rewrite Hb, Ha, <- Hb', <- Ha'. repeat split.
Qed.

(** X8.  On the empty record set, and on every record set in which the
    budget or the actual of some row parses to NaN, the average variance
    is NaN: the averages analysis prints it as [NaN%] and closes with the
    review-needed sentence. *)
Theorem averages_undefined (h : Host) (this_data : list row) :
  this_data = []
  \/ (exists item, In item this_data /\ (budget_of item = nan \/ actual_of item = nan)) ->
  averageVariance this_data = nan
  /\ analyzeAverages h this_data =
     {| insight :=
          "**Average Budget Analysis**" ++ nl ++ nl
          ++ "📊 **Average Budget**: $" ++ toLocaleString h (avgBudget this_data) ++ nl
          ++ "📈 **Average Actual**: $" ++ toLocaleString h (avgActual this_data) ++ nl
          ++ "🎯 **Average Variance**: NaN%" ++ nl ++ nl
          ++ review_needed;
        data := Some (AveragesData (avgBudget this_data) (avgActual this_data) nan);
        chartType := None |}.
Proof.
  intros H.
  assert (Hv : averageVariance this_data = nan).
  { destruct (averages_sum_of this_data) as [Hb Ha]. unfold averageVariance.
    destruct H as [-> | [item [Hin [Hnan | Hnan]]]].
    - reflexivity.
    - rewrite Hb, (sum_of_nan budget_of this_data item Hin Hnan).
      rewrite div_nan_l, sub_nan_r, div_nan_l, mul_nan_l. reflexivity.
    - rewrite Ha, (sum_of_nan actual_of this_data item Hin Hnan).
      rewrite div_nan_l, sub_nan_l, div_nan_l, mul_nan_l. reflexivity. }
  split; [exact Hv|]. rewrite (averages_result h this_data nan Hv). reflexivity.
Qed.

(** X8 at the empty record set. *)
Lemma averages_undefined_witness :
  averageVariance [] = nan
  /\ analyzeAverages Sample.host [] =
     {| insight :=
          "**Average Budget Analysis**" ++ nl ++ nl
          ++ "📊 **Average Budget**: $NaN" ++ nl
          ++ "📈 **Average Actual**: $NaN" ++ nl
          ++ "🎯 **Average Variance**: NaN%" ++ nl ++ nl
          ++ review_needed;
        data := Some (AveragesData nan nan nan);
        chartType := None |}.
Proof. exact (averages_undefined Sample.host [] (or_introl eq_refl)). Defined.

(** ** Rows without a usable budget or actual *)

Lemma no_variance_without_budget (budget actual : number) :
  gt budget 0%float = false \/ actual = nan ->
  gt (abs (variance_of budget actual)) 5%float = false.
Proof.
  unfold variance_of. intros [H | ->].
  - rewrite H. reflexivity.
  - destruct (gt budget 0%float); [|reflexivity].
    rewrite sub_nan_l, div_nan_l, mul_nan_l. reflexivity.
Qed.

(** X9.  The discrepancy analysis reports only rows whose parsed budget is
    greater than 0 and whose parsed actual is not NaN.  When no row of the
    record set is of that kind (the empty set, a sheet without budget
    column, ...), it answers with the excellent-accuracy sentence and an
    empty payload. *)
Theorem discrepancies_need_budget (h : Host) (this_data : list row) :
  (forall r, In r (discrepancies this_data) ->
     In (d_item r) this_data
     /\ gt (budget_of (d_item r)) 0%float = true
     /\ actual_of (d_item r) <> nan)
  /\ ((forall item, In item this_data ->
         gt (budget_of item) 0%float = false \/ actual_of item = nan) ->
      analyzeDiscrepancies h this_data =
      {| insight := "**Budget Variance Analysis**" ++ nl ++ nl ++ excellent_accuracy;
         data := Some (DiscrepancyData []);
         chartType := Some table |}).
Proof.
  split.
  - intros r Hr. unfold discrepancies in Hr. apply filter_In in Hr. destruct Hr as [Hin Hex].
    apply in_map_iff in Hin. destruct Hin as [item [<- Hin]]. simpl in *.
    split; [exact Hin|].
    destruct (gt (budget_of item) 0%float) eqn:Eb.
    + split; [reflexivity|]. intros Hnan.
      rewrite (no_variance_without_budget _ _ (or_intror Hnan)) in Hex. discriminate.
    + rewrite (no_variance_without_budget _ _ (or_introl Eb)) in Hex. discriminate.
  - intros Hall.
    assert (Hd : discrepancies this_data = []).
    { unfold discrepancies. apply filter_none. intros r Hr.
      apply in_map_iff in Hr. destruct Hr as [item [<- Hin]]. simpl.
      apply no_variance_without_budget. apply Hall. exact Hin. }
    unfold analyzeDiscrepancies. rewrite Hd. reflexivity.
Qed.

(** X9 at a row that has an actual of 50 and no budget. *)
Lemma discrepancies_need_budget_witness :
  analyzeDiscrepancies Sample.host [[("Year", Num 2024%float); ("Actual", Num 50%float)]] =
  {| insight := "**Budget Variance Analysis**" ++ nl ++ nl ++ excellent_accuracy;
     data := Some (DiscrepancyData []);
     chartType := Some table |}.
Proof.
  apply (proj2 (discrepancies_need_budget Sample.host
                  [[("Year", Num 2024%float); ("Actual", Num 50%float)]])).
  intros item [<- | []]. left. reflexivity.
Defined.

Lemma missed_nan (item : row) :
  budget_of item = nan \/ actual_of item = nan -> missed item = false.
Proof.
  unfold missed, gt. intros [-> | ->].
  - rewrite mul_nan_l. apply ltb_nan_l.
  - apply ltb_nan_r.
Qed.

(** X10.  A row whose budget or actual parses to NaN is never counted as a
    missed budget.  When every row of the record set is of that kind, the
    missed-budget analysis answers with the no-overruns sentence and an
    empty payload. *)
Theorem missed_budgets_unparsable (h : Host) (this_data : list row) (currentYear : N) :
  (forall item, In item (missedBudgets this_data) ->
     In item this_data /\ budget_of item <> nan /\ actual_of item <> nan)
  /\ ((forall item, In item this_data -> budget_of item = nan \/ actual_of item = nan) ->
      analyzeMissedBudgets h this_data currentYear =
      {| insight := "**Budget Performance Analysis**" ++ nl ++ nl ++ no_overruns;
         data := Some (RowData []);
         chartType := Some bar |}).
Proof.
  split.
  - intros item Hin. unfold missedBudgets in Hin. apply filter_In in Hin.
    destruct Hin as [Hin Hm]. split; [exact Hin|].
    split; intros Hnan.
    + rewrite (missed_nan item (or_introl Hnan)) in Hm. discriminate.
    + rewrite (missed_nan item (or_intror Hnan)) in Hm. discriminate.
  - intros Hall.
    assert (Hm : missedBudgets this_data = []).
    { unfold missedBudgets. apply filter_none. intros item Hin. apply missed_nan.
      apply Hall. exact Hin. }
    unfold analyzeMissedBudgets, missedCount. rewrite Hm. reflexivity.
Qed.

(** X10 at a row whose budget reads [n/a]. *)
Lemma missed_budgets_unparsable_witness :
  analyzeMissedBudgets Sample.host [[("Budget", Str "n/a"); ("Actual", Num 50%float)]] 2026 =
  {| insight := "**Budget Performance Analysis**" ++ nl ++ nl ++ no_overruns;
     data := Some (RowData []);
     chartType := Some bar |}.
Proof.
  apply (proj2 (missed_budgets_unparsable Sample.host
                  [[("Budget", Str "n/a"); ("Actual", Num 50%float)]] 2026)).
  intros item [<- | []]. left. reflexivity.
Defined.

(** X11.  A row with a parsed budget of 0 and a parsed actual greater than
    0 is treated differently by three analyses: the missed-budget analysis
    counts it as missed, the discrepancy analysis does not report it, and
    the performance analysis gives it a variance of 0 and the score
    Excellent. *)
Theorem unbudgeted_spending (item : row) :
  budget_of item = 0%float ->
  gt (actual_of item) 0%float = true ->
  missed item = true
  /\ gt (abs (d_variance (discrepancy_row item))) 5%float = false
  /\ p_variance (performance_row item) = 0%float
  /\ p_score (performance_row item) = "Excellent".
Proof.
  intros Hb Ha. unfold missed, discrepancy_row, performance_row. simpl.
  rewrite Hb. repeat split.
  change (0 * 1.05)%float with 0%float. exact Ha.
Qed.

(** X11 at a row that has an actual of 50 and no budget. *)
Lemma unbudgeted_spending_witness :
  budget_of [("Year", Num 2024%float); ("Actual", Num 50%float)] = 0%float
  /\ gt (actual_of [("Year", Num 2024%float); ("Actual", Num 50%float)]) 0%float = true
  /\ missed [("Year", Num 2024%float); ("Actual", Num 50%float)] = true
  /\ p_score (performance_row [("Year", Num 2024%float); ("Actual", Num 50%float)])
     = "Excellent".
Proof.
  split; [reflexivity|]. split; [reflexivity|].
  destruct (unbudgeted_spending [("Year", Num 2024%float); ("Actual", Num 50%float)]
              eq_refl eq_refl) as [H1 [_ [_ H4]]].
  split; [exact H1 | exact H4].
Defined.

(** ** Performance *)

Lemma performance_score_band (item : row) : In (p_score (performance_row item)) bands.
Proof.
  unfold performance_row, bands. cbn [p_score].
  destruct (lt _ 5%float); [simpl; tauto|].
  destruct (lt _ 15%float); [simpl; tauto|].
  destruct (lt _ 25%float); simpl; tauto.
Qed.

Lemma scores_fold (this_data : list row) :
  scores this_data = fold_left scores_step (performance this_data) [].
Proof. reflexivity. Qed.

Lemma scores_own_fold (l : list PerformanceRow) (band : string) :
  own (fold_left scores_step l []) band
  = (if (Spec.count (fun r => String.eqb (p_score r) band) l =? 0)%nat then None
     else Some (Spec.count (fun r => String.eqb (p_score r) band) l)).
Proof.
  revert band. induction l as [|r l IH] using rev_ind; intros band; [reflexivity|].
  rewrite fold_left_app, count_app. simpl.
  set (acc := fold_left scores_step l []) in *.
  unfold scores_step at 1.
  pose proof (IH (p_score r)) as Hr.
  assert (Hset : forall v, own (set acc (p_score r) v) band
                           = if String.eqb band (p_score r) then Some v else own acc band)
    by (intros v; apply own_set).
  destruct (own acc (p_score r)) as [c|] eqn:Eown; rewrite Hset, (String.eqb_sym band);
    destruct (String.eqb (p_score r) band) eqn:E.
  - apply String.eqb_eq in E. subst band.
    destruct (Spec.count _ l =? 0)%nat eqn:Ec; [discriminate|].
    injection Hr as ->.
    replace (_ + (1 + 0) =? 0)%nat with false by (symmetry; apply Nat.eqb_neq; lia).
    reflexivity.
  - rewrite IH. rewrite !Nat.add_0_r. reflexivity.
  - apply String.eqb_eq in E. subst band.
    destruct (Spec.count _ l =? 0)%nat eqn:Ec; [|discriminate].
    apply Nat.eqb_eq in Ec. rewrite Ec. reflexivity.
  - rewrite IH. rewrite !Nat.add_0_r. reflexivity.
Qed.

Lemma scores_sum_fold (l : list PerformanceRow) :
  list_sum (values (fold_left scores_step l [])) = List.length l.
Proof.
  induction l as [|r l IH] using rev_ind; [reflexivity|].
  rewrite fold_left_app, length_app. simpl.
  set (acc := fold_left scores_step l []) in *.
  unfold scores_step, set.
  destruct (own acc (p_score r)) as [c|] eqn:Eown.
  - pose proof (list_sum_values_replace acc (p_score r) (c + 1) c Eown). lia.
  - rewrite list_sum_values_add_new. lia.
Qed.

Lemma scores_keys_fold (l : list PerformanceRow) :
  NoDup (keys (fold_left scores_step l []))
  /\ forall k, In k (keys (fold_left scores_step l [])) <-> In k (map p_score l).
Proof.
  induction l as [|r l IH] using rev_ind.
  - split; [constructor | simpl; tauto].
  - rewrite fold_left_app, map_app. simpl.
    set (acc := fold_left scores_step l []) in *.
    destruct IH as [Hnd Hin].
    assert (H : forall v, NoDup (keys (set acc (p_score r) v))
                /\ forall k, In k (keys (set acc (p_score r) v))
                             <-> In k (map p_score l ++ [p_score r])%list).
    { intros v. destruct (keys_set acc (p_score r) v Hnd) as [H1 H2]. split; [exact H1|].
      intros k. rewrite H2, in_app_iff, Hin. simpl. intuition. }
    unfold scores_step. destruct (own acc (p_score r)); apply H.
Qed.

(** X12.  The performance analysis gives every row one of the four scores
    Excellent, Good, Fair and Poor.  Its distribution has one entry for
    each score that some row has and no other entry; the entry of a score
    is the number of rows with that score, and the entries add up to the
    number of rows.  The payload has one element per row, in the order of
    the record set. *)
Theorem performance_distribution (h : Host) (this_data : list row) :
  let tally band :=
    Spec.count (fun item => String.eqb (p_score (performance_row item)) band) this_data in
  (forall item, In (p_score (performance_row item)) bands)
  /\ NoDup (keys (scores this_data))
  /\ (forall band, In band (keys (scores this_data)) -> In band bands)
  /\ (forall band, own (scores this_data) band
                   = if (tally band =? 0)%nat then None else Some (tally band))
  /\ list_sum (values (scores this_data)) = List.length this_data
  /\ data (analyzePerformance h this_data)
     = Some (PerformanceData (map performance_row this_data)).
Proof.
  cbv zeta. rewrite scores_fold. unfold performance.
  split; [exact performance_score_band|].
  destruct (scores_keys_fold (map performance_row this_data)) as [Hnd Hin].
  split; [exact Hnd|]. split.
  - intros band Hb. apply Hin in Hb. rewrite map_map in Hb. apply in_map_iff in Hb.
    destruct Hb as [item [<- _]]. apply performance_score_band.
  - split.
    + intros band. rewrite scores_own_fold, count_map. reflexivity.
    + split; [|reflexivity]. rewrite scores_sum_fold. apply length_map.
Qed.

(** X12 on the two-year record set, whose variances are 20 and 10. *)
Lemma performance_distribution_witness :
  own (scores Sample.two_years) "Fair" = Some 1
  /\ own (scores Sample.two_years) "Good" = Some 1
  /\ own (scores Sample.two_years) "Poor" = None.
Proof.
  pose proof (proj1 (proj2 (proj2 (proj2
                (performance_distribution Sample.host Sample.two_years))))) as H.
  split; [exact (H "Fair")|]. split; [exact (H "Good") | exact (H "Poor")].
Defined.

(** X13.  The score of a row follows the magnitude of its variance: a row
    whose parsed budget is not greater than 0 has variance 0 and the score
    Excellent; otherwise the variance is [|(actual - budget) / budget| * 100];
    the score is Excellent exactly when the variance is below 5 and Poor
    exactly when it is not below 25 (nor below 15 or 5), so a row with a
    budget greater than 0 whose actual parses to NaN has a NaN variance and
    the score Poor.  The best performers are at most three rows of the
    record set with the score Excellent, the worst performers at most
    three with the score Poor. *)
Theorem performance_bands (this_data : list row) (item : row) :
  let v := p_variance (performance_row item) in
  let score := p_score (performance_row item) in
  (gt (budget_of item) 0%float = false -> v = 0%float /\ score = "Excellent")
  /\ (gt (budget_of item) 0%float = true ->
      v = (abs ((actual_of item - budget_of item) / budget_of item) * 100)%float)
  /\ (gt (budget_of item) 0%float = true -> actual_of item = nan ->
      v = nan /\ score = "Poor")
  /\ (score = "Excellent" <-> lt v 5%float = true)
  /\ (score = "Poor" <-> lt v 25%float = false /\ lt v 15%float = false /\ lt v 5%float = false)
  /\ List.length (bestPerformers this_data) <= 3
  /\ List.length (worstPerformers this_data) <= 3
  /\ (forall r, In r (bestPerformers this_data) ->
        p_score r = "Excellent" /\ In (p_item r) this_data)
  /\ (forall r, In r (worstPerformers this_data) ->
        p_score r = "Poor" /\ In (p_item r) this_data).
Proof.
  cbv zeta. unfold performance_row. cbn [p_variance p_score].
  split; [intros ->; split; reflexivity|].
  split; [intros ->; reflexivity|].
  split.
  { intros -> ->. rewrite sub_nan_l, div_nan_l. split; reflexivity. }
  split.
  { destruct (lt _ 5%float); [split; reflexivity|].
    destruct (lt _ 15%float); [split; discriminate|].
    destruct (lt _ 25%float); split; discriminate. }
  split.
  { destruct (lt _ 5%float); [split; [discriminate | intros [_ [_ H]]; discriminate]|].
    destruct (lt _ 15%float); [split; [discriminate | intros [_ [H _]]; discriminate]|].
    destruct (lt _ 25%float); [split; [discriminate | intros [H _]; discriminate]|].
    split; [intros _; repeat split | reflexivity]. }
  unfold bestPerformers, worstPerformers, performance.
  split; [apply firstn_le_length|]. split; [apply firstn_le_length|].
  split; intros r Hr; apply In_firstn in Hr; apply filter_In in Hr; destruct Hr as [Hin Hs];
    apply String.eqb_eq in Hs; (split; [exact Hs|]);
    apply in_map_iff in Hin; destruct Hin as [x [<- Hx]]; exact Hx.
Qed.

(** X13 at a budget of 100 whose actual reads [n/a]. *)
Lemma performance_bands_witness :
  gt (budget_of [("Budget", Num 100%float); ("Actual", Str "n/a")]) 0%float = true
  /\ actual_of [("Budget", Num 100%float); ("Actual", Str "n/a")] = nan
  /\ p_score (performance_row [("Budget", Num 100%float); ("Actual", Str "n/a")]) = "Poor".
Proof.
  split; [reflexivity|]. split; [reflexivity|].
  exact (proj2 (proj1 (proj2 (proj2
           (performance_bands [] [("Budget", Num 100%float); ("Actual", Str "n/a")])))
           eq_refl eq_refl)).
Defined.

(** ** More on the classifier *)

Lemma occurs_within (kw a q b : string) :
  Spec.occurs kw q -> Spec.occurs kw (a ++ q ++ b).
Proof.
  intros [x [y ->]]. exists (a ++ x), (y ++ b).
  rewrite !append_assoc. reflexivity.
Qed.

Lemma hitsb_within (a q b : string) (kws : list string) :
  Spec.hitsb q kws = true -> Spec.hitsb (a ++ q ++ b) kws = true.
Proof.
  unfold Spec.hitsb. rewrite !existsb_exists. intros [kw [Hin H]]. exists kw.
  split; [exact Hin|]. apply includes_occurs. apply includes_occurs in H.
  rewrite !toLowerCase_app. apply occurs_within. exact H.
Qed.

Lemma first_index_mono {A} (p p' : A -> bool) (l : list A) :
  (forall x, p x = true -> p' x = true) -> first_index p' l <= first_index p l.
Proof.
  intros H. induction l as [|x l IH]; simpl; [lia|].
  destruct (p x) eqn:E; [rewrite (H x E); lia|].
  destruct (p' x); lia.
Qed.

Lemma priority_first_match (q : string) :
  priority (Spec.first_match q)
  = first_index (fun e => Spec.hitsb q (snd e)) Spec.keyword_table.
Proof.
  unfold Spec.first_match, Spec.keyword_table. cbn [find first_index snd fst].
  repeat (destruct (Spec.hitsb q _); [reflexivity|]). reflexivity.
Qed.

(** X14.  Text put before or after a question never moves it to a later
    analysis in the chain of tests: the analysis chosen for [a ++ q ++ b]
    stands at or before the one chosen for [q].  So a question routed to
    the trend analysis stays there whatever is added to it, and a question
    that ends in the fallback has no part that would be routed elsewhere. *)
Theorem classify_within (a q b : string) :
  priority (classify (a ++ q ++ b)) <= priority (classify q)
  /\ (classify q = Trends -> classify (a ++ q ++ b) = Trends)
  /\ (classify (a ++ q ++ b) = GeneralInsight -> classify q = GeneralInsight).
Proof.
  assert (H : priority (classify (a ++ q ++ b)) <= priority (classify q)).
  { rewrite !classify_table, !priority_first_match. apply first_index_mono.
    intros e. apply hitsb_within. }
  split; [exact H|]. split.
  - intros E. rewrite E in H. destruct (classify (a ++ q ++ b)); simpl in H; try lia; reflexivity.
  - intros E. rewrite E in H. destruct (classify q); simpl in H; try lia; reflexivity.
Qed.

(** X14 at the question [trend], extended on both sides. *)
Lemma classify_within_witness :
  classify "trend" = Trends
  /\ classify ("what is the " ++ "trend" ++ " of the total variance") = Trends.
Proof.
  split; [reflexivity|].
  exact (proj1 (proj2 (classify_within "what is the " "trend" " of the total variance"))
               eq_refl).
Defined.

(** X15.  The choice of the analysis does not depend on the case of the
    ASCII letters of the question: two questions with the same lower-case
    form are routed alike, and a question is routed like its lower-case
    form and like its upper-case form. *)
Theorem classify_ignores_case (q q' : string) :
  (toLowerCase q = toLowerCase q' -> classify q = classify q')
  /\ classify (toLowerCase q) = classify q
  /\ classify (toUpperCase q) = classify q.
Proof.
  unfold classify. split; [intros ->; reflexivity|].
  rewrite toLowerCase_idem, toLowerCase_upper. split; reflexivity.
Qed.

(** X15 at two spellings of one question. *)
Lemma classify_ignores_case_witness :
  classify "Show The TOTAL" = classify "show the total".
Proof.
  exact (proj1 (classify_ignores_case "Show The TOTAL" "show the total") eq_refl).
Defined.

(** ** The outcome of the ledger analysis *)

Lemma is_gl_field_occurs (key : string) :
  is_gl_field key = true
  <-> Spec.occurs "gl" (toLowerCase key) \/ Spec.occurs "account" (toLowerCase key)
      \/ Spec.occurs "code" (toLowerCase key).
Proof.
  unfold is_gl_field. rewrite !orb_true_iff, !includes_occurs. tauto.
Qed.

(** X16.  Only the field names of the first row decide how the ledger
    analysis ends.  The fields it takes for ledger fields are those of the
    first row whose lower-case name contains [gl], [account] or [code].
    If there is such a field the call ends with the reference error on
    [glSummary]; if there is none (as on the empty record set) it returns
    the no-ledger-fields narrative with a null payload and the table tag. *)
Theorem ledger_outcome (this_data : list row) :
  let named key :=
    Spec.occurs "gl" (toLowerCase key) \/ Spec.occurs "account" (toLowerCase key)
    \/ Spec.occurs "code" (toLowerCase key) in
  ((exists key, In key (keys (hd [] this_data)) /\ named key) ->
   analyzeGLEntries this_data = Throw (ReferenceError "glSummary"))
  /\ (~ (exists key, In key (keys (hd [] this_data)) /\ named key) ->
      analyzeGLEntries this_data =
      Normal {| insight := "**General Ledger Analysis**" ++ nl ++ nl ++ no_gl_fields;
                data := Some NullData;
                chartType := Some table |})
  /\ (forall field, In field (glFields this_data)
                    <-> In field (keys (hd [] this_data)) /\ named field).
Proof.
  cbv zeta.
  assert (Hf : forall field, In field (glFields this_data)
                    <-> In field (keys (hd [] this_data))
                        /\ (Spec.occurs "gl" (toLowerCase field)
                            \/ Spec.occurs "account" (toLowerCase field)
                            \/ Spec.occurs "code" (toLowerCase field))).
  { intros field. unfold glFields. rewrite filter_In, is_gl_field_occurs. reflexivity. }
  split; [|split; [|exact Hf]].
  - intros [key Hk]. apply analyzeGLEntries_fields. apply Hf in Hk.
    intros E. rewrite E in Hk. destruct Hk.
  - intros Hno. apply analyzeGLEntries_no_fields.
    destruct (glFields this_data) as [|f r] eqn:E; [reflexivity|].
    exfalso. apply Hno. exists f. apply Hf. left. reflexivity.
Qed.

(** X16 at a row with a field named [Account_Code]. *)
Lemma ledger_outcome_witness :
  In "Account_Code" (keys (hd [] [[("Account_Code", Str "4000"); ("Budget", Num 100%float)]]))
  /\ Spec.occurs "account" (toLowerCase "Account_Code")
  /\ analyzeGLEntries [[("Account_Code", Str "4000"); ("Budget", Num 100%float)]]
     = Throw (ReferenceError "glSummary").
Proof.
  assert (H1 : In "Account_Code"
                  (keys (hd [] [[("Account_Code", Str "4000"); ("Budget", Num 100%float)]])))
    by (left; reflexivity).
  assert (H2 : Spec.occurs "account" (toLowerCase "Account_Code"))
    by (exists "", "_code"; reflexivity).
  split; [exact H1|]. split; [exact H2|].
  exact (proj1 (ledger_outcome [[("Account_Code", Str "4000"); ("Budget", Num 100%float)]])
               (ex_intro _ "Account_Code" (conj H1 (or_intror (or_introl H2))))).
Defined.

(** ** The page *)

(** X17.  What the chat answers.  With no data loaded the answer is the
    request to upload data, whatever the question.  With data loaded, a
    question routed to the ledger analysis is answered with the generic
    error message when the first row has a ledger field, and with the
    no-ledger-fields narrative when it has none; every other question is
    answered with the narrative of the analysis it is routed to, which
    always completes. *)
Theorem chat_answer (h : Host) (budgetData : list row) (now : Moment) (message : string) :
  (budgetData = [] -> Page.handleSendMessage h budgetData now message = Page.upload_first)
  /\ (budgetData <> [] -> classify message = GLEntries -> glFields budgetData <> [] ->
      Page.handleSendMessage h budgetData now message = Page.analysis_error)
  /\ (budgetData <> [] -> classify message = GLEntries -> glFields budgetData = [] ->
      Page.handleSendMessage h budgetData now message
      = "**General Ledger Analysis**" ++ nl ++ nl ++ no_gl_fields)
  /\ (budgetData <> [] -> classify message <> GLEntries ->
      exists result,
        analyzeQuery h budgetData now message = Normal result
        /\ Page.handleSendMessage h budgetData now message = insight result).
Proof.
  unfold Page.handleSendMessage, analyzeQuery.
  split; [intros ->; reflexivity|].
  assert (Hlen : budgetData <> [] -> (List.length budgetData =? 0)%nat = false).
  { destruct budgetData; [congruence | reflexivity]. }
  split; [|split].
  - intros Hne Hc Hgl. rewrite (Hlen Hne), Hc. simpl.
    rewrite (analyzeGLEntries_fields budgetData Hgl). reflexivity.
  - intros Hne Hc Hgl. rewrite (Hlen Hne), Hc. simpl.
    rewrite (analyzeGLEntries_no_fields budgetData Hgl). reflexivity.
  - intros Hne Hc. rewrite (Hlen Hne).
    destruct (classify message); try congruence; simpl; eexists; split; reflexivity.
Qed.

(** X17 at the question [Analyze our GL accounts], on the ledger rows and
    with no data. *)
Lemma chat_answer_witness :
  Page.handleSendMessage Sample.host Sample.ledger_rows
                         {| fullYear := 2026; random := 0%float |} "Analyze our GL accounts"
  = Page.analysis_error
  /\ Page.handleSendMessage Sample.host [] {| fullYear := 2026; random := 0%float |}
                            "Analyze our GL accounts"
     = Page.upload_first.
Proof.
  split.
  - apply (proj1 (proj2 (chat_answer Sample.host Sample.ledger_rows
                           {| fullYear := 2026; random := 0%float |}
                           "Analyze our GL accounts")));
      [discriminate | reflexivity | discriminate].
  - exact (proj1 (chat_answer Sample.host [] {| fullYear := 2026; random := 0%float |}
                    "Analyze our GL accounts") eq_refl).
Defined.

(** ** The chart tag and the payload *)

(** X22.  The chart tag of a result tells the shape of its payload.  A
    result tagged [line] comes from the trend analysis and carries the
    yearly series, of at least two points; one tagged [bar] carries the
    missed rows or the scored rows; one tagged [table] carries the ranked
    discrepancies, or null when the ledger analysis found no ledger field;
    a result without tag carries no payload (too few years for a trend,
    or the fallback) or the figures of the totals or of the averages. *)
Theorem chart_tag_payload (h : Host) (this_data : list row) (now : Moment)
        (query : string) (r : BudgetAnalysisResult) :
  analyzeQuery h this_data now query = Normal r ->
  match chartType r with
  | Some line =>
      classify query = Trends
      /\ data r = Some (TrendData (trendAnalysis h this_data (fullYear now)))
      /\ 2 <= List.length (trendAnalysis h this_data (fullYear now))
  | Some bar =>
      (classify query = MissedBudgets /\ data r = Some (RowData (missedBudgets this_data)))
      \/ (classify query = Performance
          /\ data r = Some (PerformanceData (performance this_data)))
  | Some table =>
      (classify query = Discrepancies
       /\ data r = Some (DiscrepancyData (sorted_discrepancies this_data)))
      \/ (classify query = GLEntries /\ glFields this_data = []
          /\ data r = Some NullData)
  | None =>
      (classify query = Trends /\ data r = None
       /\ List.length (years h this_data (fullYear now)) < 2)
      \/ (classify query = Totals
          /\ data r = Some (TotalsData (totalBudget this_data) (totalActual this_data)
                                       (totalVariance this_data)))
      \/ (classify query = Averages
          /\ data r = Some (AveragesData (avgBudget this_data) (avgActual this_data)
                                         (averageVariance this_data)))
      \/ (classify query = GeneralInsight /\ data r = None)
  end.
Proof.
  unfold analyzeQuery. destruct (classify query); cbn [run]; intros H.
  - injection H as <-. unfold analyzeTrends.
    destruct (List.length (years h this_data (fullYear now)) <? 2)%nat eqn:E;
      cbn [chartType data].
    + left. apply Nat.ltb_lt in E. repeat split. exact E.
    + apply Nat.ltb_ge in E. repeat split.
      unfold trendAnalysis. rewrite length_map. exact E.
  - injection H as <-. left. split; reflexivity.
  - injection H as <-. unfold analyzeDiscrepancies.
    destruct (List.length (discrepancies this_data) =? 0)%nat eqn:E; cbn [chartType data].
    + left. split; [reflexivity|]. apply Nat.eqb_eq in E.
      unfold sorted_discrepancies. destruct (discrepancies this_data); [reflexivity|].
      discriminate.
    + left. split; reflexivity.
  - injection H as <-. right. left. split; reflexivity.
  - injection H as <-. right. right. left. split; reflexivity.
  - injection H as <-. right. split; reflexivity.
  - unfold analyzeGLEntries in H.
    destruct (List.length (glFields this_data) =? 0)%nat eqn:E; [|discriminate].
    injection H as <-. right. apply Nat.eqb_eq in E.
    split; [reflexivity|]. split; [|reflexivity].
    destruct (glFields this_data); [reflexivity | discriminate].
  - injection H as <-. right. right. right. split; reflexivity.
Qed.

(** X22 at the question [trend] on the two-year record set. *)
Lemma chart_tag_payload_witness :
  analyzeQuery Sample.host Sample.two_years {| fullYear := 2026; random := 0%float |} "trend"
  = Normal (analyzeTrends Sample.host Sample.two_years 2026)
  /\ data (analyzeTrends Sample.host Sample.two_years 2026)
     = Some (TrendData (trendAnalysis Sample.host Sample.two_years 2026)).
Proof.
  assert (H : analyzeQuery Sample.host Sample.two_years
                           {| fullYear := 2026; random := 0%float |} "trend"
              = Normal (analyzeTrends Sample.host Sample.two_years 2026))
    by reflexivity.
  split; [exact H|].
  pose proof (chart_tag_payload Sample.host Sample.two_years
                {| fullYear := 2026; random := 0%float |} "trend" _ H) as P.
  change (chartType (analyzeTrends Sample.host Sample.two_years 2026)) with (Some line) in P.
  exact (proj1 (proj2 P)).
Defined.

(** ** The visualization *)

Lemma yearlyData_step_sums (h : Host) (currentYear : N)
      (acc : object DataVisualization.YearStats) (item : row) :
  map_values sums_of_stats (DataVisualization.yearlyData_step h currentYear acc item)
  = groupByYear_step h currentYear (map_values sums_of_stats acc) item.
Proof.
  unfold DataVisualization.yearlyData_step, groupByYear_step.
  rewrite own_map_values.
  destruct (own acc (year_of h currentYear item)) as [s|]; simpl.
  - rewrite map_values_set. reflexivity.
  - destruct (inherited (year_of h currentYear item)); [reflexivity|].
    rewrite map_values_set. reflexivity.
Qed.

(** Without its counts, [yearlyData] is [groupByYear]. *)
Lemma yearlyData_sums (h : Host) (budgetData : list row) (currentYear : N) :
  map_values sums_of_stats (DataVisualization.yearlyData h budgetData currentYear)
  = groupByYear h budgetData currentYear.
Proof.
  unfold DataVisualization.yearlyData, groupByYear.
  change (@nil (string * YearSums)) with (map_values sums_of_stats []).
  generalize (@nil (string * DataVisualization.YearStats)) as acc.
  induction budgetData as [|item l IH]; intros acc; simpl; [reflexivity|].
  rewrite IH, yearlyData_step_sums. reflexivity.
Qed.

Lemma stats_at_sums (h : Host) (budgetData : list row) (currentYear : N) (year : string) :
  let s := DataVisualization.stats_at
             (DataVisualization.yearlyData h budgetData currentYear) year in
  DataVisualization.yd_budget s = tp_budget (trend_point h budgetData currentYear year)
  /\ DataVisualization.yd_actual s = tp_actual (trend_point h budgetData currentYear year).
Proof.
  cbv zeta. unfold DataVisualization.stats_at, trend_point.
  rewrite <- yearlyData_sums, own_map_values.
  destruct (own (DataVisualization.yearlyData h budgetData currentYear) year);
    split; reflexivity.
Qed.

Lemma trend_years (h : Host) (budgetData : list row) (currentYear : N) :
  map tp_year (trendAnalysis h budgetData currentYear) = years h budgetData currentYear.
Proof. unfold trendAnalysis. rewrite map_map. cbn [trend_point tp_year]. apply map_id. Qed.

Lemma insights_some (h : Host) (budgetData : list row) (currentYear : N) :
  budgetData <> [] ->
  DataVisualization.insights h budgetData currentYear =
  Some {| DataVisualization.years := map tp_year (trendAnalysis h budgetData currentYear);
          DataVisualization.budgetValues := map tp_budget (trendAnalysis h budgetData currentYear);
          DataVisualization.actualValues := map tp_actual (trendAnalysis h budgetData currentYear);
          DataVisualization.variance := map tp_variance (trendAnalysis h budgetData currentYear);
          DataVisualization.totalRecords := List.length budgetData;
          DataVisualization.averageVariance :=
            (fold_left (fun a p => (a + tp_variance p)%float)
                       (trendAnalysis h budgetData currentYear) 0%float
             / of_nat (List.length (trendAnalysis h budgetData currentYear)))%float |}.
Proof.
  intros Hne. unfold DataVisualization.insights.
  assert (Hlen : (List.length budgetData =? 0)%nat = false)
    by (destruct budgetData; [congruence | reflexivity]).
  rewrite Hlen.
  assert (Hk : sort_strings (keys (DataVisualization.yearlyData h budgetData currentYear))
               = years h budgetData currentYear).
  { unfold years. rewrite <- yearlyData_sums, keys_map_values. reflexivity. }
  rewrite Hk, trend_years. unfold trendAnalysis. rewrite !map_map, !length_map.
  rewrite !fold_left_over_map.
  assert (Hb : forall year,
             DataVisualization.yd_budget
               (DataVisualization.stats_at
                  (DataVisualization.yearlyData h budgetData currentYear) year)
             = tp_budget (trend_point h budgetData currentYear year))
    by (intros year; apply stats_at_sums).
  assert (Ha : forall year,
             DataVisualization.yd_actual
               (DataVisualization.stats_at
                  (DataVisualization.yearlyData h budgetData currentYear) year)
             = tp_actual (trend_point h budgetData currentYear year))
    by (intros year; apply stats_at_sums).
  f_equal. f_equal.
  - apply map_ext. exact Hb.
  - apply map_ext. exact Ha.
  - apply map_ext. intros year. rewrite Hb, Ha. reflexivity.
  - f_equal. apply fold_left_ext_eq. intros a year. rewrite Hb, Ha. reflexivity.
Qed.

(** X18.  The visualization and the trend analysis of the chat compute
    the same yearly series.  On the empty record set the visualization has
    no insights; on every other record set its years, yearly budgets,
    yearly actuals and yearly variances are, position by position, the
    years, budgets, actuals and variances of the series of the trend
    analysis (so the four arrays have the same length), its record count
    is the number of rows, and its average variance is the sum of the
    yearly variances divided by their number.  There are never more years
    than rows. *)
Theorem insights_agree_with_trends (h : Host) (budgetData : list row) (currentYear : N) :
  let series := trendAnalysis h budgetData currentYear in
  (budgetData = [] -> DataVisualization.insights h budgetData currentYear = None)
  /\ (budgetData <> [] ->
      DataVisualization.insights h budgetData currentYear =
      Some {| DataVisualization.years := map tp_year series;
              DataVisualization.budgetValues := map tp_budget series;
              DataVisualization.actualValues := map tp_actual series;
              DataVisualization.variance := map tp_variance series;
              DataVisualization.totalRecords := List.length budgetData;
              DataVisualization.averageVariance :=
                (fold_left (fun a p => (a + tp_variance p)%float) series 0%float
                 / of_nat (List.length series))%float |})
  /\ map tp_year series = years h budgetData currentYear
  /\ List.length series <= List.length budgetData.
Proof.
  cbv zeta.
  split; [intros ->; reflexivity|].
  split; [apply insights_some|]. split; [apply trend_years|].
  unfold trendAnalysis, years. rewrite length_map.
  rewrite (Permutation_length (sort_strings_perm _)).
  destruct (groupByYear_keys h budgetData currentYear) as [Hnd Hin].
  rewrite <- (length_map (year_of h currentYear) budgetData).
  apply NoDup_incl_length; [exact Hnd|]. intros y Hyk. apply Hin in Hyk. tauto.
Qed.

(** X18 on the two-year record set. *)
Lemma insights_agree_with_trends_witness :
  DataVisualization.insights Sample.host Sample.two_years 2026 =
  Some {| DataVisualization.years := ["2021"; "2022"];
          DataVisualization.budgetValues := [100%float; 100%float];
          DataVisualization.actualValues := [120%float; 90%float];
          DataVisualization.variance := [20%float; (-10)%float];
          DataVisualization.totalRecords := 2;
          DataVisualization.averageVariance := 5%float |}.
Proof.
  apply (proj1 (proj2 (insights_agree_with_trends Sample.host Sample.two_years 2026))).
  discriminate.
Defined.

(** X19.  An actual that parses to NaN makes the status card of the
    visualization read Good.  If the actual of some row parses to NaN,
    the row's year is not the name of a member of [Object.prototype], and
    the budgets of that year sum to more than 0, then the variance of
    that year and the average variance are NaN, the average-variance card
    reads [NaN%], and the status card reads Good. *)
Theorem status_on_unparsable_actual (h : Host) (budgetData : list row) (currentYear : N)
        (item : row) :
  let year := year_of h currentYear item in
  In item budgetData ->
  actual_of item = nan ->
  inherited year = false ->
  gt (sum_of budget_of (filed_under h currentYear year budgetData)) 0%float = true ->
  exists ins,
    DataVisualization.insights h budgetData currentYear = Some ins
    /\ In nan (DataVisualization.variance ins)
    /\ DataVisualization.averageVariance ins = nan
    /\ DataVisualization.average_card h ins = "NaN%"
    /\ DataVisualization.status ins = "Good".
Proof.
  cbv zeta. intros Hin Hnan Hi Hpos.
  assert (Hne : budgetData <> []) by (intros ->; destruct Hin).
  eexists. split; [apply insights_some; exact Hne|].
  set (y := year_of h currentYear item) in *.
  assert (Hf : In item (filed_under h currentYear y budgetData)).
  { unfold filed_under. apply filter_In. split; [exact Hin | apply String.eqb_refl]. }
  assert (Hy : In y (years h budgetData currentYear)).
  { unfold years. apply (Permutation_in _ (Permutation_sym (sort_strings_perm _))).
    apply (proj2 (groupByYear_keys h budgetData currentYear)). split; [|exact Hi].
    apply in_map. exact Hin. }
  assert (Hv : tp_variance (trend_point h budgetData currentYear y) = nan).
  { unfold trend_point. cbn [tp_variance]. rewrite groupByYear_own, Hi.
    unfold year_sums. destruct (filed_under h currentYear y budgetData) eqn:E; [destruct Hf|].
    rewrite <- E in *. cbn [ys_budget ys_actual]. unfold variance_of. rewrite Hpos.
    rewrite (sum_of_nan actual_of _ item Hf Hnan).
    rewrite sub_nan_l, div_nan_l, mul_nan_l. reflexivity. }
  assert (Hp : In (trend_point h budgetData currentYear y)
                  (trendAnalysis h budgetData currentYear))
    by (unfold trendAnalysis; apply in_map; exact Hy).
  assert (Havg : (fold_left (fun a p => (a + tp_variance p)%float)
                            (trendAnalysis h budgetData currentYear) 0%float
                  / of_nat (List.length (trendAnalysis h budgetData currentYear)))%float = nan).
  { rewrite (fold_add_nan tp_variance _ _ 0%float Hp Hv). apply div_nan_l. }
  cbn [DataVisualization.variance DataVisualization.averageVariance].
  split.
  - rewrite <- Hv. apply in_map. exact Hp.
  - split; [exact Havg|].
    unfold DataVisualization.average_card, DataVisualization.status.
    cbn [DataVisualization.averageVariance]. rewrite Havg. split; reflexivity.
Qed.

(** X19 at a row of 2024 with a budget of 100 whose actual reads [n/a],
    beside a row of 2023 that is on budget. *)
Lemma status_on_unparsable_actual_witness :
  exists ins,
    DataVisualization.insights Sample.host
      [ [("Year", Num 2023%float); ("Budget", Num 100%float); ("Actual", Num 100%float)];
        [("Year", Num 2024%float); ("Budget", Num 100%float); ("Actual", Str "n/a")] ] 2026
    = Some ins
    /\ In nan (DataVisualization.variance ins)
    /\ DataVisualization.averageVariance ins = nan
    /\ DataVisualization.average_card Sample.host ins = "NaN%"
    /\ DataVisualization.status ins = "Good".
Proof.
  exact (status_on_unparsable_actual Sample.host
           [ [("Year", Num 2023%float); ("Budget", Num 100%float); ("Actual", Num 100%float)];
             [("Year", Num 2024%float); ("Budget", Num 100%float); ("Actual", Str "n/a")] ]
           2026
           [("Year", Num 2024%float); ("Budget", Num 100%float); ("Actual", Str "n/a")]
           (or_intror (or_introl eq_refl)) eq_refl eq_refl eq_refl).
Defined.

(** X20.  The preview table has at most five columns and at most five
    rows of at most five cells.  Its header is taken from the first row
    only, and the cells of a row are that row's own values in their own
    order: for a previewed row with the same field names, in the same
    order, as the first row, the cell under each header is the string
    form of the row's value of that field. *)
Theorem preview_columns (h : Host) (budgetData : list row) (row : row) :
  List.length (DataVisualization.preview_header budgetData) <= 5
  /\ List.length (DataVisualization.preview_rows h budgetData) <= 5
  /\ (forall cells, In cells (DataVisualization.preview_rows h budgetData) ->
        List.length cells <= 5)
  /\ (In row (firstn 5 budgetData) ->
      NoDup (keys row) ->
      keys row = keys (hd [] budgetData) ->
      In (map (fun key => to_string h (get row key))
              (DataVisualization.preview_header budgetData))
         (DataVisualization.preview_rows h budgetData)).
Proof.
  unfold DataVisualization.preview_header, DataVisualization.preview_rows.
  split; [apply firstn_le_length|].
  split; [rewrite length_map; apply firstn_le_length|].
  split.
  - intros cells Hc. apply in_map_iff in Hc. destruct Hc as [r [<- _]].
    rewrite length_map. apply firstn_le_length.
  - intros Hin Hnd Hk. apply in_map_iff. exists row. split; [|exact Hin].
    rewrite <- Hk. rewrite <- (get_values row Hnd) at 1.
    rewrite firstn_map, map_map. reflexivity.
Qed.

(** X20 at the second row of the two-year record set. *)
Lemma preview_columns_witness :
  In ["2022"; "100"; "90"] (DataVisualization.preview_rows Sample.host Sample.two_years).
Proof.
  apply (proj2 (proj2 (proj2 (preview_columns Sample.host Sample.two_years
           [("Year", Num 2022%float); ("Budget", Num 100%float); ("Actual", Num 90%float)])))).
  - right. left. reflexivity.
  - repeat constructor; simpl; intuition discriminate.
  - reflexivity.
Defined.

(** ** The upload *)

Lemma length_append (a b : string) :
  String.length (a ++ b) = String.length a + String.length b.
Proof. induction a as [|c a IH]; simpl; [reflexivity | now rewrite IH]. Qed.

Lemma append_suffix_eq (a b s t : string) :
  String.length s = String.length t -> a ++ s = b ++ t -> s = t.
Proof.
  revert b. induction a as [|c a IH]; intros [|d b] Hlen H; simpl in H.
  - exact H.
  - apply (f_equal String.length) in H. simpl in H. rewrite length_append in H. lia.
  - apply (f_equal String.length) in H. simpl in H. rewrite length_append in H. lia.
  - injection H as _ H. exact (IH b Hlen H).
Qed.

Lemma matches_extension_ends (name : string) :
  FileUpload.matches_extension name = true
  <-> exists base, name = base ++ ".xlsx" \/ name = base ++ ".xls".
Proof.
  induction name as [|c r IH].
  - simpl. split; [discriminate|]. intros [[|d b] [H|H]]; discriminate.
  - cbn [FileUpload.matches_extension].
    destruct (String.eqb (String c r) ".xlsx") eqn:E1.
    { apply String.eqb_eq in E1. simpl. split; [|reflexivity].
      intros _. exists "". left. exact E1. }
    destruct (String.eqb (String c r) ".xls") eqn:E2.
    { apply String.eqb_eq in E2. simpl. split; [|reflexivity].
      intros _. exists "". right. exact E2. }
    simpl. rewrite IH. apply String.eqb_neq in E1, E2. split.
    + intros [base [H|H]]; exists (String c base); [left | right]; simpl; now rewrite H.
    + intros [[|d base] [H|H]]; simpl in H; try congruence;
        injection H as _ H; exists base; [left | right]; exact H.
Qed.

(** X21.  The upload accepts a file exactly when its name ends in [.xlsx]
    or in [.xls], in lower case: whatever stands before, a name ending in
    [.xlsx] or [.xls] is accepted, and a name ending in [.XLSX], [.XLS],
    [.csv] or [.xlsx.bak] is refused. *)
Theorem upload_name_check (name base : string) :
  (FileUpload.matches_extension name = true
   <-> exists stem, name = stem ++ ".xlsx" \/ name = stem ++ ".xls")
  /\ FileUpload.matches_extension (base ++ ".xlsx") = true
  /\ FileUpload.matches_extension (base ++ ".xls") = true
  /\ FileUpload.matches_extension (base ++ ".XLSX") = false
  /\ FileUpload.matches_extension (base ++ ".XLS") = false
  /\ FileUpload.matches_extension (base ++ ".csv") = false
  /\ FileUpload.matches_extension (base ++ ".xlsx.bak") = false.
Proof.
  split; [apply matches_extension_ends|].
  split; [apply matches_extension_ends; exists base; left; reflexivity|].
  split; [apply matches_extension_ends; exists base; right; reflexivity|].
  assert (Hno : forall tail4 : string,
             String.length tail4 = 4 -> tail4 <> "xlsx" -> tail4 <> ".xls" ->
             forall pre, FileUpload.matches_extension (pre ++ tail4) = false).
  { intros tail4 Hlen H1 H2 pre. apply not_true_is_false. intros H.
    apply matches_extension_ends in H. destruct H as [stem [H|H]].
    - apply H1. apply (append_suffix_eq pre (stem ++ ".") tail4 "xlsx" Hlen).
      rewrite H, append_assoc. reflexivity.
    - apply H2. exact (append_suffix_eq pre stem tail4 ".xls" Hlen H). }
  split; [|split; [|split]].
  - change (base ++ ".XLSX") with (base ++ "." ++ "XLSX"). rewrite <- append_assoc.
    apply Hno; [reflexivity | discriminate | discriminate].
  - apply Hno; [reflexivity | discriminate | discriminate].
  - apply Hno; [reflexivity | discriminate | discriminate].
  - change (base ++ ".xlsx.bak") with (base ++ ".xlsx" ++ ".bak"). rewrite <- append_assoc.
    apply Hno; [reflexivity | discriminate | discriminate].
Qed.
